(** * The Darwinian Engine: evolution pipeline of self-evolving agents

    A shallow embedding of the backend Lambda functions
    (mutator_agent, judge_agent, supervisor_agent, proxy_agent,
    critic_agent) and the properties of the retry / escalation /
    promotion cycle.

    Layout:
    - [Py]: the Python values the handlers compute with (DynamoDB items,
      parsed JSON), exceptions, and the dictionary / list primitives;
    - [Env]: the outside world (DynamoDB table, Bedrock gateway,
      EventBridge, uuid and clock) as explicit state, and the monad the
      handlers run in;
    - [Shared]: helpers that every agent file repeats verbatim;
    - [Mutator], [Judge], [Supervisor], [Proxy], [Critic]: one module per
      app.py;
    - [Escalation], [Notions]: the vocabulary the theorems are stated in;
    - [Lite], [Sample]: a run time and sample data to evaluate the
      handlers on concrete inputs;
    - the theorems, component by component: first the escalation,
      promotion and serving properties, then further properties of each
      handler (what it writes, what it answers when an item is missing or
      Bedrock is unavailable).

    Conventions.  An invocation payload is a record of its fields, a
    missing field being [None].  The prompts sent to Bedrock are not
    spelled out: a reply is whatever the world's script holds, so only
    the lookups made while building a prompt are kept, for the
    exceptions they can raise.  Sleeps are left out, and so are log
    lines, except the lookup or [len] that a log line evaluates and that
    can raise.  A string is a sequence of code points below 256.  The
    table keeps a number as it was put; boto3 would hand an int back as
    a Decimal, which [sanitize_for_json] turns into the same int. *)

From Stdlib Require Import ZArith String Ascii List Lia DecimalString.
From stdpp Require Import base option list strings gmap fin_maps.

Local Open Scope string_scope.
Local Open Scope list_scope.
Local Open Scope Z_scope.
Local Set Warnings "-register-all,-clear-no-such-hyp".

(** ** Python values and exceptions *)

Module Py.

(** A value as the handlers see it.  A [float] is named by its [repr]
    (the shortest literal that reads back as the same float) and a
    [Decimal] by the literal it was built from, so that
    [Decimal(repr(f))], which is what [json.loads(.., parse_float=Decimal)]
    computes, keeps the same literal.  A dict is an association list in
    insertion order with distinct keys. *)
Inductive pyval :=
| PNone
| PBool (b : bool)
| PInt (z : Z)
| PFloat (repr : string)
| PDecimal (lit : string)
| PStr (s : string)
| PList (l : list pyval)
| PDict (kvs : list (string * pyval)).

(** An exception is kept as its class and its text, [str(e)].  A
    [ClientError] also keeps the error code of the service's response;
    its text is botocore's, which names the code, the operation and the
    service's message. *)
Inductive exn :=
| ClientError (code : string) (text : string)  (* botocore.exceptions.ClientError *)
| BotoCoreError (msg : string)     (* any other boto failure *)
| ValueError (msg : string)
| JSONDecodeError (msg : string)   (* a subclass of ValueError *)
| KeyError (key : string)
| IndexError (msg : string)
| TypeError (msg : string)
| AttributeError (msg : string).

Definition result (A : Type) : Type := exn + A.

Definition is_ClientError (e : exn) : bool :=
  match e with ClientError _ _ => true | _ => false end.

Definition is_ValueError (e : exn) : bool :=
  match e with ValueError _ | JSONDecodeError _ => true | _ => false end.

Definition is_JSONDecodeError (e : exn) : bool :=
  match e with JSONDecodeError _ => true | _ => false end.

(** [str(e)]; a [KeyError] shows the [repr] of its key, which for the
    keys the handlers look up is the key between single quotes *)
Definition exn_str (e : exn) : string :=
  match e with
  | ClientError _ text => text
  | BotoCoreError m | ValueError m | JSONDecodeError m
  | IndexError m | TypeError m | AttributeError m => m
  | KeyError k => "'" +:+ k +:+ "'"
  end.

(** the text botocore gives a [ClientError] *)
Definition client_error (code operation message : string) : exn :=
  ClientError code ("An error occurred (" +:+ code +:+ ") when calling the "
                      +:+ operation +:+ " operation: " +:+ message).

(** [type(v).__name__], as the interpreter's messages show it *)
Definition type_name (v : pyval) : string :=
  match v with
  | PNone => "NoneType"
  | PBool _ => "bool"
  | PInt _ => "int"
  | PFloat _ => "float"
  | PDecimal _ => "decimal.Decimal"
  | PStr _ => "str"
  | PList _ => "list"
  | PDict _ => "dict"
  end.

(** What the Python run time and its libraries compute and the
    repository does not define: number conversions, [str()] of
    containers and floats, [json], [hashlib]. *)
Class Runtime := {
  (** [Some (int(d))] when [d % 1 == 0] *)
  decimal_integral : string -> option Z;
  (** [repr(float(d))] *)
  float_of_decimal : string -> string;
  (** [f != 0.0] *)
  float_truthy : string -> bool;
  (** [str(v)] for floats, Decimals, lists and dicts *)
  builtin_str : pyval -> string;
  (** [int(v)] on anything but an int or a bool, and [repr(float(v))] on
      anything but a float *)
  builtin_int : pyval -> result Z;
  builtin_float : pyval -> result string;
  (** [json.loads(text)]; [None] is [JSONDecodeError], whose text is
      [json_error text] *)
  json_loads : string -> option pyval;
  json_error : string -> string;
  (** [json.dumps(v, sort_keys=True)] on a sanitized value *)
  json_dumps_sorted : pyval -> string;
  (** [hashlib.sha256(text.encode()).hexdigest()] *)
  sha256_hexdigest : string -> string
}.

(** *** Dictionaries *)

Fixpoint assoc_get (k : string) (kvs : list (string * pyval)) : option pyval :=
  match kvs with
  | [] => None
  | (k', v) :: rest => if String.eqb k k' then Some v else assoc_get k rest
  end.

(** [d[k] = v] on the association list: overwrite in place, else append. *)
Fixpoint assoc_set (k : string) (v : pyval) (kvs : list (string * pyval))
  : list (string * pyval) :=
  match kvs with
  | [] => [(k, v)]
  | (k', v') :: rest =>
      if String.eqb k k' then (k, v) :: rest else (k', v') :: assoc_set k v rest
  end.

Definition dict_get (k : string) (d : pyval) : option pyval :=
  match d with PDict kvs => assoc_get k kvs | _ => None end.

(** The interpreter's messages are worded as CPython 3.11 words them. *)
Definition no_attribute (v : pyval) (name : string) : exn :=
  AttributeError ("'" +:+ type_name v +:+ "' object has no attribute '"
                    +:+ name +:+ "'").

(** [d.get(k, default)] *)
Definition py_get (d : pyval) (k : string) (default : pyval) : result pyval :=
  match d with
  | PDict kvs =>
      inr (match assoc_get k kvs with Some v => v | None => default end)
  | _ => inl (no_attribute d "get")
  end.

(** [d[k]] with a string key *)
Definition py_item (d : pyval) (k : string) : result pyval :=
  match d with
  | PDict kvs =>
      match assoc_get k kvs with Some v => inr v | None => inl (KeyError k) end
  | PList _ => inl (TypeError "list indices must be integers or slices, not str")
  | PStr _ => inl (TypeError "string indices must be integers, not 'str'")
  | _ => inl (TypeError ("'" +:+ type_name d +:+ "' object is not subscriptable"))
  end.

(** [d[k] = v] *)
Definition py_setitem (d : pyval) (k : string) (v : pyval) : result pyval :=
  match d with
  | PDict kvs => inr (PDict (assoc_set k v kvs))
  | PList _ => inl (TypeError "list indices must be integers or slices, not str")
  | _ => inl (TypeError ("'" +:+ type_name d
                           +:+ "' object does not support item assignment"))
  end.

(** [l.append(v)] *)
Definition py_append (l : pyval) (v : pyval) : result pyval :=
  match l with
  | PList xs => inr (PList (xs ++ [v]))
  | _ => inl (no_attribute l "append")
  end.

(** *** Strings *)

Definition str_of_int (z : Z) : string := NilZero.string_of_int (Z.to_int z).

Definition str_contains (needle hay : string) : bool :=
  match String.index 0 needle hay with Some _ => true | None => false end.

Definition startswith (s pre : string) : bool := String.prefix pre s.

(** [s.split(c)] for a one-character separator *)
Fixpoint split_on (c : ascii) (s : string) : list string :=
  match s with
  | EmptyString => [EmptyString]
  | String a rest =>
      if Ascii.eqb a c then EmptyString :: split_on c rest
      else match split_on c rest with
           | [] => [String a EmptyString]
           | w :: ws => String a w :: ws
           end
  end.

(** [sep.join(parts)] *)
Definition join (sep : string) (parts : list string) : string :=
  String.concat sep parts.

(** [c.isspace()], the characters [str.strip()] removes: tab to carriage
    return, the four separators 0x1c to 0x1f, the space, NEL (0x85) and
    the no-break space (0xa0).  A string is a sequence of code points
    below 256. *)
Definition is_space (a : ascii) : bool :=
  let n := nat_of_ascii a in
  ((9 <=? n) && (n <=? 13))%nat || ((28 <=? n) && (n <=? 32))%nat
  || (n =? 133)%nat || (n =? 160)%nat.

Fixpoint lstrip (s : string) : string :=
  match s with
  | String a rest => if is_space a then lstrip rest else s
  | EmptyString => EmptyString
  end.

Fixpoint rstrip (s : string) : string :=
  match s with
  | EmptyString => EmptyString
  | String a rest =>
      match rstrip rest with
      | EmptyString => if is_space a then EmptyString else String a EmptyString
      | r => String a r
      end
  end.

(** whether the character occurs in the string *)
Fixpoint mentions (c : ascii) (s : string) : bool :=
  match s with
  | EmptyString => false
  | String a rest => Ascii.eqb a c || mentions c rest
  end.

(** the last character of a string *)
Fixpoint last_char (s : string) : option ascii :=
  match s with
  | EmptyString => None
  | String a EmptyString => Some a
  | String _ rest => last_char rest
  end.

(** [s.strip()] *)
Definition strip (s : string) : string := rstrip (lstrip s).

(** *** Lists: negative indices count from the end *)

(** [l[:i]] *)
Definition slice_to {A} (l : list A) (i : Z) : list A :=
  let n := Z.of_nat (List.length l) in
  if 0 <=? i then take (Z.to_nat i) l else take (Z.to_nat (n + i)) l.

(** [l[i]] *)
Definition index_at {A} (l : list A) (i : Z) : result A :=
  let n := Z.of_nat (List.length l) in
  let j := if 0 <=? i then i else n + i in
  if (0 <=? j) && (j <? n) then
    match l !! Z.to_nat j with
    | Some x => inr x
    | None => inl (IndexError "list index out of range")
    end
  else inl (IndexError "list index out of range").

(** *** Built-ins *)

Section WithRuntime.
Context `{Runtime}.

(** [str(v)], as an f-string formats a value *)
Definition py_str (v : pyval) : string :=
  match v with
  | PStr s => s
  | PInt z => str_of_int z
  | PNone => "None"
  | PBool true => "True"
  | PBool false => "False"
  | _ => builtin_str v
  end.

(** [int(v)] *)
Definition py_int (v : pyval) : result Z :=
  match v with
  | PInt z => inr z
  | PBool b => inr (Z.b2z b)
  | _ => builtin_int v
  end.

(** [float(v)], named by its repr *)
Definition py_float (v : pyval) : result string :=
  match v with
  | PFloat r => inr r
  | _ => builtin_float v
  end.

(** [bool(v)], the truth value of [if v:] *)
Definition py_truthy (v : pyval) : bool :=
  match v with
  | PNone => false
  | PBool b => b
  | PInt z => negb (z =? 0)
  | PFloat r => float_truthy r
  | PDecimal d => match decimal_integral d with Some 0 => false | _ => true end
  | PStr s => negb (String.eqb s "")
  | PList l => match l with [] => false | _ => true end
  | PDict kvs => match kvs with [] => false | _ => true end
  end.

(** [len(v)] *)
Definition py_len (v : pyval) : result Z :=
  match v with
  | PStr s => inr (Z.of_nat (String.length s))
  | PList l => inr (Z.of_nat (List.length l))
  | PDict kvs => inr (Z.of_nat (List.length kvs))
  | _ => inl (TypeError ("object of type '" +:+ type_name v +:+ "' has no len()"))
  end.

(** the items a [for] loop sees *)
Definition py_iter (v : pyval) : result (list pyval) :=
  match v with
  | PList l => inr l
  | PDict kvs => inr (map (fun kv => PStr (fst kv)) kvs)
  | PStr s => inr (map (fun a => PStr (String a EmptyString)) (list_ascii_of_string s))
  | _ => inl (TypeError ("'" +:+ type_name v +:+ "' object is not iterable"))
  end.

(** [k in v] for a string [k] *)
Definition py_contains (k : string) (v : pyval) : result bool :=
  match v with
  | PDict kvs => inr (match assoc_get k kvs with Some _ => true | None => false end)
  | PList l =>
      inr (existsb (fun x => match x with PStr s => String.eqb s k | _ => false end) l)
  | PStr s => inr (str_contains k s)
  | _ => inl (TypeError ("argument of type '" +:+ type_name v +:+ "' is not iterable"))
  end.

(** [sanitize_for_json]: the same function in all four agents (the proxy
    tests [list] before [dict]). *)
Fixpoint sanitize_for_json (obj : pyval) : pyval :=
  match obj with
  | PDecimal d =>
      match decimal_integral d with
      | Some z => PInt z
      | None => PFloat (float_of_decimal d)
      end
  | PDict kvs => PDict (map (fun kv => (fst kv, sanitize_for_json (snd kv))) kvs)
  | PList l => PList (map sanitize_for_json l)
  | _ => obj
  end.

(** [nan], [inf] and [-inf], by their [repr] *)
Definition nonfinite (r : string) : bool :=
  String.eqb r "nan" || String.eqb r "inf" || String.eqb r "-inf".

(** what [json.loads(.., parse_float=...)] reads back from the text
    [json.dumps] writes for the float [r]: a finite float is written as
    its literal, which [parse_float] is applied to; [nan], [inf] and
    [-inf] are written as [NaN], [Infinity] and [-Infinity], which
    [json.loads] reads as floats whatever [parse_float] is *)
Definition reread_float (dec : bool) (r : string) : pyval :=
  if dec && negb (nonfinite r) then PDecimal r else PFloat r.

(** [json.loads(json.dumps(v, cls=...), parse_float=...)], the copy every
    write path makes.  [enc] says whether [DecimalEncoder] is passed
    (without it a Decimal is not serializable; with it a Decimal is
    written as [float(d)], which is [inf] when [d] is beyond the range of
    a float), [dec] whether [parse_float=Decimal] is.  Dict keys are
    strings, as DynamoDB and [json.loads] produce them. *)
Fixpoint json_copy (enc dec : bool) (v : pyval) : result pyval :=
  match v with
  | PNone | PBool _ | PInt _ | PStr _ => inr v
  | PFloat r => inr (reread_float dec r)
  | PDecimal d =>
      if enc then inr (reread_float dec (float_of_decimal d))
      else inl (TypeError "Object of type Decimal is not JSON serializable")
  | PList l =>
      match (fix go (xs : list pyval) : result (list pyval) :=
               match xs with
               | [] => inr []
               | x :: rest =>
                   match json_copy enc dec x with
                   | inl e => inl e
                   | inr x' =>
                       match go rest with
                       | inl e => inl e
                       | inr rest' => inr (x' :: rest')
                       end
                   end
               end) l with
      | inl e => inl e
      | inr l' => inr (PList l')
      end
  | PDict kvs =>
      match (fix go (xs : list (string * pyval)) : result (list (string * pyval)) :=
               match xs with
               | [] => inr []
               | (k, x) :: rest =>
                   match json_copy enc dec x with
                   | inl e => inl e
                   | inr x' =>
                       match go rest with
                       | inl e => inl e
                       | inr rest' => inr ((k, x') :: rest')
                       end
                   end
               end) kvs with
      | inl e => inl e
      | inr kvs' => inr (PDict kvs')
      end
  end.

(** the two loops inside [json_copy], by name *)
Definition copy_list (enc dec : bool) : list pyval -> result (list pyval) :=
  fix go xs :=
    match xs with
    | [] => inr []
    | x :: rest =>
        match json_copy enc dec x with
        | inl e => inl e
        | inr x' => match go rest with
                    | inl e => inl e
                    | inr rest' => inr (x' :: rest')
                    end
        end
    end.

Definition copy_items (enc dec : bool)
  : list (string * pyval) -> result (list (string * pyval)) :=
  fix go xs :=
    match xs with
    | [] => inr []
    | (k, x) :: rest =>
        match json_copy enc dec x with
        | inl e => inl e
        | inr x' => match go rest with
                    | inl e => inl e
                    | inr rest' => inr ((k, x') :: rest')
                    end
        end
    end.

End WithRuntime.

(** structural induction that reaches inside lists and dicts *)
Section PyvalInd.
Variable P : pyval -> Prop.
Hypothesis HNone : P PNone.
Hypothesis HBool : forall b, P (PBool b).
Hypothesis HInt : forall z, P (PInt z).
Hypothesis HFloat : forall r, P (PFloat r).
Hypothesis HDecimal : forall d, P (PDecimal d).
Hypothesis HStr : forall s, P (PStr s).
Hypothesis HList : forall l, Forall P l -> P (PList l).
Hypothesis HDict : forall kvs, Forall (fun kv => P (snd kv)) kvs -> P (PDict kvs).

Fixpoint pyval_nested_ind (v : pyval) : P v :=
  match v with
  | PNone => HNone
  | PBool b => HBool b
  | PInt z => HInt z
  | PFloat r => HFloat r
  | PDecimal d => HDecimal d
  | PStr s => HStr s
  | PList l =>
      HList l ((fix go (xs : list pyval) : Forall P xs :=
                  match xs with
                  | [] => @List.Forall_nil _ P
                  | x :: rest => @List.Forall_cons _ P x rest (pyval_nested_ind x) (go rest)
                  end) l)
  | PDict kvs =>
      HDict kvs ((fix go (xs : list (string * pyval))
                    : Forall (fun kv => P (snd kv)) xs :=
                    match xs with
                    | [] => @List.Forall_nil _ _
                    | kv :: rest =>
                        @List.Forall_cons _ (fun kv => P (snd kv)) kv rest (pyval_nested_ind (snd kv)) (go rest)
                    end) kvs)
  end.
End PyvalInd.

(** no [Decimal] anywhere inside *)
Fixpoint decimal_free (v : pyval) : bool :=
  match v with
  | PDecimal _ => false
  | PList l => forallb decimal_free l
  | PDict kvs => forallb (fun kv => decimal_free (snd kv)) kvs
  | _ => true
  end.

(** no [float] anywhere inside: what boto3 accepts as an item *)
Fixpoint float_free (v : pyval) : bool :=
  match v with
  | PFloat _ => false
  | PList l => forallb float_free l
  | PDict kvs => forallb (fun kv => float_free (snd kv)) kvs
  | _ => true
  end.

(** boto3's serializer on a float *)
Definition float_refused : exn :=
  TypeError "Float types are not supported. Use Decimal types instead.".

Section WithRuntime.
Context `{Runtime}.

(** every float inside is finite, and every Decimal within the range of
    a float *)
Fixpoint finite (v : pyval) : bool :=
  match v with
  | PFloat r => negb (nonfinite r)
  | PDecimal d => negb (nonfinite (float_of_decimal d))
  | PList l => forallb finite l
  | PDict kvs => forallb (fun kv => finite (snd kv)) kvs
  | _ => true
  end.

End WithRuntime.

End Py.

(** ** The outside world and the handler monad *)

Module Env.
Import Py.

(** What an invocation does to the outside that later claims look at. *)
Inductive effect :=
| Wrote (key : string * string) (item : pyval)   (* a put or update that went through *)
| EventPut (detail : pyval) (delivered : bool).  (* a put_events request and its fate *)

(** The DynamoDB table is a map from (PK, SK) to the item.  The fates of
    the calls that leave the process are scripted: each call takes the
    head of its list.  An empty [db_faults] or [bus_faults] means the
    call succeeds, an empty [gateway] that Bedrock is unavailable. *)
Record World := mkWorld {
  table : gmap (string * string) pyval;
  db_faults : list (option exn);
  gateway : list (result string);
  bus_faults : list (option exn);
  uuids : list string;
  clock : list string;
  trace : list effect
}.

Definition M (A : Type) : Type := World -> result A * World.

Definition ret {A} (a : A) : M A := fun w => (inr a, w).
Definition raise {A} (e : exn) : M A := fun w => (inl e, w).
Definition bind {A B} (m : M A) (k : A -> M B) : M B :=
  fun w => match m w with
           | (inr a, w') => k a w'
           | (inl e, w') => (inl e, w')
           end.
Definition lift {A} (r : result A) : M A := fun w => (r, w).

(** [try: m  except <sel>: h] *)
Definition try_except {A} (m : M A) (sel : exn -> bool) (h : exn -> M A) : M A :=
  fun w => match m w with
           | (inl e, w') => if sel e then h e w' else (inl e, w')
           | r => r
           end.

Definition any_exception (e : exn) : bool := true.

Definition set_table (t : gmap (string * string) pyval) (w : World) : World :=
  mkWorld t (db_faults w) (gateway w) (bus_faults w) (uuids w) (clock w) (trace w).
Definition set_db_faults (f : list (option exn)) (w : World) : World :=
  mkWorld (table w) f (gateway w) (bus_faults w) (uuids w) (clock w) (trace w).
Definition set_gateway (g : list (result string)) (w : World) : World :=
  mkWorld (table w) (db_faults w) g (bus_faults w) (uuids w) (clock w) (trace w).
Definition set_bus_faults (f : list (option exn)) (w : World) : World :=
  mkWorld (table w) (db_faults w) (gateway w) f (uuids w) (clock w) (trace w).
Definition set_uuids (u : list string) (w : World) : World :=
  mkWorld (table w) (db_faults w) (gateway w) (bus_faults w) u (clock w) (trace w).
Definition set_clock (c : list string) (w : World) : World :=
  mkWorld (table w) (db_faults w) (gateway w) (bus_faults w) (uuids w) c (trace w).
Definition log (e : effect) (w : World) : World :=
  mkWorld (table w) (db_faults w) (gateway w) (bus_faults w) (uuids w) (clock w)
          (trace w ++ [e]).

(** the fate of the next table call *)
Definition db_call : M unit :=
  fun w => match db_faults w with
           | Some e :: rest => (inl e, set_db_faults rest w)
           | None :: rest => (inr tt, set_db_faults rest w)
           | [] => (inr tt, w)
           end.

(** whether the script makes the next table call raise *)
Definition next_db_call_fails (w : World) : bool :=
  match db_faults w with Some _ :: _ => true | _ => false end.


(** DynamoDB's refusal of a key that is not a pair of strings *)
Definition key_refused (operation message : string) : exn :=
  client_error "ValidationException" operation message.

Definition bad_key_element : string :=
  "The provided key element does not match the schema".

(** the type descriptor DynamoDB names in its message *)
Definition attribute_type (v : pyval) : string :=
  match v with
  | PNone => "NULL"
  | PBool _ => "BOOL"
  | PInt _ | PFloat _ | PDecimal _ => "N"
  | PStr _ => "S"
  | PList _ => "L"
  | PDict _ => "M"
  end.

Definition bad_item_key (name : string) (found : option pyval) : string :=
  "One or more parameter values were invalid: " +:+
  match found with
  | None => "Missing the key " +:+ name +:+ " in the item"
  | Some v => "Type mismatch for key " +:+ name +:+ " expected: S actual: "
                +:+ attribute_type v
  end.

(** [table.get_item(Key={'PK': pk, 'SK': sk})]: the item, if any.  A key
    part that is not a string is [None] here. *)
Definition get_item (pk sk : option string) : M (option pyval) :=
  match pk, sk with
  | Some p, Some s =>
      bind db_call (fun _ w => (inr (table w !! (p, s)), w))
  | _, _ => raise (key_refused "GetItem" bad_key_element)
  end.

(** [table.put_item(Item=item)]: a full overwrite at the item's key.
    boto3 serializes the item before it sends it and refuses a float. *)
Definition put_item (item : pyval) : M unit :=
  if float_free item then
    match dict_get "PK" item, dict_get "SK" item with
    | Some (PStr p), Some (PStr s) =>
        bind db_call (fun _ w =>
          (inr tt, log (Wrote (p, s) item) (set_table (<[(p, s) := item]> (table w)) w)))
    | Some (PStr _), found => raise (key_refused "PutItem" (bad_item_key "SK" found))
    | found, _ => raise (key_refused "PutItem" (bad_item_key "PK" found))
    end
  else raise float_refused.

Fixpoint assoc_set_all (sets : list (string * pyval)) (kvs : list (string * pyval))
  : list (string * pyval) :=
  match sets with
  | [] => kvs
  | (k, v) :: rest => assoc_set_all rest (assoc_set k v kvs)
  end.

(** [table.update_item(Key=.., UpdateExpression="SET a = :a, b = :b")]:
    the named attributes are set on the item, which is created with its
    key alone when it does not exist; nothing else is touched.  boto3
    refuses a float among the values before it sends the request. *)
Definition update_item_set (p s : string) (sets : list (string * pyval)) : M unit :=
  if forallb (fun kv => float_free (snd kv)) sets then
    bind db_call (fun _ w =>
      let old := match table w !! (p, s) with
                 | Some (PDict kvs) => kvs
                 | _ => [("PK", PStr p); ("SK", PStr s)]
                 end in
      let item := PDict (assoc_set_all sets old) in
      (inr tt, log (Wrote (p, s) item) (set_table (<[(p, s) := item]> (table w)) w)))
  else raise float_refused.

(** what botocore raises when Bedrock is unavailable *)
Definition unavailable (operation : string) : exn :=
  client_error "ServiceUnavailableException" operation
    "The service is temporarily unable to process the request.".

(** A Bedrock call together with the unpacking of the generated text
    from its response. *)
Definition bedrock_call (operation : string) : M string :=
  fun w => match gateway w with
           | r :: rest => (r, set_gateway rest w)
           | [] => (inl (unavailable operation), w)
           end.

(** [converse], which all agents but the supervisor call *)
Definition bedrock_text : M string := bedrock_call "Converse".

(** [invoke_model], the supervisor's call *)
Definition invoke_model_text : M string := bedrock_call "InvokeModel".

(** the world after a Bedrock call *)
Definition after_bedrock (w : World) : World := snd (bedrock_text w).

(** [events_client.put_events(Entries=[{.., 'Detail': json.dumps(detail)}])] *)
Definition put_events (detail : pyval) : M unit :=
  fun w => match bus_faults w with
           | Some e :: rest => (inl e, log (EventPut detail false) (set_bus_faults rest w))
           | None :: rest => (inr tt, log (EventPut detail true) (set_bus_faults rest w))
           | [] => (inr tt, log (EventPut detail true) w)
           end.

(** [uuid.uuid4().hex] *)
Definition uuid4_hex : M string :=
  fun w => match uuids w with
           | u :: rest => (inr u, set_uuids rest w)
           | [] => (inr "00000000000000000000000000000000", w)
           end.

(** [datetime.utcnow().isoformat()] *)
Definition utcnow_isoformat : M string :=
  fun w => match clock w with
           | t :: rest => (inr t, set_clock rest w)
           | [] => (inr "1970-01-01T00:00:00", w)
           end.

(** what a table call leaves alone *)
Definition same_outside_db (w w' : World) : Prop :=
  gateway w' = gateway w /\ bus_faults w' = bus_faults w /\
  uuids w' = uuids w /\ clock w' = clock w.

(** the put_events requests in a trace *)
Definition is_event (e : effect) : bool :=
  match e with EventPut _ _ => true | Wrote _ _ => false end.

Definition events (tr : list effect) : list effect := List.filter is_event tr.

(** an attribute of the item at [key], if both are there *)
Definition attribute (t : gmap (string * string) pyval) (key : string * string)
    (name : string) : option pyval :=
  match t !! key with
  | Some item => dict_get name item
  | None => None
  end.

(** a computation that leaves the table and the trace as they are *)
Definition preserves_store {A} (m : M A) : Prop :=
  forall w r w', m w = (r, w') -> table w' = table w /\ trace w' = trace w.

(** a computation that sends nothing to the event bus *)
Definition keeps_bus {A} (m : M A) : Prop :=
  forall w r w', m w = (r, w') -> bus_faults w' = bus_faults w.

(** a computation that at most reads the table: nothing is written, no
    event is put, and Bedrock, the uuid source and the clock are not
    called *)
Definition reads_only {A} (m : M A) : Prop :=
  forall w r w', m w = (r, w') ->
    table w' = table w /\ trace w' = trace w /\ same_outside_db w w'.

End Env.

Notation "'let!' x := m 'in' k" := (Env.bind m (fun x => k))
  (at level 10, x name, m at level 100, k at level 200).
Notation "'run!' m 'in' k" := (Env.bind m (fun _ => k))
  (at level 10, m at level 100, k at level 200).

Definition rbind {A B} (r : Py.result A) (k : A -> Py.result B) : Py.result B :=
  match r with inl e => inl e | inr a => k a end.

Notation "'let?' x := r 'in' k" := (rbind r (fun x => k))
  (at level 10, x name, r at level 100, k at level 200).

(** ** Helpers repeated in the agent files *)

Module Shared.
Import Py.

Fixpoint rmap {A B} (f : A -> result B) (l : list A) : result (list B) :=
  match l with
  | [] => inr []
  | x :: rest =>
      let? y := f x in
      let? ys := rmap f rest in
      inr (y :: ys)
  end.

Definition newline : string := String (ascii_of_nat 10) EmptyString.

(** the index of the last [c] in [s] *)
Fixpoint rindex (c : ascii) (s : string) : option nat :=
  match s with
  | EmptyString => None
  | String a rest =>
      match rindex c rest with
      | Some n => Some (S n)
      | None => if Ascii.eqb a c then Some 0%nat else None
      end
  end.

(** [re.search(r'(\{.*\}|\[.*\])', text, re.DOTALL).group(0)]: from the
    first brace or bracket that has its closing character somewhere
    after it, up to the last such closing character. *)
Fixpoint regex_json_span (text : string) : option string :=
  match text with
  | EmptyString => None
  | String a rest =>
      let close := if Ascii.eqb a "{" then Some "}"%char
                   else if Ascii.eqb a "[" then Some "]"%char else None in
      match close with
      | Some c =>
          match rindex c rest with
          | Some n => Some (String a (String.substring 0 (S n) rest))
          | None => regex_json_span rest
          end
      | None => regex_json_span rest
      end
  end.

(** [sep.join(parts)] on a list of values: every part must be a string *)
Fixpoint str_parts (i : nat) (parts : list pyval) : result (list string) :=
  match parts with
  | [] => inr []
  | PStr s :: rest =>
      let? ss := str_parts (S i) rest in
      inr (s :: ss)
  | v :: _ =>
      inl (TypeError ("sequence item " +:+ str_of_int (Z.of_nat i)
                        +:+ ": expected str instance, " +:+ type_name v +:+ " found"))
  end.

Definition py_join (sep : string) (parts : list pyval) : result string :=
  let? ss := str_parts 0 parts in
  inr (join sep ss).

Section WithRuntime.
Context `{Runtime}.

(** [construct_system_prompt], identical in mutator, judge and proxy.
    The style guide, the objectives, the guidelines and the tools go
    through an f-string; the knowledge base and the policy text are
    appended as they are, so the final join needs them to be strings. *)
Definition construct_system_prompt (genome : pyval) : result string :=
  let? brain := py_get genome "brain" (PDict []) in
  let? resources := py_get genome "resources" (PDict []) in
  let? capabilities := py_get genome "capabilities" (PDict []) in
  let? persona := py_get brain "persona" (PDict []) in
  let? role := py_get persona "role" (PStr "AI Assistant") in
  let? tone := py_get persona "tone" (PStr "Professional") in
  let? style_guide := py_get brain "style_guide" (PList []) in
  let? objectives := py_get brain "objectives" (PList []) in
  let? operational_guidelines := py_get brain "operational_guidelines" (PList []) in
  let? knowledge_base_text := py_get resources "knowledge_base_text" (PStr "") in
  let? policy_text := py_get resources "policy_text" (PStr "") in
  let? active_tools := py_get capabilities "active_tools" (PList []) in
  let persona_part :=
    ["You are a " +:+ py_str role +:+ " with a " +:+ py_str tone +:+ " tone."; ""] in
  let? style_part :=
    if py_truthy style_guide then
      let? items := py_iter style_guide in
      inr (["STYLE GUIDE:"] ++ map (fun item => "- " +:+ py_str item) items ++ [""])
    else inr [] in
  let? objectives_part :=
    if py_truthy objectives then
      let? items := py_iter objectives in
      inr (["OBJECTIVES:"] ++ map (fun item => "- " +:+ py_str item) items ++ [""])
    else inr [] in
  let? guidelines_part :=
    if py_truthy operational_guidelines then
      let? items := py_iter operational_guidelines in
      inr (["OPERATIONAL GUIDELINES:"] ++ map py_str items ++ [""])
    else inr [] in
  let kb_part :=
    if py_truthy knowledge_base_text
    then [PStr "KNOWLEDGE BASE:"; knowledge_base_text; PStr ""] else [] in
  let policy_part :=
    if py_truthy policy_text
    then [PStr "POLICY CONSTRAINTS:"; policy_text; PStr ""] else [] in
  let? tools_part :=
    if py_truthy active_tools then
      let? tools := py_iter active_tools in
      let? lines := rmap (fun tool =>
                      let? tool_name := py_get tool "name" (PStr "unknown") in
                      let? tool_desc := py_get tool "description" (PStr "No description") in
                      inr ("- " +:+ py_str tool_name +:+ ": " +:+ py_str tool_desc)) tools in
      inr (["AVAILABLE TOOLS:"] ++ lines ++ [""])
    else inr [] in
  py_join newline
    (map PStr (persona_part ++ style_part ++ objectives_part ++ guidelines_part)
       ++ kb_part ++ policy_part ++ map PStr tools_part).

End WithRuntime.
End Shared.

(** ** mutator_agent/app.py *)

Module Mutator.
Import Py Env Shared.

(** The invocation payload.  [data = event.get('detail', event)] and the
    key lookups on it are flattened into one record; a missing key is
    [None]. *)
Record Event := mkEvent {
  pk : option string;
  genome_sk : option string;
  critic_issue : option pyval;
  reason : option pyval;
  retryCount : option Z
}.

Section WithRuntime.
Context `{Runtime}.

Definition fetch_genome (pk sk : string) : M pyval :=
  let! item := get_item (Some pk) (Some sk) in
  match item with
  | None => raise (ValueError ("Genome not found: " +:+ pk +:+ " / " +:+ sk))
  | Some it => ret (sanitize_for_json it)
  end.

Definition estimate_token_count (text : string) : Z :=
  if String.eqb text "" then 0 else Z.of_nat (String.length text) / 4.

Definition compute_hash (data : pyval) : string :=
  let content := json_dumps_sorted (sanitize_for_json data) in
  String.substring 0 16 (sha256_hexdigest content).

Definition assemble_complete_genome
    (original mutation_brain critic_issue : pyval) (challenger_sk : string)
  : result pyval :=
  let? original_meta := py_get original "metadata" (PDict []) in
  let? name := py_get original_meta "name" (PStr "Agent") in
  let? description := py_get original_meta "description" (PStr "") in
  let version_hash := compute_hash mutation_brain in
  let? parent_hash := py_get original_meta "version_hash" (PStr "unknown") in
  let? mutation_reason := py_item critic_issue "reason" in
  let new_metadata := PDict [
    ("name", PStr (py_str name +:+ " (Candidate)"));
    ("description", description);
    ("creator", PStr "Darwinian_Mutator_Agent");
    ("version_hash", PStr version_hash);
    ("parent_hash", parent_hash);
    ("deployment_state", PStr "PENDING_APPROVAL");
    ("mutation_reason", mutation_reason) ] in
  let? config := py_get original "config" (PDict []) in
  let? resources := py_get original "resources" (PDict []) in
  let? capabilities := py_get original "capabilities" (PDict []) in
  let? evolution_config := py_get original "evolution_config" (PDict []) in
  let? original_econ := py_get original "economics" (PDict []) in
  let temp_genome_structure := PDict [
    ("brain", mutation_brain);
    ("resources", resources);
    ("capabilities", capabilities) ] in
  let? full_system_prompt := construct_system_prompt temp_genome_structure in
  let token_count := estimate_token_count full_system_prompt in
  let? token_budget := py_get original_econ "token_budget" (PInt 600) in
  let economics := PDict [
    ("likes", PInt 0);
    ("dislikes", PInt 0);
    ("input_token_count", PInt token_count);
    ("token_budget", token_budget);
    ("estimated_cost_of_calling", PStr "$0.001") ] in
  let? original_pk := py_item original "PK" in
  inr (PDict [
    ("PK", original_pk);
    ("SK", PStr challenger_sk);
    ("EntityType", PStr "Challenger");
    ("metadata", new_metadata);
    ("config", config);
    ("economics", economics);
    ("brain", mutation_brain);
    ("resources", resources);
    ("capabilities", capabilities);
    ("evolution_config", evolution_config) ]).

(** The timestamp part of the parent's sort key; the bare [except] turns
    every failure (no SK, SK not a string, no [#]) into the current time. *)
Definition original_timestamp (original_genome : pyval) : M string :=
  match dict_get "SK" original_genome with
  | Some (PStr sk) =>
      match split_on "#" sk with
      | _ :: ts :: _ => ret ts
      | _ => utcnow_isoformat
      end
  | _ => utcnow_isoformat
  end.

Definition base_attempt (retry_count : Z) : Z :=
  if retry_count =? 0 then 1 else 4.

Definition challenger_sk (original_timestamp : string) (attempt_num : Z) : string :=
  "VERSION#" +:+ original_timestamp +:+ "#CHALLENGER#attempt-" +:+ str_of_int attempt_num.

(** the body of [for i, mutation_brain in enumerate(mutations)], from
    index [i] on *)
Fixpoint write_loop (original critic_issue : pyval) (ts : string) (base i : Z)
    (mutations : list pyval) (challenger_sks : list string) : M (list string) :=
  match mutations with
  | [] => ret challenger_sks
  | mutation_brain :: rest =>
      let attempt_num := base + i in
      let sk := challenger_sk ts attempt_num in
      let! challenger_genome :=
        lift (assemble_complete_genome original mutation_brain critic_issue sk) in
      let! item_to_write :=
        lift (json_copy false true (sanitize_for_json challenger_genome)) in
      run! put_item item_to_write in
      write_loop original critic_issue ts base (i + 1) rest (challenger_sks ++ [sk])
  end.

Definition write_complete_challengers
    (original_genome mutations critic_issue : pyval) (retry_count : Z)
  : M (list string) :=
  let! ts := original_timestamp original_genome in
  let base := base_attempt retry_count in
  let! items := lift (py_iter mutations) in
  write_loop original_genome critic_issue ts base 0 items [].

(** the sort keys the loop hands out from index [i] on, for [n] mutations *)
Fixpoint loop_keys (ts : string) (base i : Z) (n : nat) : list string :=
  match n with
  | O => []
  | S n' => challenger_sk ts (base + i) :: loop_keys ts base (i + 1) n'
  end.

(** the partition key a challenger of this parent is written under *)
Definition written_pk (original : pyval) (p : string) : Prop :=
  exists v, py_item original "PK" = inr v /\
            json_copy false true (sanitize_for_json v) = inr (PStr p).

Definition extract_json_safely (text : string) : result pyval :=
  let text := strip text in
  let no_json := ValueError "No valid JSON found in response" in
  match regex_json_span text with
  | Some clean_json =>
      match json_loads clean_json with
      | None => inl (JSONDecodeError (json_error clean_json))
      | Some (PDict kvs) =>
          match assoc_get "mutations" kvs with
          | Some mutations => inr mutations
          | None => inl no_json
          end
      | Some (PList l) => inr (PList l)
      | Some _ => inl no_json
      end
  | None => inl no_json
  end.

(** one of the three variants: a deep copy of [safe_brain] with its tone
    suffixed and one line appended to the list under [list_key] *)
Definition fallback_variant (safe_brain : pyval) (suffix list_key line : string)
  : result pyval :=
  let? m := json_copy false false safe_brain in
  let? persona := py_item m "persona" in
  let? tone := py_get persona "tone" (PStr "Professional") in
  let? persona := py_setitem persona "tone" (PStr (py_str tone +:+ suffix)) in
  let? m := py_setitem m "persona" persona in
  let? lines := py_item m list_key in
  let? lines := py_append lines (PStr line) in
  py_setitem m list_key lines.

Definition generate_fallback_mutations (original_brain : pyval) : result pyval :=
  let? safe_brain := json_copy true false original_brain in
  let? m1 := fallback_variant safe_brain " (Stricter)" "operational_guidelines"
               "Strictly adhere to the provided policy." in
  let? m2 := fallback_variant safe_brain " (Empathetic)" "operational_guidelines"
               "Ensure the user feels heard and understood." in
  let? m3 := fallback_variant safe_brain " (Concise)" "style_guide"
               "Keep responses under 2 sentences when possible." in
  inr (PList [m1; m2; m3]).

(** The prompt handed to Bedrock is not built here: the reply comes from
    the world's script whatever the wording.  The subscripts evaluated
    while building it are kept, since they can raise before the [try]. *)
Definition generate_mutations (original_genome critic_issue : pyval) (retry_count : Z)
  : M pyval :=
  let! brain := lift (py_item original_genome "brain") in
  let! _rule := lift (py_item critic_issue "rule") in
  let! _reason := lift (py_item critic_issue "reason") in
  try_except
    (let! content := bedrock_text in
     lift (extract_json_safely content))
    any_exception
    (fun _ => lift (generate_fallback_mutations brain)).

(** what the [try] block of [generate_mutations] amounts to: the gateway
    call and the parse of its reply *)
Definition generated (w : World) : result pyval :=
  match fst (bedrock_text w) with
  | inl e => inl e
  | inr content => extract_json_safely content
  end.

(** step 5 of [lambda_handler]: the generated mutations, replaced by the
    fallback when their count is not three *)
Definition checked_mutations (original_genome critic_issue : pyval) (retry_count : Z)
  : M pyval :=
  let! mutations := generate_mutations original_genome critic_issue retry_count in
  let! n := lift (py_len mutations) in
  if negb (n =? 3) then
    let! brain := lift (py_item original_genome "brain") in
    lift (generate_fallback_mutations brain)
  else ret mutations.

Definition lambda_handler (event : Event) : M pyval :=
  let! pk_val := lift (match pk event with
                       | Some p => inr p | None => inl (KeyError "pk") end) in
  let! genome_sk_val := lift (match genome_sk event with
                              | Some s => inr s | None => inl (KeyError "genome_sk") end) in
  let critic_issue :=
    match critic_issue event with
    | Some ci => ci
    | None => PDict [
        ("reason", match reason event with
                   | Some r => r | None => PStr "Optimization required" end);
        ("rule", PStr "Protocol Violation") ]
    end in
  let retry_count := match retryCount event with Some r => r | None => 0 end in
  let! original_genome := fetch_genome pk_val genome_sk_val in
  let! mutations := checked_mutations original_genome critic_issue retry_count in
  let! challenger_sks :=
    write_complete_challengers original_genome mutations critic_issue retry_count in
  lift (json_copy true false (PDict [("challenger_sks", PList (map PStr challenger_sks))])).

End WithRuntime.
End Mutator.

(** ** judge_agent/app.py *)

Module Judge.
Import Py Env Shared.

(** The Step Functions payload after the [Payload] unwrapping:
    [mutatorResult.challenger_sks], [originalInput.detail.*] and
    [originalInput.retryCount]. *)
Record Event := mkEvent {
  challenger_sks : list string;
  pk : option string;
  genome_sk : option string;
  chat_sk : option string;
  retryCount : option Z
}.

(** an entry of [candidate_responses] *)
Record Candidate := mkCandidate {
  challenger_sk : string;
  response : string
}.

Definition opt_str (o : option string) : pyval :=
  match o with Some s => PStr s | None => PNone end.

Section WithRuntime.
Context `{Runtime}.

(** [get_item]: every read error is logged and turned into [None] *)
Definition get_item (pk sk : option string) : M (option pyval) :=
  try_except (Env.get_item pk sk) any_exception (fun _ => ret None).

(** the [ticket_item] dict of [handle_failure] *)
Definition ticket_item (pk : option string) (ticket_sk timestamp chat_sk : string)
    (failed_challenger : option string) (reason : string) : pyval :=
  PDict [
    ("PK", opt_str pk);
    ("SK", PStr ticket_sk);
    ("EntityType", PStr "Ticket");
    ("timestamp", PStr timestamp);
    ("type", PStr "SYSTEM");
    ("status", PStr "OPEN");
    ("chat_sk", PStr chat_sk);
    ("challenger_sk",
       PStr (match failed_challenger with
             | Some c => if String.eqb c "" then "NONE_SELECTED" else c
             | None => "NONE_SELECTED"
             end));
    ("feedback", PStr "Automated Alert: Judge marked evolution as FAIL after retries.");
    ("ai_analysis", PStr reason) ].

Definition handle_failure (pk genome_sk : option string) (chat_sk : string)
    (retry_count : Z) (reason : string) (failed_challenger : option string)
  : M pyval :=
  if retry_count <? 1 then
    ret (PDict [
      ("improved", PBool false);
      ("reason", PStr reason);
      ("retryCount", PInt retry_count) ])
  else
    let! hex := uuid4_hex in
    let ticket_id := "xyz-" +:+ String.substring 0 6 hex in
    let! now := utcnow_isoformat in
    let timestamp := now +:+ "Z" in
    let version_prefix := py_str (opt_str genome_sk) in
    let ticket_sk := version_prefix +:+ "#TICKET#" +:+ ticket_id in
    let ticket_item :=
      ticket_item pk ticket_sk timestamp chat_sk failed_challenger reason in
    run! try_except
           (let! item_db := lift (json_copy false true ticket_item) in
            put_item item_db)
           any_exception
           (fun _ => ret tt) in
    ret (PDict [
      ("improved", PBool false);
      ("reason", PStr ("Final Failure. Ticket Created: " +:+ ticket_id));
      ("ticket_sk", PStr ticket_sk);
      ("retryCount", PInt retry_count) ]).

(** [text[start:end]] for non-negative bounds *)
Definition substr (text : string) (start stop : nat) : string :=
  String.substring start (stop - start) text.

(** [invoke_judge_model]: the parsed reply, or [{}] on any failure *)
Definition invoke_judge_model : M pyval :=
  try_except
    (let! text := bedrock_text in
     let text := strip text in
     match regex_json_span text with
     | Some m =>
         match json_loads m with
         | Some v => ret v
         | None => raise (JSONDecodeError (json_error m))
         end
     | None =>
         match String.index 0 "{" text with
         | Some start =>
             let stop := match rindex "}" text with Some e => S e | None => 0%nat end in
             match json_loads (substr text start stop) with
             | Some v => ret v
             | None => raise (JSONDecodeError (json_error (substr text start stop)))
             end
         | None => ret (PDict [])
         end
     end)
    any_exception
    (fun _ => ret (PDict [])).

(** [transcript[:failure_index]] and [transcript[failure_index]] are
    taken of a value that has a length: a list, a string (sliced and
    indexed by character) or a dict, which takes no slice. *)
Definition as_list (v : pyval) : result (list pyval) :=
  match v with
  | PList l => inr l
  | PStr s => inr (map (fun a => PStr (String a EmptyString)) (list_ascii_of_string s))
  | _ => inl (TypeError "unhashable type: 'slice'")
  end.

Definition invoke_agent_simulation (genome : pyval) (transcript : list pyval)
  : M string :=
  let! config := lift (py_get genome "config" (PDict [])) in
  let! model_id := lift (py_get config "model_id" (PStr "us.amazon.nova-micro-v1:0")) in
  let! _target_model_id :=
    lift (match model_id with
          | PStr s =>
              inr (if startswith s "amazon.nova" && negb (startswith s "us.")
                   then "us." +:+ s else s)
          | _ => inl (no_attribute model_id "startswith")
          end) in
  let! _system_prompt_text := lift (construct_system_prompt genome) in
  let! _formatted_messages :=
    lift (rmap (fun msg =>
                  let? role := py_item msg "role" in
                  let? content := py_item msg "content" in
                  inr (role, content)) transcript) in
  bedrock_text.

(** the winner index the comparator accepts: an int (or a bool, which is
    an int) in range; every other reply ends in [None], directly or
    through the [except] *)
Definition winner_index (res : pyval) (n : nat) : option nat :=
  match dict_get "winner_id" res with
  | Some (PInt z) =>
      if negb (z =? -1) && (0 <=? z) && (z <? Z.of_nat n) then Some (Z.to_nat z) else None
  | Some (PBool b) =>
      if Z.b2z b <? Z.of_nat n then Some (Z.to_nat (Z.b2z b)) else None
  | _ => None
  end.

Definition run_comparator_stage (issue bad_resp : pyval)
    (candidates : list Candidate) (history : list pyval) : M (option Candidate) :=
  match candidates with
  | [] => ret None
  | _ =>
      let! _last_user_msg :=
        lift (match history with
              | [] => inr (PStr "Start")
              | _ => let? last := index_at history (-1) in py_item last "content"
              end) in
      let! res := invoke_judge_model in
      ret (match winner_index res (List.length candidates) with
           | Some i => candidates !! i
           | None => None
           end)
  end.

Definition run_compliance_stage (response_text : string) (genome : pyval)
    (history : list pyval) : M pyval :=
  let! resources := lift (py_get genome "resources" (PDict [])) in
  let! evolution_config := lift (py_get genome "evolution_config" (PDict [])) in
  let! _rubric := lift (py_get evolution_config "judge_rubric" (PList [])) in
  let! _kb := lift (py_get resources "knowledge_base_text" (PStr "")) in
  let! _policy := lift (py_get resources "policy_text" (PStr "")) in
  try_except invoke_judge_model any_exception
    (fun e => ret (PDict [
       ("passed", PBool false);
       ("reason", PStr ("Judge Error: " +:+ exn_str e)) ])).

(** the [for sk in challenger_sks] loop *)
Fixpoint simulate_challengers (pk : option string) (original_genome : pyval)
    (truncated_transcript : list pyval) (sks : list string)
    (candidate_responses : list Candidate) : M (list Candidate) :=
  match sks with
  | [] => ret candidate_responses
  | sk :: rest =>
      let! fetched := get_item pk (Some sk) in
      let challenger_genome := option_map sanitize_for_json fetched in
      match challenger_genome with
      | Some cg =>
          if py_truthy cg then
            let! brain := lift (py_get cg "brain" (PDict [])) in
            let! original_config := lift (py_get original_genome "config" (PDict [])) in
            let! config := lift (py_get cg "config" original_config) in
            let! resources := lift (py_get original_genome "resources" (PDict [])) in
            let! capabilities := lift (py_get original_genome "capabilities" (PDict [])) in
            let composite_genome := PDict [
              ("brain", brain); ("config", config);
              ("resources", resources); ("capabilities", capabilities) ] in
            let! candidate_responses :=
              try_except
                (let! new_response :=
                   invoke_agent_simulation composite_genome truncated_transcript in
                 ret (candidate_responses ++ [mkCandidate sk new_response]))
                any_exception
                (fun _ => ret candidate_responses) in
            simulate_challengers pk original_genome truncated_transcript rest
              candidate_responses
          else
            simulate_challengers pk original_genome truncated_transcript rest
              candidate_responses
      | None =>
          simulate_challengers pk original_genome truncated_transcript rest
            candidate_responses
      end
  end.

Definition lambda_handler (event : Event) : M pyval :=
  let pk := pk event in
  let genome_sk := genome_sk event in
  let chat_sk := match chat_sk event with
                 | Some c => c
                 | None => py_str (opt_str genome_sk) +:+ "#CHAT#abc-123"
                 end in
  let retry_count := match retryCount event with Some r => r | None => 0 end in
  let! g := get_item pk genome_sk in
  let! c := get_item pk (Some chat_sk) in
  match option_map sanitize_for_json g, option_map sanitize_for_json c with
  | Some original_genome, Some original_chat =>
      if negb (py_truthy original_genome) || negb (py_truthy original_chat) then
        raise (ValueError ("Missing Data. PK: " +:+ py_str (opt_str pk)))
      else
        let! transcript_v := lift (py_get original_chat "transcript" (PList [])) in
        let! n := lift (py_len transcript_v) in
        let! fti := lift (py_get original_chat "failure_turn_index" (PInt (n - 1))) in
        let! failure_index := lift (py_int fti) in
        let! transcript := lift (as_list transcript_v) in
        let truncated_transcript := slice_to transcript failure_index in
        let! failed_turn := lift (index_at transcript failure_index) in
        let! original_bad_response := lift (py_item failed_turn "content") in
        let! critic_reason :=
          lift (py_get original_chat "critic_reason" (PStr "Unknown failure")) in
        let! candidate_responses :=
          simulate_challengers pk original_genome truncated_transcript
            (challenger_sks event) [] in
        let! winner :=
          run_comparator_stage critic_reason original_bad_response
            candidate_responses truncated_transcript in
        match winner with
        | None =>
            let! result :=
              handle_failure pk genome_sk chat_sk retry_count
                "No challenger improved on the failure." None in
            lift (json_copy true false result)
        | Some winner =>
            let! compliance_result :=
              run_compliance_stage (response winner) original_genome
                truncated_transcript in
            let! passed := lift (py_item compliance_result "passed") in
            if py_truthy passed then
              let! reason := lift (py_item compliance_result "reason") in
              lift (json_copy true false (PDict [
                ("improved", PBool true);
                ("selected_challenger_sk", PStr (challenger_sk winner));
                ("improved_response", PStr (response winner));
                ("reason", reason);
                ("retryCount", PInt retry_count) ]))
            else
              let! reason := lift (py_item compliance_result "reason") in
              let reason :=
                "Improved logic but failed Compliance: " +:+ py_str reason in
              let! result :=
                handle_failure pk genome_sk chat_sk retry_count reason
                  (Some (challenger_sk winner)) in
              lift (json_copy true false result)
        end
  | _, _ => raise (ValueError ("Missing Data. PK: " +:+ py_str (opt_str pk)))
  end.

End WithRuntime.
End Judge.

(** ** supervisor_agent/app.py *)

Module Supervisor.
Import Py Env Shared.

(** [originalInput.detail.*], [originalInput.retryCount] and the judge's
    result after the [Payload] unwrapping. *)
Record Event := mkEvent {
  pk : option string;
  chat_sk : option string;
  genome_sk : option string;
  retryCount : option Z;
  selected_challenger_sk : option string;
  judge_reason : option string
}.

(** the dict [validate_genome_safety] returns *)
Record SafetyCheck := mkSafety {
  safe : bool;
  safety_reason : string
}.

Definition opt_str (o : option string) : pyval :=
  match o with Some s => PStr s | None => PNone end.

Definition falsy (o : option string) : bool :=
  match o with Some s => String.eqb s "" | None => true end.

(** [str(uuid.uuid4())]: the 32 hex digits in groups 8-4-4-4-12 *)
Definition uuid_str (hex : string) : string :=
  String.substring 0 8 hex +:+ "-" +:+ String.substring 8 4 hex +:+ "-" +:+
  String.substring 12 4 hex +:+ "-" +:+ String.substring 16 4 hex +:+ "-" +:+
  String.substring 20 12 hex.

Section WithRuntime.
Context `{Runtime}.

Definition get_item (pk sk : option string) : M (option pyval) :=
  try_except (Env.get_item pk sk) any_exception (fun _ => ret None).

(** the [ticket_item] dict of [handle_failure] *)
Definition ticket_item (pk : option string) (ticket_sk timestamp : string)
    (chat_sk failed_challenger : option string) (reason : string) : pyval :=
  PDict [
    ("PK", opt_str pk);
    ("SK", PStr ticket_sk);
    ("EntityType", PStr "Ticket");
    ("timestamp", PStr timestamp);
    ("type", PStr "SYSTEM");
    ("status", PStr "OPEN");
    ("chat_sk", PStr (if falsy chat_sk then "UNKNOWN"
                      else py_str (opt_str chat_sk)));
    ("challenger_sk", PStr (if falsy failed_challenger then "NONE"
                            else py_str (opt_str failed_challenger)));
    ("feedback", PStr "Automated Alert: Supervisor Safety Check Failed.");
    ("ai_analysis", PStr reason) ].

Definition handle_failure (pk genome_sk chat_sk : option string)
    (retry_count : Z) (reason : string) (failed_challenger : option string)
  : M pyval :=
  let! result :=
    if retry_count <? 1 then
      ret (PDict [("compliant", PBool false); ("reason", PStr reason)])
    else
      let! hex := uuid4_hex in
      let ticket_id := "sup-" +:+ String.substring 0 6 hex in
      let! now := utcnow_isoformat in
      let timestamp := now +:+ "Z" in
      let ticket_sk := py_str (opt_str genome_sk) +:+ "#TICKET#" +:+ ticket_id in
      let ticket_item :=
        ticket_item pk ticket_sk timestamp chat_sk failed_challenger reason in
      run! try_except
             (let! item_db :=
                lift (json_copy false true (sanitize_for_json ticket_item)) in
              put_item item_db)
             any_exception
             (fun _ => ret tt) in
      ret (PDict [
        ("compliant", PBool false);
        ("reason", PStr ("Final Failure. Ticket Created: " +:+ ticket_id)) ])
  in
  lift (json_copy false false (sanitize_for_json result)).

(** an item that passes the structural check and whose resources, if
    any, are a dict: the audit call is reached *)
Definition structurally_sound (item : pyval) : Prop :=
  exists fields brain persona guidelines,
    item = PDict fields /\
    assoc_get "brain" fields = Some (PDict brain) /\
    assoc_get "persona" brain = Some persona /\
    assoc_get "operational_guidelines" brain = Some guidelines /\
    match assoc_get "resources" fields with
    | Some (PDict _) | None => True
    | Some _ => False
    end.

Definition validate_genome_safety (item : pyval) : M SafetyCheck :=
  let! brain := lift (py_get item "brain" (PDict [])) in
  let! resources := lift (py_get item "resources" (PDict [])) in
  let! corrupt :=
    lift (if negb (py_truthy brain) then inr true
          else let? has_persona := py_contains "persona" brain in
               if negb has_persona then inr true
               else let? has_guidelines := py_contains "operational_guidelines" brain in
                    inr (negb has_guidelines)) in
  if (corrupt : bool) then
    ret (mkSafety false "Structural Corruption: Missing Brain/Persona")
  else
    let! _policy_text :=
      lift (py_get resources "policy_text" (PStr "No specific policy defined.")) in
    let! _persona := lift (py_get brain "persona" PNone) in
    let! _objectives := lift (py_get brain "objectives" PNone) in
    let! _guidelines := lift (py_get brain "operational_guidelines" PNone) in
    try_except
      (let! output_text := invoke_model_text in
       let result_text := strip output_text in
       if startswith result_text "SAFE" then
         ret (mkSafety true "Passed Policy Audit")
       else if str_contains "VIOLATION" result_text then
         ret (mkSafety false result_text)
       else
         ret (mkSafety true "Passed (Ambiguous Audit)"))
      any_exception
      (fun e => ret (mkSafety false ("Audit System Offline: " +:+ exn_str e))).

(** the five sections the promotion copies *)
Definition copied_sections : list string :=
  ["brain"; "config"; "resources"; "capabilities"; "evolution_config"].

(** what [.get(section, {})] returns on the winner *)
Definition section_of (winner_item : pyval) (section : string) : pyval :=
  match dict_get section winner_item with Some v => v | None => PDict [] end.

(** steps 4 to 6 of [lambda_handler]: mint the new version, then write
    it and the pointer *)
Definition promote (pk genome_sk chat_sk : option string) (retry_count : Z)
    (winner_item : pyval) (promotion_reason : string) : M pyval :=
  let! now := utcnow_isoformat in
  let now_iso := now +:+ "Z" in
  let new_version_sk := "VERSION#" +:+ now_iso in
  let! brain := lift (py_get winner_item "brain" (PDict [])) in
  let! config := lift (py_get winner_item "config" (PDict [])) in
  let! resources := lift (py_get winner_item "resources" (PDict [])) in
  let! capabilities := lift (py_get winner_item "capabilities" (PDict [])) in
  let! evolution_config :=
    lift (py_get winner_item "evolution_config" (PDict [])) in
  let! economics := lift (py_get winner_item "economics" (PDict [])) in
  let! metadata := lift (py_get winner_item "metadata" (PDict [])) in
  let! name := lift (py_get metadata "name" (PStr "Agent")) in
  let! hex := uuid4_hex in
  let! metadata' := lift (py_get winner_item "metadata" (PDict [])) in
  let! parent_hash := lift (py_get metadata' "parent_hash" (PStr "unknown")) in
  let new_genome := PDict [
    ("PK", opt_str pk);
    ("SK", PStr new_version_sk);
    ("EntityType", PStr "Genome");
    ("brain", brain);
    ("config", config);
    ("resources", resources);
    ("capabilities", capabilities);
    ("evolution_config", evolution_config);
    ("economics", economics);
    ("metadata", PDict [
       ("name", PStr (py_str name +:+ " (v" +:+ String.substring 0 10 now_iso +:+ ")"));
       ("description", PStr ("Evolved from " +:+ py_str (opt_str genome_sk)));
       ("creator", PStr "Supervisor_Agent");
       ("version_hash", PStr (uuid_str hex));
       ("parent_hash", parent_hash);
       ("deployment_state", PStr "ACTIVE");
       ("mutation_reason", PStr promotion_reason);
       ("deployed_at", PStr now_iso) ]) ] in
  let pointer_item := PDict [
    ("PK", opt_str pk);
    ("SK", PStr "CURRENT");
    ("active_version_sk", PStr new_version_sk);
    ("last_updated", PStr now_iso);
    ("updated_by", PStr "Supervisor_Agent") ] in
  let! written :=
    try_except
      (let! genome_item_db :=
         lift (json_copy false true (sanitize_for_json new_genome)) in
       let! pointer_item_db :=
         lift (json_copy false true (sanitize_for_json pointer_item)) in
       run! put_item genome_item_db in
       run! put_item pointer_item_db in
       ret (None : option exn))
      any_exception
      (fun e => ret (Some e)) in
  match written with
  | Some e =>
      handle_failure pk genome_sk chat_sk retry_count
        ("DB Write Failed: " +:+ exn_str e) None
  | None =>
      lift (json_copy false false (sanitize_for_json (PDict [
        ("status", PStr "SUCCESS");
        ("compliant", PBool true);
        ("new_active_version", PStr new_version_sk);
        ("promotion_reason", PStr promotion_reason) ])))
  end.

Definition lambda_handler (event : Event) : M pyval :=
  let pk := pk event in
  let chat_sk := chat_sk event in
  let genome_sk := genome_sk event in
  let retry_count := match retryCount event with Some r => r | None => 0 end in
  let winner_sk := selected_challenger_sk event in
  let promotion_reason := match judge_reason event with
                          | Some r => r | None => "Evolutionary Improvement" end in
  if falsy pk || falsy winner_sk then
    ret (PDict [
      ("status", PStr "FAILED");
      ("error", PStr ("Missing required keys. PK: " +:+ py_str (opt_str pk)
                        +:+ ", Winner: " +:+ py_str (opt_str winner_sk)));
      ("compliant", PBool false) ])
  else
    let! fetched := get_item pk winner_sk in
    match option_map sanitize_for_json fetched with
    | None =>
        handle_failure pk genome_sk chat_sk retry_count
          ("Winner SK " +:+ py_str (opt_str winner_sk) +:+ " not found in DB.") None
    | Some winner_item =>
      if negb (py_truthy winner_item) then
        handle_failure pk genome_sk chat_sk retry_count
          ("Winner SK " +:+ py_str (opt_str winner_sk) +:+ " not found in DB.") None
      else
        let! safety_check := validate_genome_safety winner_item in
        if negb (safe safety_check) then
          let reason := "Supervisor Safety Protocol Violation: "
                          +:+ safety_reason safety_check in
          handle_failure pk genome_sk chat_sk retry_count reason winner_sk
        else
          promote pk genome_sk chat_sk retry_count winner_item promotion_reason
    end.

End WithRuntime.
End Supervisor.

(** ** proxy_agent/app.py *)

Module Proxy.
Import Py Env Shared.

(** the fields of the parsed request body *)
Record Request := mkRequest {
  pk : option string;
  chat_id : option string;
  user_message : option string
}.

(** the HTTP reply; the headers are the same on every path *)
Record Response := mkResponse {
  statusCode : Z;
  body : pyval
}.

Definition error_response (code : Z) (msg : string) : Response :=
  mkResponse code (PDict [("error", PStr msg)]).

Definition is_throttling (e : exn) : bool :=
  match e with
  | ClientError code _ =>
      String.eqb code "ProvisionedThroughputExceededException"
      || String.eqb code "ThrottlingException"
      || String.eqb code "Throttling"
  | _ => false
  end.

(** [exponential_backoff_retry]: [remaining] attempts are left; the
    sleeps between them are not modelled. *)
Fixpoint exponential_backoff_retry {A} (func : M A) (remaining : nat) : M A :=
  match remaining with
  | O => raise (TypeError "exceptions must derive from BaseException")
  | S rest =>
      try_except func is_ClientError
        (fun e =>
           if is_throttling e then
             match rest with
             | O => raise e
             | S _ => exponential_backoff_retry func rest
             end
           else raise e)
  end.

Definition turn (role content : string) : pyval :=
  PDict [("role", PStr role); ("content", PStr content)].

Definition is_ClientError_or_ValueError (e : exn) : bool :=
  is_ClientError e || is_ValueError e.

Section WithRuntime.
Context `{Runtime}.

Definition resolve_active_genome (pk : string) : M pyval :=
  let! current := exponential_backoff_retry (Env.get_item (Some pk) (Some "CURRENT")) 3 in
  match current with
  | None => raise (ValueError ("CURRENT pointer not found for pk=" +:+ pk))
  | Some pointer =>
      let! active_version_sk := lift (py_get pointer "active_version_sk" PNone) in
      if negb (py_truthy active_version_sk) then
        raise (ValueError ("active_version_sk not found in CURRENT pointer for pk=" +:+ pk))
      else
        let sk := match active_version_sk with PStr s => Some s | _ => None end in
        let! found := exponential_backoff_retry (Env.get_item (Some pk) sk) 3 in
        match found with
        | None => raise (ValueError ("Genome not found for pk=" +:+ pk +:+ ", sk="
                                       +:+ py_str active_version_sk))
        | Some item =>
            let genome := sanitize_for_json item in
            let! _ :=
              lift (rmap (fun section =>
                            let? present := py_contains section genome in
                            if (present : bool) then inr tt
                            else inl (ValueError ("Missing required section '"
                                                    +:+ section +:+ "' in genome")))
                         ["config"; "brain"; "resources"]) in
            let! config := lift (py_get genome "config" (PDict [])) in
            let! _ :=
              lift (rmap (fun field =>
                            let? present := py_contains field config in
                            if (present : bool) then inr tt
                            else inl (ValueError ("Missing required config field '"
                                                    +:+ field +:+ "' in genome")))
                         ["model_id"; "temperature"; "max_tokens"]) in
            (* the closing log line formats [config.get('model_id')] *)
            let! _model_id := lift (py_get config "model_id" PNone) in
            ret genome
        end
  end.

Definition chat_key (version_sk : pyval) (chat_id : string) : string :=
  py_str version_sk +:+ "#CHAT#" +:+ chat_id.

(** returns the transcript and the critic verdict ([None] when absent) *)
Definition get_chat_history (pk : string) (version_sk : pyval) (chat_id : string)
  : M (pyval * pyval) :=
  let chat_sk := chat_key version_sk chat_id in
  try_except
    (let! chat := exponential_backoff_retry (Env.get_item (Some pk) (Some chat_sk)) 3 in
     match chat with
     | None => ret (PList [], PNone)
     | Some item =>
         let! transcript := lift (py_get item "transcript" (PList [])) in
         let! critic_verdict := lift (py_get item "critic_verdict" PNone) in
         (* the closing log line formats [len(transcript)] *)
         let! _messages := lift (py_len transcript) in
         ret (transcript, critic_verdict)
     end)
    is_ClientError
    (fun _ => ret (PList [], PNone)).

Definition invoke_bedrock (messages : list pyval) : M string :=
  let! _formatted_messages :=
    lift (rmap (fun msg =>
                  let? role := py_item msg "role" in
                  let? content := py_item msg "content" in
                  inr (role, content)) messages) in
  exponential_backoff_retry bedrock_text 3.

(** the inner [update_chat] of [store_chat_transcript] *)
Definition update_chat (pk chat_sk : string) (updated_transcript : list pyval) : M unit :=
  let! now := utcnow_isoformat in
  update_item_set pk chat_sk [
    ("transcript", PList updated_transcript);
    ("updated_at", PStr (now +:+ "Z")) ].

Definition store_chat_transcript (pk : string) (version_sk : pyval) (chat_id : string)
    (user_message assistant_response : string) (existing_transcript : list pyval)
  : M unit :=
  let chat_sk := chat_key version_sk chat_id in
  let updated_transcript :=
    existing_transcript ++ [turn "user" user_message]
                        ++ [turn "assistant" assistant_response] in
  try_except (exponential_backoff_retry (update_chat pk chat_sk updated_transcript) 3)
    is_ClientError
    (fun _ => ret tt).



Definition event_detail (pk chat_sk : string) : pyval :=
  PDict [("pk", PStr pk); ("chat_sk", PStr chat_sk)].

Definition emit_event (pk chat_sk : string) : M unit :=
  try_except (put_events (event_detail pk chat_sk)) is_ClientError (fun _ => ret tt).

(** [critic_verdict is None or critic_verdict == 'PASS'] *)
Definition verdict_allows_event (critic_verdict : pyval) : bool :=
  match critic_verdict with
  | PNone => true
  | PStr s => String.eqb s "PASS"
  | _ => false
  end.

(** the [try] body of [lambda_handler] after the field validation *)
Definition serve (pk chat_id user_message : string) : M Response :=
  let! resolved :=
    try_except
      (let! g := resolve_active_genome pk in ret (inr g))
      is_ValueError
      (fun e => ret (inl (error_response 404 (exn_str e)))) in
  match resolved with
  | inl not_found => ret not_found
  | inr genome =>
      let! version_sk := lift (py_get genome "SK" PNone) in
      let! history := get_chat_history pk version_sk chat_id in
      let (existing_transcript_v, critic_verdict) := history : pyval * pyval in
      let! _system_prompt := lift (construct_system_prompt genome) in
      (* [existing_transcript.copy()] and the [append] on the copy *)
      let! existing_transcript :=
        lift (match existing_transcript_v with
              | PList l => inr l
              | PDict _ => inl (no_attribute existing_transcript_v "append")
              | _ => inl (no_attribute existing_transcript_v "copy")
              end) in
      let messages := existing_transcript ++ [turn "user" user_message] in
      let! config := lift (py_get genome "config" (PDict [])) in
      let! _model_id := lift (py_get config "model_id" PNone) in
      let! temperature := lift (py_get config "temperature" (PFloat "0.7")) in
      let! _temperature := lift (py_float temperature) in
      let! max_tokens := lift (py_get config "max_tokens" (PInt 800)) in
      let! _max_tokens := lift (py_int max_tokens) in
      let! invoked :=
        try_except
          (let! text := invoke_bedrock messages in ret (inr text))
          is_ClientError_or_ValueError
          (fun e => ret (inl (error_response 500
                                ("Bedrock invocation failed: " +:+ exn_str e)))) in
      match invoked with
      | inl failed => ret failed
      | inr assistant_response =>
          run! store_chat_transcript pk version_sk chat_id user_message
                 assistant_response existing_transcript in
          let chat_sk := chat_key version_sk chat_id in
          run! (if verdict_allows_event critic_verdict
                then emit_event pk chat_sk
                else ret tt) in
          ret (mkResponse 200
                 (sanitize_for_json (PDict [("response", PStr assistant_response)])))
      end
  end.

Definition lambda_handler (request : Request) : M Response :=
  match pk request with
  | None => ret (error_response 400 "Missing required field: pk")
  | Some pk =>
    if String.eqb pk "" then ret (error_response 400 "Missing required field: pk")
    else
    match chat_id request with
    | None => ret (error_response 400 "Missing required field: chat_id")
    | Some chat_id =>
      if String.eqb chat_id "" then
        ret (error_response 400 "Missing required field: chat_id")
      else
      match user_message request with
      | None => ret (error_response 400 "Missing required field: user_message")
      | Some user_message =>
        if String.eqb user_message "" then
          ret (error_response 400 "Missing required field: user_message")
        else
          try_except (serve pk chat_id user_message) any_exception
            (fun e =>
               if is_JSONDecodeError e then
                 ret (error_response 400 "Invalid JSON in request body")
               else
                 ret (error_response 500 ("Internal server error: " +:+ exn_str e)))
      end
    end
  end.

End WithRuntime.
End Proxy.

(** ** critic_agent/app.py *)

Module Critic.
Import Py Env Shared.

(** the payload, [event.get('detail', event)], by its two keys *)
Record Event := mkEvent {
  pk : option string;
  chat_sk : option string
}.

(** [chat_sk.split('#CHAT#')[0]], guarded by ['#CHAT#' not in chat_sk] *)
Definition derive_genome_sk (chat_sk : string) : result string :=
  match String.index 0 "#CHAT#" chat_sk with
  | Some n => inr (String.substring 0 n chat_sk)
  | None => inl (ValueError ("Invalid chat_sk format: " +:+ chat_sk))
  end.

(** the group of [re.search(r'```json\s*(.*?)\s*```', text, re.DOTALL)]:
    what stands between the first [```json] and the next fence, without
    the white space around it *)
Definition fenced_json (text : string) : option string :=
  match String.index 0 "```json" text with
  | Some i =>
      let body := lstrip (String.substring (i + 7) (String.length text - (i + 7)) text) in
      match String.index 0 "```" body with
      | Some q => Some (rstrip (String.substring 0 q body))
      | None => None
      end
  | None => None
  end.

(** [content_text[start_index : end_index + 1]] between the first [{]
    and the last [}] *)
Definition braced_json (text : string) : option string :=
  match String.index 0 "{" text, rindex "}" text with
  | Some start, Some stop => Some (String.substring start (S stop - start) text)
  | _, _ => None
  end.

(** [result['verdict'] in ['PASS', 'FAIL']] *)
Definition valid_verdict (v : pyval) : bool :=
  match v with
  | PStr s => String.eqb s "PASS" || String.eqb s "FAIL"
  | _ => false
  end.

(** [verdict == 'FAIL'] *)
Definition is_fail (v : pyval) : bool :=
  match v with PStr s => String.eqb s "FAIL" | _ => false end.

Section WithRuntime.
Context `{Runtime}.

Definition fetch_chat (pk chat_sk : string) : M pyval :=
  let! item := get_item (Some pk) (Some chat_sk) in
  match item with
  | None => raise (ValueError ("Chat not found: " +:+ pk +:+ "/" +:+ chat_sk))
  | Some it => ret (sanitize_for_json it)
  end.

Definition fetch_genome (pk genome_sk : string) : M pyval :=
  let! item := get_item (Some pk) (Some genome_sk) in
  match item with
  | None => raise (ValueError ("Genome not found: " +:+ pk +:+ "/" +:+ genome_sk))
  | Some it => ret (sanitize_for_json it)
  end.

(** [format_transcript_with_turns]: only the lookups that can raise are
    kept, the text goes into the prompt *)
Definition format_transcript_with_turns (transcript : pyval) : result (list unit) :=
  let? msgs := py_iter transcript in
  rmap (fun msg =>
          let? role := py_get msg "role" (PStr "unknown") in
          let? _capitalized :=
            match role with
            | PStr _ => inr tt
            | _ => inl (no_attribute role "capitalize")
            end in
          let? _content := py_get msg "content" (PStr "") in
          inr tt) msgs.

(** the [try] block of [call_bedrock]: the call, the extraction of the
    JSON text and its parse *)
Definition audit_reply : M pyval :=
  let! content_text := bedrock_text in
  let! clean_json :=
    match fenced_json content_text with
    | Some group => ret group
    | None =>
        match braced_json content_text with
        | Some between => ret between
        | None => raise (ValueError "No JSON object found in LLM response")
        end
    end in
  match json_loads clean_json with
  | Some result => ret result
  | None => raise (JSONDecodeError (json_error clean_json))
  end.

Definition call_bedrock (chat_item genome_item : pyval) : M pyval :=
  let! transcript := lift (py_get chat_item "transcript" (PList [])) in
  let! brain := lift (py_get genome_item "brain" (PDict [])) in
  let! resources := lift (py_get genome_item "resources" (PDict [])) in
  let! evolution_config := lift (py_get genome_item "evolution_config" (PDict [])) in
  let! persona := lift (py_get brain "persona" (PDict [])) in
  let! _objectives := lift (py_get brain "objectives" (PList [])) in
  let! _operational_guidelines :=
    lift (py_get brain "operational_guidelines" (PList [])) in
  let! _knowledge_base := lift (py_get resources "knowledge_base_text" (PStr "")) in
  let! _policy_text := lift (py_get resources "policy_text" (PStr "")) in
  let! critic_rules := lift (py_get evolution_config "critic_rules" (PList [])) in
  if negb (py_truthy critic_rules) then
    raise (ValueError "No critic_rules found in genome evolution_config")
  else
    let! _transcript_text := lift (format_transcript_with_turns transcript) in
    let! _role := lift (py_get persona "role" (PStr "N/A")) in
    let! _tone := lift (py_get persona "tone" (PStr "N/A")) in
    let! _now := utcnow_isoformat in
    let! result :=
      try_except audit_reply any_exception
        (fun e => raise (ValueError ("Bedrock error: " +:+ exn_str e))) in
    let invalid := ValueError ("Invalid verdict in result: " +:+ py_str result) in
    let! has_verdict := lift (py_contains "verdict" result) in
    if negb has_verdict then raise invalid
    else
      let! verdict := lift (py_item result "verdict") in
      if valid_verdict verdict then ret result else raise invalid.

(** [update_chat]: the four attributes are set on the Chat item. *)
Definition update_chat (pk chat_sk : string) (critic_result : pyval) : M unit :=
  let! verdict := lift (py_item critic_result "verdict") in
  let! failure_detail := lift (py_get critic_result "failure_detail" (PDict [])) in
  let! reason :=
    lift (if is_fail verdict then py_get failure_detail "reasoning" PNone
          else inr PNone) in
  let! turn_idx :=
    lift (if is_fail verdict then py_get failure_detail "turn_index" PNone
          else inr PNone) in
  let! now := utcnow_isoformat in
  update_item_set pk chat_sk [
    ("critic_verdict", verdict);
    ("critic_reason", reason);
    ("failure_turn_index", turn_idx);
    ("updated_at", PStr now) ].

Definition event_detail (pk chat_sk genome_sk : string) (reason : pyval) : pyval :=
  PDict [("pk", PStr pk); ("chat_sk", PStr chat_sk);
         ("genome_sk", PStr genome_sk); ("reason", reason)].

Definition emit_event (pk chat_sk genome_sk : string) (critic_result : pyval) : M unit :=
  let! failure_detail := lift (py_get critic_result "failure_detail" (PDict [])) in
  let! reason :=
    lift (py_get failure_detail "reasoning" (PStr "Critic rule violation detected")) in
  put_events (event_detail pk chat_sk genome_sk reason).

(** The handler; the outer [except] logs and re-raises.  The body of the
    response is given as the value that is dumped. *)
Definition lambda_handler (event : Event) : M pyval :=
  let! pk := lift (match pk event with
                   | Some p => inr p | None => inl (KeyError "pk") end) in
  let! chat_sk := lift (match chat_sk event with
                        | Some c => inr c | None => inl (KeyError "chat_sk") end) in
  let! chat_item := fetch_chat pk chat_sk in
  let! genome_sk := lift (derive_genome_sk chat_sk) in
  let! genome_item := fetch_genome pk genome_sk in
  let! critic_result := call_bedrock chat_item genome_item in
  run! update_chat pk chat_sk critic_result in
  let! verdict := lift (py_item critic_result "verdict") in
  run! (if is_fail verdict then emit_event pk chat_sk genome_sk critic_result
        else ret tt) in
  ret (PDict [("statusCode", PInt 200); ("body", sanitize_for_json critic_result)]).

End WithRuntime.
End Critic.

(** ** Vocabulary of the escalation policy *)

Module Escalation.
Import Py Env.

(** an OPEN ticket of type SYSTEM at [ticket_sk] that refers to a chat
    and to a challenger *)
Definition open_system_ticket (ticket : pyval)
    (ticket_sk chat_ref challenger_ref : string) : Prop :=
  dict_get "SK" ticket = Some (PStr ticket_sk) /\
  dict_get "EntityType" ticket = Some (PStr "Ticket") /\
  dict_get "type" ticket = Some (PStr "SYSTEM") /\
  dict_get "status" ticket = Some (PStr "OPEN") /\
  dict_get "chat_sk" ticket = Some (PStr chat_ref) /\
  dict_get "challenger_sk" ticket = Some (PStr challenger_ref).

(** the one put of the ticket between [w] and [w']: it goes through when
    the partition key is there and the table call does not fail, and is
    swallowed otherwise *)
Definition ticket_put (pk : option string) (ticket_sk : string) (ticket : pyval)
    (w w' : World) : Prop :=
  match pk with
  | Some p =>
      if next_db_call_fails w
      then table w' = table w /\ trace w' = trace w
      else table w' = <[(p, ticket_sk) := ticket]> (table w) /\
           trace w' = trace w ++ [Wrote (p, ticket_sk) ticket]
  | None => table w' = table w /\ trace w' = trace w
  end.

(** how a handler names a challenger that may be missing *)
Definition challenger_ref (placeholder : string) (failed_challenger : option string)
  : string :=
  match failed_challenger with
  | Some c => if String.eqb c "" then placeholder else c
  | None => placeholder
  end.

End Escalation.

(** ** Vocabulary of the further properties *)

Module Notions.
Import Py Env.

(** what one effect does to the table *)
Definition apply_effect (t : gmap (string * string) pyval) (e : effect)
  : gmap (string * string) pyval :=
  match e with
  | Wrote key item => <[key := item]> t
  | EventPut _ _ => t
  end.

(** the table after the effects of a trace, oldest first *)
Definition replay (es : list effect) (t : gmap (string * string) pyval)
  : gmap (string * string) pyval :=
  foldl apply_effect t es.

(** the puts of a fan-out: key [k] of the round under the partition key
    and with the item of the matching entry of [written] *)
Definition challenger_puts (keys : list string) (written : list (string * pyval))
  : list effect :=
  zip_with (fun k (pi : string * pyval) => Wrote (fst pi, k) (snd pi)) keys written.

(** [m] is the copied brain [safe] with [suffix] added to its tone and
    [line] appended to the list under [list_key], and nothing else
    changed *)
Definition fallback_of `{Runtime} (safe : list (string * pyval))
    (suffix list_key line : string) (m : pyval) : Prop :=
  exists persona tone lines,
    assoc_get "persona" safe = Some (PDict persona) /\
    py_get (PDict persona) "tone" (PStr "Professional") = inr tone /\
    assoc_get list_key safe = Some (PList lines) /\
    dict_get "persona" m
      = Some (PDict (assoc_set "tone" (PStr (py_str tone +:+ suffix)) persona)) /\
    dict_get list_key m = Some (PList (lines ++ [PStr line])) /\
    forall k, k <> "persona" -> k <> list_key -> dict_get k m = assoc_get k safe.

(** between [w] and [w'] nothing was written, or one item and that item
    is a Ticket *)
Definition at_most_a_ticket (w w' : World) : Prop :=
  (table w' = table w /\ trace w' = trace w) \/
  exists key ticket,
    dict_get "EntityType" ticket = Some (PStr "Ticket") /\
    table w' = <[key := ticket]> (table w) /\
    trace w' = trace w ++ [Wrote key ticket].

(** a computation that writes at most one item, a Ticket, and nothing
    at all in a round below [1] *)
Definition writes_at_most_a_ticket {A} (retry_count : Z) (m : M A) : Prop :=
  forall w r w', m w = (r, w') ->
    at_most_a_ticket w w' /\
    (retry_count < 1 -> table w' = table w /\ trace w' = trace w).

(** a run that ends in a result with [status: SUCCESS] *)
Definition succeeded (r : result pyval) : Prop :=
  exists result, r = inr result /\ dict_get "status" result = Some (PStr "SUCCESS").

(** no [CURRENT] pointer differs between the two tables *)
Definition same_pointers (t t' : gmap (string * string) pyval) : Prop :=
  forall q : string, t' !! (q, "CURRENT") = t !! (q, "CURRENT").

(** a computation that leaves every [CURRENT] pointer as it is unless it
    ends in [status: SUCCESS] *)
Definition moves_pointer_only_on_success (m : M pyval) : Prop :=
  forall w r w', m w = (r, w') -> succeeded r \/ same_pointers (table w) (table w').

(** [not field] on a field of the request body *)
Definition blank (field : option string) : bool :=
  match field with Some s => String.eqb s "" | None => true end.



End Notions.

(** ** A run time to evaluate the handlers with

    The theorems below hold for every [Runtime].  To run a handler on a
    concrete input one is needed: [Lite.runtime] reads and writes the
    JSON fragment without escapes, fractions and exponents, on which it
    agrees with Python's [json]; it words every [JSONDecodeError] as that
    of an empty document, and its digest is a stand-in for SHA-256. *)

Module Lite.
Import Py.

Definition dquote : ascii := ascii_of_nat 34.

(** a string in double quotes *)
Definition quoted (s : string) : string :=
  String dquote s +:+ String dquote EmptyString.

Definition is_digit (a : ascii) : bool :=
  let n := nat_of_ascii a in ((48 <=? n) && (n <=? 57))%nat.

(** JSON's white space: space, tab, line feed, carriage return *)
Definition is_json_space (a : ascii) : bool :=
  let n := nat_of_ascii a in
  (n =? 32)%nat || (n =? 9)%nat || (n =? 10)%nat || (n =? 13)%nat.

Fixpoint skip_ws (s : list ascii) : list ascii :=
  match s with
  | a :: rest => if is_json_space a then skip_ws rest else s
  | [] => []
  end.

Fixpoint read_digits (s : list ascii) (acc : Z) : Z * list ascii :=
  match s with
  | a :: rest =>
      if is_digit a then read_digits rest (10 * acc + Z.of_nat (nat_of_ascii a - 48))
      else (acc, s)
  | [] => (acc, [])
  end.

Definition starts_fraction (s : list ascii) : bool :=
  match s with
  | a :: _ => Ascii.eqb a "." || Ascii.eqb a "e" || Ascii.eqb a "E"
  | [] => false
  end.

(** an integer literal without sign: no leading zero, no fraction *)
Definition read_nat (s : list ascii) : option (Z * list ascii) :=
  match s with
  | a :: rest =>
      if is_digit a then
        let (z, r) := read_digits s 0 in
        let leading_zero :=
          Ascii.eqb a "0" && match rest with d :: _ => is_digit d | [] => false end in
        if leading_zero || starts_fraction r then None else Some (z, r)
      else None
  | [] => None
  end.

Definition read_int (s : list ascii) : option (Z * list ascii) :=
  match s with
  | a :: rest =>
      if Ascii.eqb a "-" then
        match read_nat rest with Some (z, r) => Some (- z, r) | None => None end
      else read_nat s
  | [] => None
  end.

(** the characters up to the closing quote; escapes and control
    characters are outside the fragment *)
Fixpoint read_string (s : list ascii) : option (string * list ascii) :=
  match s with
  | [] => None
  | a :: rest =>
      if Ascii.eqb a dquote then Some (EmptyString, rest)
      else if Ascii.eqb a "\" || (nat_of_ascii a <? 32)%nat then None
      else match read_string rest with
           | Some (str, r) => Some (String a str, r)
           | None => None
           end
  end.

Definition expect (c : ascii) (s : list ascii) : option (list ascii) :=
  match skip_ws s with
  | a :: rest => if Ascii.eqb a c then Some rest else None
  | [] => None
  end.

Definition read_literal (word : string) (v : pyval) (s : list ascii)
  : option (pyval * list ascii) :=
  let w := list_ascii_of_string word in
  if String.eqb (string_of_list_ascii (take (List.length w) s)) word
  then Some (v, drop (List.length w) s) else None.

Section Readers.
Variable read_value : list ascii -> option (pyval * list ascii).

(** the elements of an array, from the start of an element on *)
Fixpoint read_elements (fuel : nat) (s : list ascii) (acc : list pyval)
  : option (list pyval * list ascii) :=
  match fuel with
  | O => None
  | S fuel' =>
      match read_value s with
      | Some (v, r) =>
          match skip_ws r with
          | c :: r' =>
              if Ascii.eqb c "," then read_elements fuel' r' (acc ++ [v])
              else if Ascii.eqb c "]" then Some (acc ++ [v], r')
              else None
          | [] => None
          end
      | None => None
      end
  end.

(** the members of an object, from the start of a key on; a repeated
    key keeps its place and takes the later value *)
Fixpoint read_members (fuel : nat) (s : list ascii) (acc : list (string * pyval))
  : option (list (string * pyval) * list ascii) :=
  match fuel with
  | O => None
  | S fuel' =>
      match expect dquote s with
      | Some r =>
          match read_string r with
          | Some (k, r) =>
              match expect ":" r with
              | Some r =>
                  match read_value r with
                  | Some (v, r) =>
                      match skip_ws r with
                      | c :: r' =>
                          if Ascii.eqb c "," then read_members fuel' r' (assoc_set k v acc)
                          else if Ascii.eqb c "}" then Some (assoc_set k v acc, r')
                          else None
                      | [] => None
                      end
                  | None => None
                  end
              | None => None
              end
          | None => None
          end
      | None => None
      end
  end.
End Readers.

Fixpoint read_value (fuel : nat) (s : list ascii) : option (pyval * list ascii) :=
  match fuel with
  | O => None
  | S fuel' =>
      match skip_ws s with
      | [] => None
      | a :: rest =>
          if Ascii.eqb a "{" then
            match expect "}" rest with
            | Some r => Some (PDict [], r)
            | None =>
                match read_members (read_value fuel') fuel' rest [] with
                | Some (kvs, r) => Some (PDict kvs, r)
                | None => None
                end
            end
          else if Ascii.eqb a "[" then
            match expect "]" rest with
            | Some r => Some (PList [], r)
            | None =>
                match read_elements (read_value fuel') fuel' rest [] with
                | Some (l, r) => Some (PList l, r)
                | None => None
                end
            end
          else if Ascii.eqb a dquote then
            match read_string rest with
            | Some (str, r) => Some (PStr str, r)
            | None => None
            end
          else if Ascii.eqb a "t" then read_literal "true" (PBool true) (a :: rest)
          else if Ascii.eqb a "f" then read_literal "false" (PBool false) (a :: rest)
          else if Ascii.eqb a "n" then read_literal "null" PNone (a :: rest)
          else match read_int (a :: rest) with
               | Some (z, r) => Some (PInt z, r)
               | None => None
               end
      end
  end.

Definition loads (text : string) : option pyval :=
  let s := list_ascii_of_string text in
  match read_value (S (List.length s)) s with
  | Some (v, r) => match skip_ws r with [] => Some v | _ => None end
  | None => None
  end.

Definition int_literal (lit : string) : option Z :=
  match read_int (list_ascii_of_string lit) with
  | Some (z, []) => Some z
  | _ => None
  end.

Fixpoint insert_sorted (kv : string * string) (l : list (string * string))
  : list (string * string) :=
  match l with
  | [] => [kv]
  | kv' :: rest =>
      if String.leb (fst kv) (fst kv') then kv :: l else kv' :: insert_sorted kv rest
  end.

(** [json.dumps(v, sort_keys=True)] with the default separators *)
Fixpoint dumps_sorted (v : pyval) : string :=
  match v with
  | PNone => "null"
  | PBool true => "true"
  | PBool false => "false"
  | PInt z => str_of_int z
  | PFloat r => r
  | PDecimal d => d
  | PStr s => quoted s
  | PList l => "[" +:+ join ", " (map dumps_sorted l) +:+ "]"
  | PDict kvs =>
      let members := map (fun kv => (fst kv, dumps_sorted (snd kv))) kvs in
      let sorted := fold_right insert_sorted [] members in
      "{" +:+ join ", " (map (fun kv => quoted (fst kv) +:+ ": " +:+ snd kv) sorted) +:+ "}"
  end.

Definition to_int (v : pyval) : result Z :=
  match v with
  | PStr s | PDecimal s =>
      match int_literal s with
      | Some z => inr z
      | None => inl (ValueError "invalid literal for int()")
      end
  | PFloat r =>
      match split_on "." r with
      | whole :: _ =>
          match int_literal whole with
          | Some z => inr z
          | None => inl (ValueError "cannot convert float to integer")
          end
      | [] => inl (ValueError "cannot convert float to integer")
      end
  | _ => inl (TypeError ("int() argument must be a string, a bytes-like object "
                           +:+ "or a real number, not '" +:+ type_name v +:+ "'"))
  end.

Definition to_float (v : pyval) : result string :=
  match v with
  | PInt z => inr (str_of_int z +:+ ".0")
  | PBool b => inr (if b then "1.0" else "0.0")
  | PDecimal d => inr d
  | PStr s =>
      match int_literal s with
      | Some z => inr (str_of_int z +:+ ".0")
      | None => inl (ValueError "could not convert string to float")
      end
  | _ => inl (TypeError ("float() argument must be a string or a real number, not '"
                           +:+ type_name v +:+ "'"))
  end.

Definition runtime : Runtime := {|
  decimal_integral := int_literal;
  float_of_decimal := fun lit => lit;
  float_truthy := fun r => negb (String.eqb r "0.0" || String.eqb r "-0.0");
  builtin_str := dumps_sorted;
  builtin_int := to_int;
  builtin_float := to_float;
  json_loads := loads;
  json_error := fun _ => "Expecting value: line 1 column 1 (char 0)";
  json_dumps_sorted := dumps_sorted;
  sha256_hexdigest := fun text => text
|}.

End Lite.

(** ** Sample data to run the handlers on *)

Module Sample.
Import Py Env.

(** failures of the services, as botocore words them *)
Definition throughput_exceeded : exn :=
  client_error "ProvisionedThroughputExceededException" "GetItem"
    "The level of configured provisioned throughput for the table was exceeded.".

Definition internal_error (operation : string) : exn :=
  client_error "InternalServerError" operation "Internal server error".

Definition throttled (operation : string) : exn :=
  client_error "ThrottlingException" operation "Too many requests, please wait.".

(** a GenomeVersion as DynamoDB returns it *)
Definition parent : pyval := PDict [
  ("PK", PStr "AGENT#concierge");
  ("SK", PStr "VERSION#2025-01-01T00:00:00");
  ("EntityType", PStr "Genome");
  ("metadata", PDict [
     ("name", PStr "Concierge");
     ("description", PStr "Hotel front desk");
     ("version_hash", PStr "9f2c41aa07b3d5e1");
     ("parent_hash", PStr "genesis");
     ("deployment_state", PStr "ACTIVE") ]);
  ("config", PDict [
     ("model_id", PStr "amazon.nova-premier-v1:0");
     ("temperature", PDecimal "0.7");
     ("max_tokens", PInt 800) ]);
  ("brain", PDict [
     ("persona", PDict [("role", PStr "Concierge"); ("tone", PStr "Professional")]);
     ("style_guide", PList []);
     ("objectives", PList [PStr "Help the guest"]);
     ("operational_guidelines", PList []) ]);
  ("resources", PDict [
     ("knowledge_base_text", PStr "Breakfast is served from 7 to 10.");
     ("policy_text", PStr "Never promise a refund.") ]);
  ("capabilities", PDict [("active_tools", PList [])]);
  ("evolution_config", PDict [
     ("critic_rules", PList [PStr "Never promise a refund."]);
     ("judge_rubric", PList [PStr "Stays polite"]) ]);
  ("economics", PDict [("likes", PInt 2); ("dislikes", PInt 1); ("token_budget", PInt 600)]) ].

Definition parent_key : string * string :=
  ("AGENT#concierge", "VERSION#2025-01-01T00:00:00").

Definition critic_issue : pyval := PDict [
  ("rule", PStr "Never promise a refund.");
  ("reason", PStr "The agent promised a refund.") ].

(** a mutated brain as the gateway could propose it *)
Definition brain (tone : string) : pyval := PDict [
  ("persona", PDict [("role", PStr "Concierge"); ("tone", PStr tone)]);
  ("style_guide", PList []);
  ("objectives", PList [PStr "Help the guest"]);
  ("operational_guidelines", PList [PStr "Refunds are handled by the manager."]) ].

(** a quiet world: the table holds [items], no call fails *)
Definition world (items : list (string * string * pyval))
    (replies : list (result string)) : World :=
  mkWorld (list_to_map items) [] replies []
          ["3f9a1c0e5b7d42a68c1e0f9b2d4a6c8e"] ["2025-02-02T10:00:00"] [].

(** the parent as the handlers hold it after [sanitize_for_json] *)
Definition original : pyval := sanitize_for_json (H := Lite.runtime) parent.

Definition mutations : pyval :=
  PList [brain "Strict"; brain "Warm"; brain "Brief"].


Definition mutator_event : Mutator.Event :=
  Mutator.mkEvent (Some "AGENT#concierge") (Some "VERSION#2025-01-01T00:00:00")
                  (Some critic_issue) None (Some 0).

(** a gateway reply that is valid JSON but holds a number where the
    three mutations should be *)
Definition reply_mutations_5 : string :=
  "{" +:+ Lite.quoted "mutations" +:+ ": 5}".


Definition chat_sk : string := "VERSION#2025-01-01T00:00:00#CHAT#c1".

Definition attempt_1 : string := "VERSION#2025-01-01T00:00:00#CHALLENGER#attempt-1".

(** a world whose next table call is throttled away *)
Definition world_db_down : World :=
  set_db_faults [Some throughput_exceeded]
    (world [] []).


(** the challenger the Judge selected, as the Mutator wrote it *)
Definition winner : pyval := PDict [
  ("PK", PStr "AGENT#concierge");
  ("SK", PStr attempt_1);
  ("EntityType", PStr "Challenger");
  ("metadata", PDict [
     ("name", PStr "Concierge (Candidate)");
     ("version_hash", PStr "51c2e07d9a4b6f38");
     ("parent_hash", PStr "9f2c41aa07b3d5e1");
     ("deployment_state", PStr "PENDING_APPROVAL") ]);
  ("config", PDict [
     ("model_id", PStr "amazon.nova-premier-v1:0");
     ("temperature", PDecimal "0.7");
     ("max_tokens", PInt 800) ]);
  ("economics", PDict [("likes", PInt 0); ("dislikes", PInt 0)]);
  ("brain", brain "Warm");
  ("resources", PDict [
     ("knowledge_base_text", PStr "Breakfast is served from 7 to 10.");
     ("policy_text", PStr "Never promise a refund.") ]);
  ("capabilities", PDict [("active_tools", PList [])]);
  ("evolution_config", PDict [
     ("critic_rules", PList [PStr "Never promise a refund."]);
     ("judge_rubric", PList [PStr "Stays polite"]) ]) ].

Definition winner_key : string * string := ("AGENT#concierge", attempt_1).

Definition supervisor_event (retry_count : Z) : Supervisor.Event :=
  Supervisor.mkEvent (Some "AGENT#concierge") (Some chat_sk)
    (Some "VERSION#2025-01-01T00:00:00") (Some retry_count)
    (Some attempt_1) (Some "Resolves the refund promise").


(** the conversation the Critic marked as failing at its second turn *)
Definition chat : pyval := PDict [
  ("PK", PStr "AGENT#concierge");
  ("SK", PStr chat_sk);
  ("EntityType", PStr "Chat");
  ("transcript", PList [
     Proxy.turn "user" "My room was noisy. Can I get my money back?";
     Proxy.turn "assistant" "Of course, I promise you a full refund." ]);
  ("critic_verdict", PStr "FAIL");
  ("critic_reason", PStr "The agent promised a refund.");
  ("failure_turn_index", PDecimal "1") ].

Definition chat_key : string * string := ("AGENT#concierge", chat_sk).

Definition judge_event (retry_count : Z) : Judge.Event :=
  Judge.mkEvent [attempt_1] (Some "AGENT#concierge")
    (Some "VERSION#2025-01-01T00:00:00") (Some chat_sk) (Some retry_count).

(** the comparator's verdict for candidate 0 *)
Definition reply_winner_0 : string :=
  "{" +:+ Lite.quoted "winner_id" +:+ ": 0, " +:+ Lite.quoted "reason" +:+ ": "
      +:+ Lite.quoted "Defers to the manager" +:+ "}".

(** a compliance verdict whose "passed" is a string, not a boolean *)
Definition reply_passed_no : string :=
  "{" +:+ Lite.quoted "passed" +:+ ": " +:+ Lite.quoted "no" +:+ ", "
      +:+ Lite.quoted "reason" +:+ ": " +:+ Lite.quoted "Promises a refund" +:+ "}".

(** the table the Judge finds: parent, chat and one challenger *)
Definition judge_table : list (string * string * pyval) :=
  [(parent_key, parent); (chat_key, chat); (winner_key, winner)].


Definition simulated_reply : string :=
  "I am sorry about the noise. Refunds are decided by the manager.".

(** the Judge's world: the simulation answers, the comparator picks
    candidate 0, and the compliance call has the given fate *)
Definition judge_world (compliance : result string) : World :=
  world judge_table [inr simulated_reply; inr reply_winner_0; compliance].


Definition pointer : pyval := PDict [
  ("PK", PStr "AGENT#concierge");
  ("SK", PStr "CURRENT");
  ("active_version_sk", PStr "VERSION#2025-01-01T00:00:00") ].

Definition pointer_key : string * string := ("AGENT#concierge", "CURRENT").

Definition request : Proxy.Request :=
  Proxy.mkRequest (Some "AGENT#concierge") (Some "c1")
                  (Some "Then I would like to speak to the manager.").

(** the table the Serving Path finds: pointer, active genome, and the
    chat the Critic marked FAIL *)
Definition serving_table : list (string * string * pyval) :=
  [(pointer_key, pointer); (parent_key, parent); (chat_key, chat)].




End Sample.

(** * Properties *)

Import Py Env Shared.

(** ** Running the monad *)

Lemma bind_inr {A B} (m : M A) (k : A -> M B) w b w' :
  bind m k w = (inr b, w') ->
  exists a w1, m w = (inr a, w1) /\ k a w1 = (inr b, w').
Proof.
  unfold bind. destruct (m w) as [[e | a] w1]; [discriminate |]. eauto.
Qed.

Lemma lift_inr {A} (r : result A) w a w' :
  lift r w = (inr a, w') -> r = inr a /\ w' = w.
Proof. unfold lift. intros [= -> ->]. auto. Qed.

Lemma bind_lift {A B} (r : result A) (k : A -> M B) w :
  bind (lift r) k w = match r with inl e => (inl e, w) | inr a => k a w end.
Proof. destruct r; reflexivity. Qed.


Lemma ret_inr {A} (x : A) w a w' :
  ret x w = (inr a, w') -> a = x /\ w' = w.
Proof. unfold ret. intros [= -> ->]. auto. Qed.

Lemma rbind_inr {A B} (r : result A) (k : A -> result B) b :
  rbind r k = inr b -> exists a, r = inr a /\ k a = inr b.
Proof. destruct r as [e | a]; simpl; [discriminate | eauto]. Qed.

Lemma db_call_inr w u w' :
  db_call w = (inr u, w') ->
  table w' = table w /\ trace w' = trace w /\ same_outside_db w w'.
Proof.
  unfold db_call, same_outside_db.
  destruct (db_faults w) as [| [e |] rest]; intros [= <- <-]; simpl; repeat split.
Qed.

Lemma db_call_inl w e w' :
  db_call w = (inl e, w') ->
  table w' = table w /\ trace w' = trace w /\ same_outside_db w w'.
Proof.
  unfold db_call, same_outside_db.
  destruct (db_faults w) as [| [e0 |] rest]; intros [= <- <-]; simpl; repeat split.
Qed.

Lemma put_item_inr item w u w' :
  put_item item w = (inr u, w') ->
  exists p s,
    dict_get "PK" item = Some (PStr p) /\ dict_get "SK" item = Some (PStr s) /\
    table w' = <[(p, s) := item]> (table w) /\
    trace w' = trace w ++ [Wrote (p, s) item] /\ same_outside_db w w'.
Proof.
  unfold put_item.
  destruct (float_free item); [| discriminate].
  destruct (dict_get "PK" item) as [[| | | | | p | |] |]; try discriminate.
  destruct (dict_get "SK" item) as [[| | | | | s | |] |]; try discriminate.
  intros Hb. apply bind_inr in Hb as (a & w1 & Hc & Hk).
  apply db_call_inr in Hc as (Ht & Htr & Hg & Hb & Hu & Hc).
  injection Hk as _ <-. exists p, s. unfold same_outside_db. simpl.
  rewrite Ht, Htr. repeat split; assumption.
Qed.

(** a put that raises leaves the table and the trace as they were *)
Lemma put_item_inl item w e w' :
  put_item item w = (inl e, w') ->
  table w' = table w /\ trace w' = trace w /\ same_outside_db w w'.
Proof.
  unfold put_item, same_outside_db.
  destruct (float_free item); [| unfold raise; intros [= _ <-]; repeat split].
  destruct (dict_get "PK" item) as [[| | | | | p | |] |];
    try (unfold raise; intros [= _ <-]; repeat split).
  destruct (dict_get "SK" item) as [[| | | | | s | |] |];
    try (unfold raise; intros [= _ <-]; repeat split).
  unfold bind. destruct (db_call w) as [[e0 | a] w1] eqn:Hc; [| intros [=]].
  intros [= <- <-]. apply db_call_inl in Hc. exact Hc.
Qed.

(** only an item without floats is put *)
Lemma put_item_float_free item w u w' :
  put_item item w = (inr u, w') -> float_free item = true.
Proof.
  unfold put_item. destruct (float_free item); [reflexivity | discriminate].
Qed.

(** ** Values: structural induction, copies and sanitizing *)



Section CopyLemmas.
Context `{Runtime}.



Lemma json_copy_list enc dec l :
  json_copy enc dec (PList l) =
  match copy_list enc dec l with inl e => inl e | inr l' => inr (PList l') end.
Proof. reflexivity. Qed.

Lemma json_copy_dict enc dec kvs :
  json_copy enc dec (PDict kvs) =
  match copy_items enc dec kvs with inl e => inl e | inr l' => inr (PDict l') end.
Proof. reflexivity. Qed.

(** with [DecimalEncoder] the copy cannot raise *)
Lemma json_copy_encoder_total dec v : exists v', json_copy true dec v = inr v'.
Proof.
  induction v as [| b | z | r | d | s | l IH | kvs IH] using pyval_nested_ind;
    try (simpl; eauto; fail).
  - rewrite json_copy_list.
    assert (Hl : exists l', copy_list true dec l = inr l').
    { induction IH as [| x rest [x' Hx] _ [rest' Hr]]; [simpl; eauto |].
      simpl. rewrite Hx. fold (copy_list true dec). rewrite Hr. eauto. }
    destruct Hl as [l' ->]. eauto.
  - rewrite json_copy_dict.
    assert (Hl : exists l', copy_items true dec kvs = inr l').
    { induction IH as [| [k x] rest [x' Hx] _ [rest' Hr]]; [simpl; eauto |].
      simpl in *. rewrite Hx. fold (copy_items true dec). rewrite Hr. eauto. }
    destruct Hl as [l' ->]. eauto.
Qed.

(** a copy read back as floats holds no Decimal *)
Lemma json_copy_decimal_free enc v v' :
  json_copy enc false v = inr v' -> decimal_free v' = true.
Proof.
  revert v'.
  induction v as [| b | z | r | d | s | l IH | kvs IH] using pyval_nested_ind;
    intros v'; try (simpl; intros [= <-]; reflexivity).
  - simpl. destruct enc; [intros [= <-]; reflexivity | discriminate].
  - rewrite json_copy_list.
    destruct (copy_list enc false l) as [e | l'] eqn:Hl; [discriminate |].
    intros [= <-]. simpl. revert l' Hl.
    induction IH as [| x rest Hx _ IHrest]; intros l'; simpl.
    + intros [= <-]. reflexivity.
    + destruct (json_copy enc false x) as [e | x'] eqn:Hcx; [discriminate |].
      fold (copy_list enc false).
      destruct (copy_list enc false rest) as [e | rest'] eqn:Hcr; [discriminate |].
      intros [= <-]. simpl. rewrite (Hx _ eq_refl), (IHrest _ eq_refl). reflexivity.
  - rewrite json_copy_dict.
    destruct (copy_items enc false kvs) as [e | l'] eqn:Hl; [discriminate |].
    intros [= <-]. simpl. revert l' Hl.
    induction IH as [| [k x] rest Hx _ IHrest]; intros l'; simpl in *.
    + intros [= <-]. reflexivity.
    + destruct (json_copy enc false x) as [e | x'] eqn:Hcx; [discriminate |].
      fold (copy_items enc false).
      destruct (copy_items enc false rest) as [e | rest'] eqn:Hcr; [discriminate |].
      intros [= <-]. simpl. rewrite (Hx _ eq_refl), (IHrest _ eq_refl). reflexivity.
Qed.

(** without a Decimal inside, the plain copy is the value itself *)
Lemma json_copy_id enc v :
  decimal_free v = true -> json_copy enc false v = inr v.
Proof.
  induction v as [| b | z | r | d | s | l IH | kvs IH] using pyval_nested_ind;
    try (simpl; intros _; reflexivity).
  - discriminate.
  - simpl decimal_free. intros Hf. rewrite json_copy_list.
    assert (Hl : copy_list enc false l = inr l).
    { induction IH as [| x rest Hx _ IHrest]; [reflexivity |].
      simpl in Hf. apply andb_prop in Hf as [Hfx Hfr].
      simpl. rewrite (Hx Hfx). fold (copy_list enc false).
      rewrite (IHrest Hfr). reflexivity. }
    rewrite Hl. reflexivity.
  - simpl decimal_free. intros Hf. rewrite json_copy_dict.
    assert (Hl : copy_items enc false kvs = inr kvs).
    { induction IH as [| [k x] rest Hx _ IHrest]; [reflexivity |].
      simpl in Hf, Hx. apply andb_prop in Hf as [Hfx Hfr].
      simpl. rewrite (Hx Hfx). fold (copy_items enc false).
      rewrite (IHrest Hfr). reflexivity. }
    rewrite Hl. reflexivity.
Qed.

(** looking a key up in a copied dict *)
Lemma copy_items_get enc dec kvs kvs' k :
  copy_items enc dec kvs = inr kvs' ->
  match assoc_get k kvs with
  | Some x => exists x', json_copy enc dec x = inr x' /\ assoc_get k kvs' = Some x'
  | None => assoc_get k kvs' = None
  end.
Proof.
  revert kvs'. induction kvs as [| [k0 x0] rest IH]; intros kvs'; simpl.
  - intros [= <-]. reflexivity.
  - destruct (json_copy enc dec x0) as [e | x0'] eqn:Hx; [discriminate |].
    fold (copy_items enc dec).
    destruct (copy_items enc dec rest) as [e | rest'] eqn:Hr; [discriminate |].
    intros [= <-]. simpl. destruct (String.eqb k k0).
    + eauto.
    + apply IH. reflexivity.
Qed.

Lemma sanitize_items_get kvs k :
  assoc_get k (map (fun kv => (fst kv, sanitize_for_json (snd kv))) kvs)
  = option_map sanitize_for_json (assoc_get k kvs).
Proof.
  induction kvs as [| [k0 x0] rest IH]; simpl; [reflexivity |].
  destruct (String.eqb k k0); [reflexivity | exact IH].
Qed.

End CopyLemmas.

(** ** Mutator: assembling and writing challengers *)

Section MutatorLemmas.
Context `{Runtime}.

Lemma assemble_inr original mutation_brain critic_issue sk ch :
  Mutator.assemble_complete_genome original mutation_brain critic_issue sk = inr ch ->
  exists original_meta name description parent_hash mutation_reason
         config resources capabilities evolution_config economics original_pk,
    py_get original "metadata" (PDict []) = inr original_meta /\
    py_get original_meta "version_hash" (PStr "unknown") = inr parent_hash /\
    py_get original "config" (PDict []) = inr config /\
    py_get original "resources" (PDict []) = inr resources /\
    py_get original "capabilities" (PDict []) = inr capabilities /\
    py_get original "evolution_config" (PDict []) = inr evolution_config /\
    py_item original "PK" = inr original_pk /\
    ch = PDict [
      ("PK", original_pk);
      ("SK", PStr sk);
      ("EntityType", PStr "Challenger");
      ("metadata", PDict [
         ("name", PStr (py_str name +:+ " (Candidate)"));
         ("description", description);
         ("creator", PStr "Darwinian_Mutator_Agent");
         ("version_hash", PStr (Mutator.compute_hash mutation_brain));
         ("parent_hash", parent_hash);
         ("deployment_state", PStr "PENDING_APPROVAL");
         ("mutation_reason", mutation_reason) ]);
      ("config", config);
      ("economics", economics);
      ("brain", mutation_brain);
      ("resources", resources);
      ("capabilities", capabilities);
      ("evolution_config", evolution_config) ].
Proof.
  unfold Mutator.assemble_complete_genome. intros Ha.
  apply rbind_inr in Ha as (original_meta & Hmeta & Ha).
  apply rbind_inr in Ha as (name & Hname & Ha).
  apply rbind_inr in Ha as (description & Hdesc & Ha).
  apply rbind_inr in Ha as (parent_hash & Hph & Ha).
  apply rbind_inr in Ha as (mutation_reason & Hmr & Ha).
  apply rbind_inr in Ha as (config & Hcfg & Ha).
  apply rbind_inr in Ha as (resources & Hres & Ha).
  apply rbind_inr in Ha as (capabilities & Hcap & Ha).
  apply rbind_inr in Ha as (evolution_config & Hevo & Ha).
  apply rbind_inr in Ha as (original_econ & Hecon & Ha).
  apply rbind_inr in Ha as (prompt & Hprompt & Ha).
  apply rbind_inr in Ha as (token_budget & Htb & Ha).
  apply rbind_inr in Ha as (original_pk & Hpk & Ha).
  injection Ha as <-.
  eexists original_meta, name, description, parent_hash, mutation_reason,
          config, resources, capabilities, evolution_config, _, original_pk.
  repeat split; try assumption.
Qed.

Lemma written_pk_unique original p q :
  Mutator.written_pk original p -> Mutator.written_pk original q -> p = q.
Proof.
  intros (v & Hv & Hp) (v' & Hv' & Hq). congruence.
Qed.

(** one round of the loop body that goes through puts one item at
    [(p, sk)] *)
Lemma challenger_put original mutation_brain critic_issue sk w u w' :
  (let! challenger_genome :=
     lift (Mutator.assemble_complete_genome original mutation_brain critic_issue sk) in
   let! item_to_write :=
     lift (json_copy false true (sanitize_for_json challenger_genome)) in
   put_item item_to_write) w = (inr u, w') ->
  exists p item,
    Mutator.written_pk original p /\
    table w' = <[(p, sk) := item]> (table w) /\
    trace w' = trace w ++ [Wrote (p, sk) item] /\
    same_outside_db w w'.
Proof.
  intros Hrun.
  apply bind_inr in Hrun as (ch & w1 & Hch & Hrun). apply lift_inr in Hch as [Hch ->].
  apply bind_inr in Hrun as (item & w2 & Hit & Hrun). apply lift_inr in Hit as [Hit ->].
  apply put_item_inr in Hrun as (p & s & Hp & Hs & Ht & Htr & Hsame).
  apply assemble_inr in Hch
    as (om & nm & ds & ph & mr & cfg & res & cap & evo & eco & opk & _ & _ & _ & _ & _ & _ & Hpk & ->).
  simpl sanitize_for_json in Hit. rewrite json_copy_dict in Hit.
  match type of Hit with
  | match copy_items _ _ ?kvs with _ => _ end = _ =>
      destruct (copy_items false true kvs) as [e | kvs'] eqn:Hcopy; [discriminate |]
  end.
  injection Hit as <-.
  pose proof (copy_items_get _ _ _ _ "PK" Hcopy) as HPK.
  pose proof (copy_items_get _ _ _ _ "SK" Hcopy) as HSK.
  simpl in HPK, HSK, Hp, Hs.
  destruct HPK as (x' & Hx' & Hget). destruct HSK as (y' & Hy' & Hget').
  injection Hy' as <-.
  rewrite Hs in Hget'. injection Hget' as ->.
  rewrite Hp in Hget. injection Hget as <-.
  exists p, (PDict kvs'). repeat split; try assumption; try apply Hsame.
  exists opk. split; assumption.
Qed.

Lemma write_loop_inr original ci ts base muts : forall i acc w sks w',
  Mutator.write_loop original ci ts base i muts acc w = (inr sks, w') ->
  sks = acc ++ Mutator.loop_keys ts base i (length muts) /\
  (muts = [] \/ exists p, Mutator.written_pk original p) /\
  (forall p, Mutator.written_pk original p ->
     dom (table w') =
       dom (table w) ∪ list_to_set (map (fun k => (p, k))
                                      (Mutator.loop_keys ts base i (length muts))) /\
     exists items,
       length items = length muts /\
       trace w' = trace w ++ zip_with (fun k item => Wrote (p, k) item)
                               (Mutator.loop_keys ts base i (length muts)) items) /\
  same_outside_db w w'.
Proof.
  induction muts as [| m rest IH]; intros i acc w sks w' Hrun; simpl in Hrun.
  - apply ret_inr in Hrun as [-> ->]. simpl. rewrite app_nil_r.
    split; [reflexivity |]. split; [left; reflexivity |]. split.
    + intros p _. split; [set_solver |]. exists []. simpl. rewrite app_nil_r. auto.
    + repeat split.
  - apply bind_inr in Hrun as (ch & w1 & Hch & Hrun).
    apply bind_inr in Hrun as (item & w2 & Hit & Hrun).
    apply bind_inr in Hrun as (u & w3 & Hput & Hrun).
    assert (Hstep : (let! challenger_genome :=
               lift (Mutator.assemble_complete_genome original m ci
                       (Mutator.challenger_sk ts (base + i))) in
             let! item_to_write :=
               lift (json_copy false true (sanitize_for_json challenger_genome)) in
             put_item item_to_write) w = (inr u, w3)).
    { unfold bind at 1. rewrite Hch. unfold bind at 1. rewrite Hit. exact Hput. }
    apply challenger_put in Hstep as (p & it & Hp & Ht & Htr & Hsame).
    apply IH in Hrun as (Hsks & _ & Hdom & Hsame').
    split; [| split; [| split]].
    + rewrite Hsks. simpl. rewrite <- app_assoc. reflexivity.
    + right. exists p. exact Hp.
    + intros q Hq. rewrite (written_pk_unique _ _ _ Hq Hp).
      destruct (Hdom p Hp) as (Hd & items & Hlen & Htr').
      split.
      * rewrite Hd, Ht. simpl. rewrite dom_insert_L. set_solver.
      * exists (it :: items). split; [simpl; congruence |].
        rewrite Htr', Htr. simpl. rewrite <- app_assoc. reflexivity.
    + destruct Hsame as (? & ? & ? & ?), Hsame' as (? & ? & ? & ?).
      unfold same_outside_db. repeat split; congruence.
Qed.

End MutatorLemmas.

(** ** Sort keys of challengers *)

Lemma last_char_app (a b : string) :
  b <> EmptyString -> last_char (a +:+ b) = last_char b.
Proof.
  intros Hb. induction a as [| c a IH]; [reflexivity |].
  simpl. rewrite IH. destruct (a +:+ b) eqn:Hab; [| reflexivity].
  destruct a; simpl in Hab; [contradiction | discriminate].
Qed.

(** the last character of a challenger key is the last digit of its
    attempt number, whatever the timestamp *)
Lemma challenger_sk_last ts n :
  last_char (Mutator.challenger_sk ts n)
  = last_char ("#CHALLENGER#attempt-" +:+ str_of_int n).
Proof.
  unfold Mutator.challenger_sk.
  rewrite last_char_app by (destruct ts; discriminate).
  rewrite last_char_app by discriminate. reflexivity.
Qed.

Lemma challenger_sk_neq ts ts' n m :
  last_char ("#CHALLENGER#attempt-" +:+ str_of_int n)
    <> last_char ("#CHALLENGER#attempt-" +:+ str_of_int m) ->
  Mutator.challenger_sk ts n <> Mutator.challenger_sk ts' m.
Proof.
  intros Hne Heq. apply Hne.
  rewrite <- (challenger_sk_last ts n), <- (challenger_sk_last ts' m). congruence.
Qed.

Lemma write_complete_challengers_inr `{Runtime} original muts ci retry_count w sks w' :
  Mutator.write_complete_challengers original (PList muts) ci retry_count w = (inr sks, w') ->
  exists ts w1,
    Mutator.original_timestamp original w = (inr ts, w1) /\
    Mutator.write_loop original ci ts (Mutator.base_attempt retry_count) 0 muts [] w1
      = (inr sks, w') /\
    sks = Mutator.loop_keys ts (Mutator.base_attempt retry_count) 0 (length muts).
Proof.
  unfold Mutator.write_complete_challengers. intros Hrun.
  apply bind_inr in Hrun as (ts & w1 & Hts & Hrun).
  apply bind_inr in Hrun as (items & w2 & Hit & Hrun).
  apply lift_inr in Hit as [[= <-] ->].
  exists ts, w1. split; [exact Hts |]. split; [exact Hrun |].
  apply write_loop_inr in Hrun as (Hsks & _). exact Hsks.
Qed.

(** C3: on the same parent version, the round with retry count 0 hands
    out attempts 1, 2, 3 and the round with retry count 1 attempts 4, 5,
    6, so the six challenger sort keys of the two rounds are pairwise
    distinct. *)
Theorem challenger_keys_of_rounds_0_and_1 `{Runtime}
    original a1 a2 a3 b1 b2 b3 ci0 ci1 w0 w1 sks0 sks1 w0' w1' :
  Mutator.write_complete_challengers original (PList [a1; a2; a3]) ci0 0 w0
    = (inr sks0, w0') ->
  Mutator.write_complete_challengers original (PList [b1; b2; b3]) ci1 1 w1
    = (inr sks1, w1') ->
  (exists ts, sks0 = [Mutator.challenger_sk ts 1; Mutator.challenger_sk ts 2;
                      Mutator.challenger_sk ts 3]) /\
  (exists ts, sks1 = [Mutator.challenger_sk ts 4; Mutator.challenger_sk ts 5;
                      Mutator.challenger_sk ts 6]) /\
  NoDup (sks0 ++ sks1).
Proof.
  intros H0 H1.
  apply write_complete_challengers_inr in H0 as (ts0 & _ & _ & _ & ->).
  apply write_complete_challengers_inr in H1 as (ts1 & _ & _ & _ & ->).
  change (Mutator.loop_keys ts0 (Mutator.base_attempt 0) 0 (length [a1; a2; a3]))
    with [Mutator.challenger_sk ts0 1; Mutator.challenger_sk ts0 2;
          Mutator.challenger_sk ts0 3].
  change (Mutator.loop_keys ts1 (Mutator.base_attempt 1) 0 (length [b1; b2; b3]))
    with [Mutator.challenger_sk ts1 4; Mutator.challenger_sk ts1 5;
          Mutator.challenger_sk ts1 6].
  split; [eauto |]. split; [eauto |].
  cbn [app].
  repeat (apply NoDup_cons_2;
          [ rewrite ?not_elem_of_cons; repeat split;
            try (apply challenger_sk_neq; vm_compute; discriminate);
            apply not_elem_of_nil
          | ]).
  apply NoDup_nil_2.
Qed.

(** a run that returns [a], with the world it ends in *)
Lemma run_returns {A} (m : M A) (w : World) (a : A) :
  fst (m w) = inr a -> m w = (inr a, snd (m w)).
Proof. destruct (m w) as [r w']. simpl. intros ->. reflexivity. Qed.

Lemma challenger_keys_of_rounds_0_and_1_witness :
  let run retry_count :=
    Mutator.write_complete_challengers (H := Lite.runtime)
      Sample.original Sample.mutations Sample.critic_issue retry_count
      (Sample.world [] []) in
  exists sks0 sks1,
    fst (run 0) = inr sks0 /\ fst (run 1) = inr sks1 /\ NoDup (sks0 ++ sks1).
Proof.
  intros run.
  assert (H0 : fst (run 0) =
               inr ["VERSION#2025-01-01T00:00:00#CHALLENGER#attempt-1";
                    "VERSION#2025-01-01T00:00:00#CHALLENGER#attempt-2";
                    "VERSION#2025-01-01T00:00:00#CHALLENGER#attempt-3"])
    by (vm_compute; reflexivity).
  assert (H1 : fst (run 1) =
               inr ["VERSION#2025-01-01T00:00:00#CHALLENGER#attempt-4";
                    "VERSION#2025-01-01T00:00:00#CHALLENGER#attempt-5";
                    "VERSION#2025-01-01T00:00:00#CHALLENGER#attempt-6"])
    by (vm_compute; reflexivity).
  eexists _, _. split; [exact H0 |]. split; [exact H1 |].
  exact (proj2 (proj2 (challenger_keys_of_rounds_0_and_1
                         (H := Lite.runtime) _ _ _ _ _ _ _ _ _ _ _ _ _ _ _
                         (run_returns _ _ _ H0) (run_returns _ _ _ H1)))).
Defined.

(** from retry count 1 on, the numbering starts at 4 *)
Lemma base_attempt_retry retry_count :
  1 <= retry_count -> Mutator.base_attempt retry_count = 4.
Proof.
  intros Hr. unfold Mutator.base_attempt.
  destruct (Z.eqb_spec retry_count 0); [lia | reflexivity].
Qed.

Lemma original_timestamp_of_sk `{Runtime} original sk prefix ts rest w :
  dict_get "SK" original = Some (PStr sk) ->
  split_on "#" sk = prefix :: ts :: rest ->
  Mutator.original_timestamp original w = (inr ts, w).
Proof.
  intros Hsk Hsplit. unfold Mutator.original_timestamp. rewrite Hsk, Hsplit.
  reflexivity.
Qed.

(** C10: for every retry count from 1 on the numbering starts at 4, so
    a round with retry count 2 or more on the same parent version hands
    out the very sort keys of the round with retry count 1 (attempts 4
    to 6), and its puts land on entities that are already there: no new
    key appears in the table. *)
Theorem later_rounds_overwrite_attempts_4_to_6 `{Runtime}
    original sk prefix ts rest a1 a2 a3 b1 b2 b3 ci1 ci2 r1 r2
    w w1 wm w2 sks1 sks2 :
  1 <= r1 -> 1 <= r2 ->
  dict_get "SK" original = Some (PStr sk) ->
  split_on "#" sk = prefix :: ts :: rest ->
  Mutator.write_complete_challengers original (PList [a1; a2; a3]) ci1 r1 w
    = (inr sks1, w1) ->
  dom (table w1) ⊆ dom (table wm) ->
  Mutator.write_complete_challengers original (PList [b1; b2; b3]) ci2 r2 wm
    = (inr sks2, w2) ->
  Mutator.base_attempt r1 = 4 /\ Mutator.base_attempt r2 = 4 /\
  sks1 = [Mutator.challenger_sk ts 4; Mutator.challenger_sk ts 5;
          Mutator.challenger_sk ts 6] /\
  sks2 = sks1 /\
  dom (table w2) = dom (table wm) /\
  exists p items,
    length items = 3%nat /\
    trace w2 = trace wm ++ zip_with (fun k item => Wrote (p, k) item) sks2 items /\
    forall k, k ∈ sks2 -> (p, k) ∈ dom (table wm).
Proof.
  intros Hr1 Hr2 Hsk Hsplit Hrun1 Hsub Hrun2.
  apply write_complete_challengers_inr in Hrun1 as (ts1 & w1a & Hts1 & Hloop1 & Hk1).
  apply write_complete_challengers_inr in Hrun2 as (ts2 & w2a & Hts2 & Hloop2 & Hk2).
  rewrite (original_timestamp_of_sk _ _ _ _ _ w Hsk Hsplit) in Hts1.
  rewrite (original_timestamp_of_sk _ _ _ _ _ wm Hsk Hsplit) in Hts2.
  injection Hts1 as <- <-. injection Hts2 as <- <-.
  rewrite (base_attempt_retry _ Hr1) in *. rewrite (base_attempt_retry _ Hr2) in *.
  change (Mutator.loop_keys ts 4 0 (length [a1; a2; a3]))
    with [Mutator.challenger_sk ts 4; Mutator.challenger_sk ts 5;
          Mutator.challenger_sk ts 6] in *.
  change (Mutator.loop_keys ts 4 0 (length [b1; b2; b3]))
    with [Mutator.challenger_sk ts 4; Mutator.challenger_sk ts 5;
          Mutator.challenger_sk ts 6] in *.
  subst sks1 sks2.
  apply write_loop_inr in Hloop1 as (_ & [Hnil | [p Hp]] & Hdom1 & _);
    [discriminate |].
  apply write_loop_inr in Hloop2 as (_ & _ & Hdom2 & _).
  destruct (Hdom1 p Hp) as (Hd1 & _).
  destruct (Hdom2 p Hp) as (Hd2 & items & Hlen & Htr).
  change (Mutator.loop_keys ts 4 0 (length [a1; a2; a3]))
    with [Mutator.challenger_sk ts 4; Mutator.challenger_sk ts 5;
          Mutator.challenger_sk ts 6] in *.
  change (Mutator.loop_keys ts 4 0 (length [b1; b2; b3]))
    with [Mutator.challenger_sk ts 4; Mutator.challenger_sk ts 5;
          Mutator.challenger_sk ts 6] in *.
  repeat split; try reflexivity.
  - rewrite Hd2. rewrite Hd1 in Hsub. set_solver.
  - exists p, items. split; [exact Hlen |]. split; [exact Htr |].
    intros k Hk. apply Hsub. rewrite Hd1. set_solver.
Qed.

Lemma later_rounds_overwrite_attempts_4_to_6_witness :
  let round r w :=
    Mutator.write_complete_challengers (H := Lite.runtime)
      Sample.original Sample.mutations Sample.critic_issue r w in
  let second := round 1 (Sample.world [] []) in
  let third := round 2 (snd second) in
  1 <= 1 /\ 1 <= 2 /\
  fst second = inr ["VERSION#2025-01-01T00:00:00#CHALLENGER#attempt-4";
                    "VERSION#2025-01-01T00:00:00#CHALLENGER#attempt-5";
                    "VERSION#2025-01-01T00:00:00#CHALLENGER#attempt-6"] /\
  fst third = fst second /\
  dom (table (snd third)) = dom (table (snd second)).
Proof.
  intros round second third.
  assert (H2 : fst second =
               inr ["VERSION#2025-01-01T00:00:00#CHALLENGER#attempt-4";
                    "VERSION#2025-01-01T00:00:00#CHALLENGER#attempt-5";
                    "VERSION#2025-01-01T00:00:00#CHALLENGER#attempt-6"])
    by (vm_compute; reflexivity).
  assert (H3 : fst third =
               inr ["VERSION#2025-01-01T00:00:00#CHALLENGER#attempt-4";
                    "VERSION#2025-01-01T00:00:00#CHALLENGER#attempt-5";
                    "VERSION#2025-01-01T00:00:00#CHALLENGER#attempt-6"])
    by (vm_compute; reflexivity).
  assert (Hle1 : 1 <= 1) by lia. assert (Hle2 : 1 <= 2) by lia.
  pose proof (later_rounds_overwrite_attempts_4_to_6 (H := Lite.runtime)
                Sample.original "VERSION#2025-01-01T00:00:00" "VERSION"
                "2025-01-01T00:00:00" [] _ _ _ _ _ _ _ _ 1 2 _ _ _ _ _ _
                Hle1 Hle2 eq_refl eq_refl
                (run_returns _ _ _ H2) (reflexivity _) (run_returns _ _ _ H3))
    as (_ & _ & _ & _ & Hdom & _).
  split; [exact Hle1 |]. split; [exact Hle2 |]. split; [exact H2 |].
  split; [rewrite H3, H2; reflexivity | exact Hdom].
Defined.

(** ** Lineage of a challenger *)

(** C7: a Challenger assembled from a parent whose metadata holds a
    version_hash carries that hash as its parent_hash, is in state
    PENDING_APPROVAL, and has as version_hash the content hash of the
    mutated brain: the first 16 hexadecimal digits of the SHA-256 digest
    of the brain, sanitized and written as JSON with sorted keys.  The
    assembly does return once the critic issue has a reason, the parent
    has a PK, its economics section (if any) is a dict and the system
    prompt of the candidate can be built. *)
Theorem challenger_lineage `{Runtime}
    original mutation_brain critic_issue sk meta h :
  dict_get "metadata" original = Some meta ->
  dict_get "version_hash" meta = Some h ->
  (forall ch,
     Mutator.assemble_complete_genome original mutation_brain critic_issue sk = inr ch ->
     exists md,
       dict_get "metadata" ch = Some md /\
       dict_get "parent_hash" md = Some h /\
       dict_get "deployment_state" md = Some (PStr "PENDING_APPROVAL") /\
       dict_get "version_hash" md =
         Some (PStr (String.substring 0 16
                       (sha256_hexdigest
                          (json_dumps_sorted (sanitize_for_json mutation_brain)))))) /\
  (forall reason original_pk,
     py_item critic_issue "reason" = inr reason ->
     py_item original "PK" = inr original_pk ->
     (forall econ, dict_get "economics" original = Some econ ->
                   exists kvs, econ = PDict kvs) ->
     (forall resources capabilities,
        py_get original "resources" (PDict []) = inr resources ->
        py_get original "capabilities" (PDict []) = inr capabilities ->
        exists prompt,
          construct_system_prompt (PDict [
            ("brain", mutation_brain);
            ("resources", resources);
            ("capabilities", capabilities) ]) = inr prompt) ->
     exists ch,
       Mutator.assemble_complete_genome original mutation_brain critic_issue sk = inr ch).
Proof.
  intros Hmeta Hh.
  destruct original as [| | | | | | | okvs]; try discriminate.
  destruct meta as [| | | | | | | mkvs]; try discriminate.
  simpl in Hmeta, Hh.
  split.
  - intros ch Hch.
    apply assemble_inr in Hch
      as (om & nm & ds & ph & mr & cfg & res & cap & evo & eco & opk
          & Hom & Hph & _ & _ & _ & _ & _ & ->).
    simpl in Hom. rewrite Hmeta in Hom. injection Hom as <-.
    simpl in Hph. rewrite Hh in Hph. injection Hph as <-.
    eexists. split; [reflexivity |]. repeat split.
  - intros reason original_pk Hreason Hpk Hecon Hprompt.
    unfold Mutator.assemble_complete_genome.
    simpl py_get. rewrite Hmeta. simpl. rewrite Hreason. simpl.
    destruct (Hprompt _ _ eq_refl eq_refl) as [prompt ->]. simpl.
    destruct (assoc_get "economics" okvs) as [econ |] eqn:He.
    + destruct (Hecon econ He) as [kvs ->]. simpl.
      simpl in Hpk. rewrite Hpk. simpl. eauto.
    + simpl. simpl in Hpk. rewrite Hpk. simpl. eauto.
Qed.

Lemma challenger_lineage_witness :
  exists ch md,
    Mutator.assemble_complete_genome (H := Lite.runtime) Sample.original
      (Sample.brain "Warm") Sample.critic_issue
      "VERSION#2025-01-01T00:00:00#CHALLENGER#attempt-1" = inr ch /\
    dict_get "metadata" ch = Some md /\
    dict_get "parent_hash" md = Some (PStr "9f2c41aa07b3d5e1") /\
    dict_get "deployment_state" md = Some (PStr "PENDING_APPROVAL") /\
    dict_get "version_hash" md =
      Some (PStr (String.substring 0 16
                    (sha256_hexdigest (Runtime := Lite.runtime)
                       (json_dumps_sorted (Runtime := Lite.runtime)
                          (sanitize_for_json (H := Lite.runtime)
                             (Sample.brain "Warm")))))) /\
    dict_get "version_hash" md <> dict_get "parent_hash" md.
Proof.
  destruct (challenger_lineage (H := Lite.runtime) Sample.original
              (Sample.brain "Warm") Sample.critic_issue
              "VERSION#2025-01-01T00:00:00#CHALLENGER#attempt-1"
              _ (PStr "9f2c41aa07b3d5e1") eq_refl eq_refl) as [Hprops Htotal].
  destruct (Htotal (PStr "The agent promised a refund.") (PStr "AGENT#concierge"))
    as [ch Hch].
  - reflexivity.
  - reflexivity.
  - intros econ [= <-]. eexists. reflexivity.
  - intros resources capabilities [= <-] [= <-]. eexists. vm_compute. reflexivity.
  - destruct (Hprops _ Hch) as (md & Hmd & Hph & Hds & Hvh).
    exists ch, md. split; [exact Hch |]. split; [exact Hmd |].
    split; [exact Hph |]. split; [exact Hds |]. split; [exact Hvh |].
    rewrite Hvh, Hph. vm_compute. discriminate.
Defined.

(** ** The fallback generator *)

Lemma assoc_get_set_eq k v kvs : assoc_get k (assoc_set k v kvs) = Some v.
Proof.
  induction kvs as [| [k0 v0] rest IH]; simpl.
  - rewrite String.eqb_refl. reflexivity.
  - destruct (String.eqb k k0) eqn:Hk; simpl; rewrite ?String.eqb_refl, ?Hk; auto.
Qed.

Lemma assoc_get_set_ne k k' v kvs :
  k <> k' -> assoc_get k' (assoc_set k v kvs) = assoc_get k' kvs.
Proof.
  intros Hne. assert (Hkk : String.eqb k' k = false)
    by (apply String.eqb_neq; congruence).
  induction kvs as [| [k0 v0] rest IH]; simpl.
  - rewrite Hkk. reflexivity.
  - destruct (String.eqb k k0) eqn:Hk; simpl.
    + apply String.eqb_eq in Hk. subst k0. rewrite Hkk. reflexivity.
    + destruct (String.eqb k' k0); auto.
Qed.

Section FallbackLemmas.
Context `{Runtime}.

(** a variant is the copied brain with a new tone and one more line *)
Lemma fallback_variant_returns safe_brain suffix list_key line kvs persona lines :
  decimal_free safe_brain = true ->
  safe_brain = PDict kvs ->
  assoc_get "persona" kvs = Some (PDict persona) ->
  assoc_get list_key kvs = Some (PList lines) ->
  list_key <> "persona" ->
  exists tone,
    py_get (PDict persona) "tone" (PStr "Professional") = inr tone /\
    Mutator.fallback_variant safe_brain suffix list_key line =
      inr (PDict (assoc_set list_key (PList (lines ++ [PStr line]))
                    (assoc_set "persona"
                       (PDict (assoc_set "tone" (PStr (py_str tone +:+ suffix)) persona))
                       kvs))).
Proof.
  intros Hfree -> Hpersona Hlines Hne.
  unfold Mutator.fallback_variant.
  rewrite (json_copy_id false _ Hfree). simpl. rewrite Hpersona. simpl.
  eexists. split; [reflexivity |].
  rewrite assoc_get_set_ne by congruence. rewrite Hlines. reflexivity.
Qed.

(** For a brain with a persona object and the two lists, the fallback
    generator returns exactly three mutations. *)
Lemma generate_fallback_mutations_three original_brain persona guidelines style :
  dict_get "persona" original_brain = Some (PDict persona) ->
  dict_get "operational_guidelines" original_brain = Some (PList guidelines) ->
  dict_get "style_guide" original_brain = Some (PList style) ->
  exists m1 m2 m3,
    Mutator.generate_fallback_mutations original_brain = inr (PList [m1; m2; m3]).
Proof.
  intros Hp Hg Hs.
  destruct original_brain as [| | | | | | | kvs]; try discriminate.
  simpl in Hp, Hg, Hs.
  unfold Mutator.generate_fallback_mutations.
  destruct (json_copy_encoder_total false (PDict kvs)) as [safe Hsafe].
  rewrite Hsafe. simpl.
  pose proof (json_copy_decimal_free _ _ _ Hsafe) as Hfree.
  rewrite json_copy_dict in Hsafe.
  destruct (copy_items true false kvs) as [e | kvs'] eqn:Hcopy; [discriminate |].
  injection Hsafe as <-.
  pose proof (copy_items_get _ _ _ _ "persona" Hcopy) as Hp'.
  pose proof (copy_items_get _ _ _ _ "operational_guidelines" Hcopy) as Hg'.
  pose proof (copy_items_get _ _ _ _ "style_guide" Hcopy) as Hs'.
  rewrite Hp in Hp'. rewrite Hg in Hg'. rewrite Hs in Hs'.
  destruct Hp' as (p' & Hcp & Hp'). destruct Hg' as (g' & Hcg & Hg').
  destruct Hs' as (s' & Hcs & Hs').
  rewrite json_copy_dict in Hcp.
  destruct (copy_items true false persona) as [e | persona'] eqn:Hcpp; [discriminate |].
  injection Hcp as <-.
  rewrite json_copy_list in Hcg.
  destruct (copy_list true false guidelines) as [e | guidelines']; [discriminate |].
  injection Hcg as <-.
  rewrite json_copy_list in Hcs.
  destruct (copy_list true false style) as [e | style']; [discriminate |].
  injection Hcs as <-.
  destruct (fallback_variant_returns (PDict kvs') " (Stricter)" "operational_guidelines"
              "Strictly adhere to the provided policy." kvs' persona' guidelines'
              Hfree eq_refl Hp' Hg' ltac:(discriminate)) as (t1 & _ & ->).
  destruct (fallback_variant_returns (PDict kvs') " (Empathetic)" "operational_guidelines"
              "Ensure the user feels heard and understood." kvs' persona' guidelines'
              Hfree eq_refl Hp' Hg' ltac:(discriminate)) as (t2 & _ & ->).
  destruct (fallback_variant_returns (PDict kvs') " (Concise)" "style_guide"
              "Keep responses under 2 sentences when possible." kvs' persona' style'
              Hfree eq_refl Hp' Hs' ltac:(discriminate)) as (t3 & _ & ->).
  simpl. eauto.
Qed.

End FallbackLemmas.

(** the scenario of the spec: tone "Professional", empty lists *)
Example fallback_tones :
  Mutator.generate_fallback_mutations (H := Lite.runtime)
    (PDict [("persona", PDict [("tone", PStr "Professional")]);
            ("operational_guidelines", PList []);
            ("style_guide", PList [])])
  = inr (PList [
      PDict [("persona", PDict [("tone", PStr "Professional (Stricter)")]);
             ("operational_guidelines",
                PList [PStr "Strictly adhere to the provided policy."]);
             ("style_guide", PList [])];
      PDict [("persona", PDict [("tone", PStr "Professional (Empathetic)")]);
             ("operational_guidelines",
                PList [PStr "Ensure the user feels heard and understood."]);
             ("style_guide", PList [])];
      PDict [("persona", PDict [("tone", PStr "Professional (Concise)")]);
             ("operational_guidelines", PList []);
             ("style_guide",
                PList [PStr "Keep responses under 2 sentences when possible."])] ]).
Proof. reflexivity. Qed.

(** ** The fan-out of the Mutator *)

Section FanOut.
Context `{Runtime}.
Variables (original_genome critic_issue brain rule reason : pyval) (retry_count : Z).
Hypothesis Hbrain : py_item original_genome "brain" = inr brain.
Hypothesis Hrule : py_item critic_issue "rule" = inr rule.
Hypothesis Hreason : py_item critic_issue "reason" = inr reason.

Lemma generate_mutations_run w :
  Mutator.generate_mutations original_genome critic_issue retry_count w =
  (match Mutator.generated w with
   | inr mutations => inr mutations
   | inl _ => Mutator.generate_fallback_mutations brain
   end, snd (bedrock_text w)).
Proof.
  unfold Mutator.generate_mutations, Mutator.generated, bind at 1, lift at 1.
  rewrite Hbrain. unfold bind at 1, lift at 1. rewrite Hrule.
  unfold bind at 1, lift at 1. rewrite Hreason.
  unfold try_except, bind, lift, any_exception.
  destruct (bedrock_text w) as [[e | content] w1]; simpl; [reflexivity |].
  destruct (Mutator.extract_json_safely content); reflexivity.
Qed.

(** Every failure the handler foresees ends in the fallback: a gateway
    error, a reply that does not parse, and a parsed value whose length
    is not three. *)
Lemma checked_mutations_fallback w :
  (match Mutator.generated w with
   | inl _ => True
   | inr mutations => exists n, py_len mutations = inr n /\ n <> 3
   end) ->
  forall m1 m2 m3,
    Mutator.generate_fallback_mutations brain = inr (PList [m1; m2; m3]) ->
    Mutator.checked_mutations original_genome critic_issue retry_count w =
    (inr (PList [m1; m2; m3]), snd (bedrock_text w)).
Proof.
  intros Hcase m1 m2 m3 Hfb.
  unfold Mutator.checked_mutations, bind at 1. rewrite generate_mutations_run.
  destruct (Mutator.generated w) as [e | mutations].
  - rewrite Hfb. reflexivity.
  - destruct Hcase as (n & Hn & Hne).
    unfold bind at 1, lift at 1. rewrite Hn.
    destruct (Z.eqb_spec n 3) as [-> | _]; [contradiction |]. simpl.
    unfold bind, lift. rewrite Hbrain, Hfb. reflexivity.
Qed.

(** A parsed value of length three is taken as it is. *)
Lemma checked_mutations_taken w mutations :
  Mutator.generated w = inr mutations -> py_len mutations = inr 3 ->
  Mutator.checked_mutations original_genome critic_issue retry_count w =
  (inr mutations, snd (bedrock_text w)).
Proof.
  intros Hgen Hlen.
  unfold Mutator.checked_mutations, bind at 1. rewrite generate_mutations_run, Hgen.
  unfold bind, lift. rewrite Hlen. reflexivity.
Qed.

(** The case the count check misses: a parsed value that has no length
    makes [len] raise, and no fallback is tried. *)
Lemma checked_mutations_unsized w mutations e :
  Mutator.generated w = inr mutations -> py_len mutations = inl e ->
  Mutator.checked_mutations original_genome critic_issue retry_count w =
  (inl e, snd (bedrock_text w)).
Proof.
  intros Hgen Hlen.
  unfold Mutator.checked_mutations, bind at 1. rewrite generate_mutations_run, Hgen.
  unfold bind, lift. rewrite Hlen. reflexivity.
Qed.

End FanOut.

(** C2, at the input where the code departs from it: the gateway replies
    with valid JSON whose "mutations" entry is the number 5.  The parse
    succeeds, [len] raises, and the handler ends in a TypeError with no
    challenger written, although the brain has the persona object and
    both lists, for which the fallback would have produced three
    mutations. *)
Theorem mutator_unsized_reply_raises :
  let w := Sample.world [(Sample.parent_key, Sample.parent)]
                        [inr Sample.reply_mutations_5] in
  let run := Mutator.lambda_handler (H := Lite.runtime) Sample.mutator_event w in
  fst run = inl (TypeError "object of type 'int' has no len()") /\
  table (snd run) = table w /\ trace (snd run) = [] /\
  exists brain m1 m2 m3,
    py_item Sample.original "brain" = inr brain /\
    Mutator.generate_fallback_mutations (H := Lite.runtime) brain
      = inr (PList [m1; m2; m3]).
Proof.
  intros w run. split; [vm_compute; reflexivity |].
  split; [vm_compute; reflexivity |]. split; [vm_compute; reflexivity |].
  eexists _, _, _, _. split; vm_compute; reflexivity.
Qed.

(** ** The escalation policy *)

Section EscalationFacts.
Context `{Runtime}.

Ltac run_ticket w Hu Hc Hd :=
  unfold Escalation.ticket_put, Escalation.open_system_ticket, next_db_call_fails,
    put_item, try_except, bind, uuid4_hex, utcnow_isoformat, lift, db_call, ret, raise;
  simpl; rewrite ?Hu; simpl; rewrite ?Hc; simpl; rewrite ?Hd; simpl.

Lemma judge_retry pk genome_sk chat_sk retry_count reason failed_challenger w :
  retry_count < 1 ->
  Judge.handle_failure pk genome_sk chat_sk retry_count reason failed_challenger w =
  (inr (PDict [("improved", PBool false); ("reason", PStr reason);
               ("retryCount", PInt retry_count)]), w).
Proof.
  intros Hr. unfold Judge.handle_failure.
  destruct (Z.ltb_spec retry_count 1); [reflexivity | lia].
Qed.

Lemma judge_ticket pk genome_sk chat_sk retry_count reason failed_challenger w :
  1 <= retry_count ->
  exists ticket_id now,
    let run := Judge.handle_failure pk genome_sk chat_sk retry_count reason
                 failed_challenger w in
    let ticket_sk := py_str (Judge.opt_str genome_sk) +:+ "#TICKET#" +:+ ticket_id in
    let ticket := Judge.ticket_item pk ticket_sk (now +:+ "Z") chat_sk
                    failed_challenger reason in
    fst run = inr (PDict [
      ("improved", PBool false);
      ("reason", PStr ("Final Failure. Ticket Created: " +:+ ticket_id));
      ("ticket_sk", PStr ticket_sk);
      ("retryCount", PInt retry_count) ]) /\
    Escalation.open_system_ticket ticket ticket_sk chat_sk
      (Escalation.challenger_ref "NONE_SELECTED" failed_challenger) /\
    Escalation.ticket_put pk ticket_sk ticket w (snd run).
Proof.
  intros Hr. unfold Judge.handle_failure.
  destruct (Z.ltb_spec retry_count 1); [lia |].
  exists ("xyz-" +:+ String.substring 0 6
                        (match uuids w with
                         | u :: _ => u
                         | [] => "00000000000000000000000000000000"
                         end)),
         (match clock w with t :: _ => t | [] => "1970-01-01T00:00:00" end).
  destruct (uuids w) as [| hex us] eqn:Hu; destruct (clock w) as [| now cs] eqn:Hc;
    destruct (db_faults w) as [| [e |] fs] eqn:Hd;
    destruct pk as [p |];
    run_ticket w Hu Hc Hd; repeat split; reflexivity.
Qed.

Lemma supervisor_retry pk genome_sk chat_sk retry_count reason failed_challenger w :
  retry_count < 1 ->
  Supervisor.handle_failure pk genome_sk chat_sk retry_count reason failed_challenger w =
  (inr (PDict [("compliant", PBool false); ("reason", PStr reason)]), w).
Proof.
  intros Hr. unfold Supervisor.handle_failure.
  destruct (Z.ltb_spec retry_count 1); [reflexivity | lia].
Qed.

Lemma supervisor_ticket pk genome_sk chat_sk retry_count reason failed_challenger w :
  1 <= retry_count ->
  exists ticket_id now,
    let run := Supervisor.handle_failure pk genome_sk chat_sk retry_count reason
                 failed_challenger w in
    let ticket_sk := py_str (Supervisor.opt_str genome_sk) +:+ "#TICKET#" +:+ ticket_id in
    let ticket := Supervisor.ticket_item pk ticket_sk (now +:+ "Z") chat_sk
                    failed_challenger reason in
    fst run = inr (PDict [
      ("compliant", PBool false);
      ("reason", PStr ("Final Failure. Ticket Created: " +:+ ticket_id)) ]) /\
    Escalation.open_system_ticket ticket ticket_sk
      (if Supervisor.falsy chat_sk then "UNKNOWN"
       else py_str (Supervisor.opt_str chat_sk))
      (if Supervisor.falsy failed_challenger then "NONE"
       else py_str (Supervisor.opt_str failed_challenger)) /\
    Escalation.ticket_put pk ticket_sk ticket w (snd run).
Proof.
  intros Hr. unfold Supervisor.handle_failure.
  destruct (Z.ltb_spec retry_count 1); [lia |].
  exists ("sup-" +:+ String.substring 0 6
                        (match uuids w with
                         | u :: _ => u
                         | [] => "00000000000000000000000000000000"
                         end)),
         (match clock w with t :: _ => t | [] => "1970-01-01T00:00:00" end).
  destruct (uuids w) as [| hex us] eqn:Hu; destruct (clock w) as [| now cs] eqn:Hc;
    destruct (db_faults w) as [| [e |] fs] eqn:Hd;
    destruct pk as [p |];
    run_ticket w Hu Hc Hd; repeat split; reflexivity.
Qed.

End EscalationFacts.

(** C1, as amended: below a retry count of 1 both failure handlers write
    nothing and return a failure result with the reason; the Judge's
    result carries the unchanged retry count, the Supervisor's result
    has no retry count.  From a retry count of 1 on both put one Ticket
    with status OPEN and type SYSTEM that refers to the chat and to the
    failed challenger (or a placeholder): the put goes through when the
    partition key is there and the table call does not fail, and is
    swallowed otherwise.  Either way the result names the ticket: by its
    id in the reason, and for the Judge also by its sort key next to the
    unchanged retry count. *)
Theorem escalation_policy `{Runtime}
    pk genome_sk judge_chat_sk supervisor_chat_sk retry_count reason
    failed_challenger w :
  (retry_count < 1 ->
     Judge.handle_failure pk genome_sk judge_chat_sk retry_count reason
       failed_challenger w
     = (inr (PDict [("improved", PBool false); ("reason", PStr reason);
                    ("retryCount", PInt retry_count)]), w) /\
     Supervisor.handle_failure pk genome_sk supervisor_chat_sk retry_count reason
       failed_challenger w
     = (inr (PDict [("compliant", PBool false); ("reason", PStr reason)]), w)) /\
  (1 <= retry_count ->
     (exists ticket_id now,
        let run := Judge.handle_failure pk genome_sk judge_chat_sk retry_count reason
                     failed_challenger w in
        let ticket_sk :=
          py_str (Judge.opt_str genome_sk) +:+ "#TICKET#" +:+ ticket_id in
        let ticket := Judge.ticket_item pk ticket_sk (now +:+ "Z") judge_chat_sk
                        failed_challenger reason in
        fst run = inr (PDict [
          ("improved", PBool false);
          ("reason", PStr ("Final Failure. Ticket Created: " +:+ ticket_id));
          ("ticket_sk", PStr ticket_sk);
          ("retryCount", PInt retry_count) ]) /\
        Escalation.open_system_ticket ticket ticket_sk judge_chat_sk
          (Escalation.challenger_ref "NONE_SELECTED" failed_challenger) /\
        Escalation.ticket_put pk ticket_sk ticket w (snd run)) /\
     (exists ticket_id now,
        let run := Supervisor.handle_failure pk genome_sk supervisor_chat_sk retry_count
                     reason failed_challenger w in
        let ticket_sk :=
          py_str (Supervisor.opt_str genome_sk) +:+ "#TICKET#" +:+ ticket_id in
        let ticket := Supervisor.ticket_item pk ticket_sk (now +:+ "Z")
                        supervisor_chat_sk failed_challenger reason in
        fst run = inr (PDict [
          ("compliant", PBool false);
          ("reason", PStr ("Final Failure. Ticket Created: " +:+ ticket_id)) ]) /\
        Escalation.open_system_ticket ticket ticket_sk
          (if Supervisor.falsy supervisor_chat_sk then "UNKNOWN"
           else py_str (Supervisor.opt_str supervisor_chat_sk))
          (if Supervisor.falsy failed_challenger then "NONE"
           else py_str (Supervisor.opt_str failed_challenger)) /\
        Escalation.ticket_put pk ticket_sk ticket w (snd run))).
Proof.
  split.
  - intros Hr. split; [apply judge_retry | apply supervisor_retry]; exact Hr.
  - intros Hr. split; [apply judge_ticket | apply supervisor_ticket]; exact Hr.
Qed.

Lemma escalation_policy_witness :
  let judge r :=
    Judge.handle_failure (H := Lite.runtime) (Some "AGENT#concierge")
      (Some "VERSION#2025-01-01T00:00:00") Sample.chat_sk r
      "No challenger improved on the failure." None (Sample.world [] []) in
  (0 < 1 /\
   judge 0 = (inr (PDict [("improved", PBool false);
                          ("reason", PStr "No challenger improved on the failure.");
                          ("retryCount", PInt 0)]), Sample.world [] [])) /\
  (1 <= 1 /\
   exists ticket_id,
     fst (judge 1) = inr (PDict [
       ("improved", PBool false);
       ("reason", PStr ("Final Failure. Ticket Created: " +:+ ticket_id));
       ("ticket_sk", PStr ("VERSION#2025-01-01T00:00:00#TICKET#" +:+ ticket_id));
       ("retryCount", PInt 1) ])).
Proof.
  intros judge.
  assert (H0 : 0 < 1) by lia. assert (H1 : 1 <= 1) by lia.
  split; (split; [assumption |]).
  - exact (proj1 (proj1 (escalation_policy (H := Lite.runtime)
                           (Some "AGENT#concierge") (Some "VERSION#2025-01-01T00:00:00")
                           Sample.chat_sk (Some Sample.chat_sk) 0
                           "No challenger improved on the failure." None
                           (Sample.world [] [])) H0)).
  - destruct (proj1 (proj2 (escalation_policy (H := Lite.runtime)
                           (Some "AGENT#concierge") (Some "VERSION#2025-01-01T00:00:00")
                           Sample.chat_sk (Some Sample.chat_sk) 1
                           "No challenger improved on the failure." None
                           (Sample.world [] [])) H1))
      as (ticket_id & now & Hres & _).
    exists ticket_id. exact Hres.
Defined.

(** C1 as stated fails twice.  The Supervisor's handler, below the
    threshold, returns a result without any retry count; and at the
    threshold a put that DynamoDB rejects is swallowed, so the Judge's
    result names a ticket that is not in the table. *)
Lemma escalation_as_stated_fails :
  (let run :=
     Supervisor.handle_failure (H := Lite.runtime) (Some "AGENT#concierge")
       (Some "VERSION#2025-01-01T00:00:00") (Some Sample.chat_sk) 0
       "Supervisor Safety Protocol Violation: Audit System Offline"
       (Some Sample.attempt_1) (Sample.world [] []) in
   exists result,
     fst run = inr result /\ dict_get "retryCount" result = None) /\
  (let run :=
     Judge.handle_failure (H := Lite.runtime) (Some "AGENT#concierge")
       (Some "VERSION#2025-01-01T00:00:00") Sample.chat_sk 1
       "No challenger improved on the failure." None Sample.world_db_down in
   fst run = inr (PDict [
     ("improved", PBool false);
     ("reason", PStr "Final Failure. Ticket Created: xyz-3f9a1c");
     ("ticket_sk", PStr "VERSION#2025-01-01T00:00:00#TICKET#xyz-3f9a1c");
     ("retryCount", PInt 1) ]) /\
   table (snd run) = ∅).
Proof.
  split.
  - eexists. split; vm_compute; reflexivity.
  - split; vm_compute; reflexivity.
Qed.

(** ** Supervisor: the safety audit *)

(** whatever the operation, a Bedrock call takes the head of the script *)
Lemma after_bedrock_call operation w :
  snd (bedrock_call operation w) = after_bedrock w.
Proof.
  unfold after_bedrock, bedrock_text, bedrock_call.
  destruct (gateway w); reflexivity.
Qed.

Section AuditFacts.
Context `{Runtime}.

(** the outcome of the audit on a sound item, read off the reply *)
Lemma validate_sound item w :
  Supervisor.structurally_sound item ->
  Supervisor.validate_genome_safety item w =
  (inr match fst (invoke_model_text w) with
       | inl e => Supervisor.mkSafety false ("Audit System Offline: " +:+ exn_str e)
       | inr output_text =>
           if startswith (strip output_text) "SAFE"
           then Supervisor.mkSafety true "Passed Policy Audit"
           else if str_contains "VIOLATION" (strip output_text)
                then Supervisor.mkSafety false (strip output_text)
                else Supervisor.mkSafety true "Passed (Ambiguous Audit)"
       end, after_bedrock w).
Proof.
  intros (fields & brain & persona & guidelines & -> & Hb & Hp & Hg & Hres).
  rewrite <- (after_bedrock_call "InvokeModel"). fold invoke_model_text.
  unfold Supervisor.validate_genome_safety.
  unfold bind at 1, lift at 1. simpl. rewrite Hb.
  unfold bind at 1, lift at 1.
  assert (Hr : exists resources,
             match assoc_get "resources" fields with
             | Some v => v | None => PDict []
             end = PDict resources).
  { destruct (assoc_get "resources" fields) as [[| | | | | | |r] |];
      try contradiction; eauto. }
  destruct Hr as [resources ->].
  assert (Htruthy : py_truthy (PDict brain) = true).
  { destruct brain; [discriminate | reflexivity]. }
  unfold bind at 1, lift at 1. rewrite Htruthy. simpl. rewrite Hp, Hg. simpl.
  unfold bind, lift, try_except, ret, any_exception. simpl.
  destruct (invoke_model_text w) as [[e | text] w1]; simpl; [reflexivity |].
  destruct (startswith (strip text) "SAFE"); [reflexivity |].
  destruct (str_contains "VIOLATION" (strip text)); reflexivity.
Qed.

End AuditFacts.

(** ** Supervisor: rejection *)

Lemma mentions_app c (a b : string) :
  mentions c (a +:+ b) = mentions c a || mentions c b.
Proof.
  induction a as [| x a IH]; simpl; [reflexivity |].
  rewrite IH. apply orb_assoc.
Qed.

(** a ticket's sort key is never the pointer's *)
Lemma ticket_sk_not_current prefix ticket_id :
  prefix +:+ "#TICKET#" +:+ ticket_id <> "CURRENT".
Proof.
  intros Heq. apply (f_equal (mentions "#")) in Heq.
  rewrite mentions_app in Heq. simpl in Heq. rewrite orb_true_r in Heq.
  discriminate.
Qed.

Lemma bedrock_text_frame w :
  table (after_bedrock w) = table w /\ trace (after_bedrock w) = trace w /\
  db_faults (after_bedrock w) = db_faults w.
Proof.
  unfold after_bedrock, bedrock_text, bedrock_call. destruct (gateway w); simpl; auto.
Qed.

Section RejectionFacts.
Context `{Runtime}.

(** the guarded read of the Judge and the Supervisor writes nothing *)
Lemma supervisor_get_item_frame pk sk w r w1 :
  Supervisor.get_item pk sk w = (r, w1) ->
  table w1 = table w /\ trace w1 = trace w /\ same_outside_db w w1 /\
  (r = inr None \/ exists p s, pk = Some p /\ sk = Some s /\ r = inr (table w !! (p, s))).
Proof.
  unfold Supervisor.get_item, try_except, any_exception, Env.get_item.
  destruct pk as [p |], sk as [s |]; simpl;
    try (unfold raise, ret; intros [= <- <-]; repeat split; left; reflexivity).
  unfold bind. destruct (db_call w) as [[e | u] w0] eqn:Hc.
  - apply db_call_inl in Hc as (Ht & Htr & Hs). unfold ret. intros [= <- <-].
    repeat split; try assumption; try apply Hs. left. reflexivity.
  - apply db_call_inr in Hc as (Ht & Htr & Hs). intros [= <- <-].
    repeat split; try assumption; try apply Hs. right. exists p, s.
    rewrite Ht. auto.
Qed.

Lemma sound_truthy item :
  Supervisor.structurally_sound item -> py_truthy item = true.
Proof.
  intros (fields & brain & persona & guidelines & -> & Hb & _).
  destruct fields; [discriminate | reflexivity].
Qed.

(** the handler on a sound winner: the audit decides between rejection
    and promotion *)
Lemma supervisor_handler_audited event p wsk stored w w1 :
  Supervisor.pk event = Some p -> p <> "" ->
  Supervisor.selected_challenger_sk event = Some wsk -> wsk <> "" ->
  Supervisor.get_item (Some p) (Some wsk) w = (inr (Some stored), w1) ->
  Supervisor.structurally_sound (sanitize_for_json stored) ->
  forall check,
    fst (Supervisor.validate_genome_safety (sanitize_for_json stored) w1) = inr check ->
    Supervisor.lambda_handler event w =
    let retry_count := match Supervisor.retryCount event with
                       | Some r => r | None => 0 end in
    if negb (Supervisor.safe check) then
      Supervisor.handle_failure (Some p) (Supervisor.genome_sk event)
        (Supervisor.chat_sk event) retry_count
        ("Supervisor Safety Protocol Violation: " +:+ Supervisor.safety_reason check)
        (Some wsk) (after_bedrock w1)
    else
      Supervisor.promote (Some p) (Supervisor.genome_sk event)
        (Supervisor.chat_sk event) retry_count (sanitize_for_json stored)
        match Supervisor.judge_reason event with
        | Some r => r | None => "Evolutionary Improvement"
        end (after_bedrock w1).
Proof.
  intros Hpk Hp Hsel Hwsk Hget Hsound check Hcheck.
  unfold Supervisor.lambda_handler. rewrite Hpk, Hsel. simpl.
  apply String.eqb_neq in Hp, Hwsk. rewrite Hp, Hwsk. simpl.
  unfold bind at 1. rewrite Hget. simpl.
  rewrite (sound_truthy _ Hsound). simpl.
  pose proof (validate_sound _ w1 Hsound) as Hv.
  rewrite Hv in Hcheck. cbn [fst] in Hcheck. injection Hcheck as Hcheck.
  unfold bind at 1. rewrite Hv, Hcheck.
  destruct (Supervisor.safe check); reflexivity.
Qed.

End RejectionFacts.

(** C5: when the safety audit of a fetched, structurally sound winner
    raises, the Supervisor treats the winner as unsafe and hands over to
    the escalation policy with the reason "Audit System Offline".  Below
    a retry count of 1 the handler returns the failure
    [compliant: false] with that reason and writes nothing.  From a
    retry count of 1 on it returns the Final Failure that names a ticket
    and makes the one put of that ticket, an OPEN ticket of type SYSTEM
    that refers to the chat and to the winner.  In every case no
    CurrentPointer changes and whatever the table holds afterwards was
    there before or is a Ticket, so no new GenomeVersion is written.  An
    audit reply that neither starts with SAFE nor contains VIOLATION
    lets the handler go on to the promotion. *)
Theorem audit_error_fails_closed `{Runtime} event p wsk stored w w1 :
  Supervisor.pk event = Some p -> p <> "" ->
  Supervisor.selected_challenger_sk event = Some wsk -> wsk <> "" ->
  Supervisor.get_item (Some p) (Some wsk) w = (inr (Some stored), w1) ->
  Supervisor.structurally_sound (sanitize_for_json stored) ->
  let retry_count := match Supervisor.retryCount event with
                     | Some r => r | None => 0 end in
  let run := Supervisor.lambda_handler event w in
  (forall e,
     fst (invoke_model_text w1) = inl e ->
     let reason := "Supervisor Safety Protocol Violation: Audit System Offline: "
                     +:+ exn_str e in
     run = Supervisor.handle_failure (Some p) (Supervisor.genome_sk event)
             (Supervisor.chat_sk event) retry_count reason
             (Some wsk) (after_bedrock w1) /\
     (retry_count < 1 ->
      run = (inr (PDict [("compliant", PBool false); ("reason", PStr reason)]),
             after_bedrock w1) /\
      table (snd run) = table w /\ trace (snd run) = trace w) /\
     (1 <= retry_count ->
      exists ticket_id now,
        let ticket_sk := py_str (Supervisor.opt_str (Supervisor.genome_sk event))
                           +:+ "#TICKET#" +:+ ticket_id in
        let ticket := Supervisor.ticket_item (Some p) ticket_sk (now +:+ "Z")
                        (Supervisor.chat_sk event) (Some wsk) reason in
        fst run = inr (PDict [
          ("compliant", PBool false);
          ("reason", PStr ("Final Failure. Ticket Created: " +:+ ticket_id)) ]) /\
        Escalation.open_system_ticket ticket ticket_sk
          (if Supervisor.falsy (Supervisor.chat_sk event) then "UNKNOWN"
           else py_str (Supervisor.opt_str (Supervisor.chat_sk event)))
          wsk /\
        Escalation.ticket_put (Some p) ticket_sk ticket (after_bedrock w1) (snd run)) /\
     (forall q, table (snd run) !! (q, "CURRENT") = table w !! (q, "CURRENT")) /\
     (forall key item,
        table (snd run) !! key = Some item ->
        table w !! key = Some item \/
        dict_get "EntityType" item = Some (PStr "Ticket"))) /\
  (forall text,
     fst (invoke_model_text w1) = inr text ->
     startswith (strip text) "SAFE" = false ->
     str_contains "VIOLATION" (strip text) = false ->
     run = Supervisor.promote (Some p) (Supervisor.genome_sk event)
             (Supervisor.chat_sk event) retry_count (sanitize_for_json stored)
             match Supervisor.judge_reason event with
             | Some r => r | None => "Evolutionary Improvement"
             end (after_bedrock w1)).
Proof.
  intros Hpk Hp Hsel Hwsk Hget Hsound retry_count run.
  pose proof (validate_sound _ w1 Hsound) as Hv.
  apply supervisor_get_item_frame in Hget as Hframe.
  destruct Hframe as (Ht1 & Htr1 & _ & _).
  destruct (bedrock_text_frame w1) as (Ht2 & Htr2 & _).
  split.
  - intros e He reason. rewrite He in Hv.
    assert (Hrun : run = Supervisor.handle_failure (Some p) (Supervisor.genome_sk event)
             (Supervisor.chat_sk event) retry_count reason
             (Some wsk) (after_bedrock w1)).
    { unfold run.
      rewrite (supervisor_handler_audited _ _ _ _ _ _ Hpk Hp Hsel Hwsk Hget Hsound
                 _ (f_equal fst Hv)).
      reflexivity. }
    split; [exact Hrun |].
    destruct (Z.lt_ge_cases retry_count 1) as [Hlt | Hge].
    + pose proof (supervisor_retry (Some p) (Supervisor.genome_sk event)
                    (Supervisor.chat_sk event) retry_count reason (Some wsk)
                    (after_bedrock w1) Hlt) as Hretry.
      rewrite <- Hrun in Hretry.
      split; [intros _; rewrite Hretry; simpl; rewrite Ht2, Ht1, Htr2, Htr1; auto |].
      split; [intros Hge; lia |].
      rewrite Hretry. simpl. rewrite Ht2, Ht1.
      split; [reflexivity |]. intros key item Hk. left. exact Hk.
    + split; [intros Hlt; lia |].
      destruct (supervisor_ticket (Some p) (Supervisor.genome_sk event)
                  (Supervisor.chat_sk event) retry_count reason
                  (Some wsk) (after_bedrock w1) Hge)
        as (ticket_id & now & Hres & Hopen & Hput).
      cbv zeta in Hres, Hopen, Hput. rewrite <- Hrun in Hres, Hput.
      split.
      { intros _. exists ticket_id, now. cbv zeta.
        split; [exact Hres |]. split; [| exact Hput].
        assert (Hfalsy : Supervisor.falsy (Some wsk) = false).
        { unfold Supervisor.falsy. apply String.eqb_neq in Hwsk. rewrite Hwsk.
          reflexivity. }
        rewrite Hfalsy in Hopen. exact Hopen. }
      unfold Escalation.ticket_put in Hput.
      destruct (next_db_call_fails (after_bedrock w1)).
      * destruct Hput as [-> _]. rewrite Ht2, Ht1.
        split; [reflexivity |]. intros key item Hk. left. exact Hk.
      * destruct Hput as [-> _]. rewrite Ht2, Ht1. split.
        -- intros q. apply lookup_insert_ne. intros [= _ Hcur].
           exact (ticket_sk_not_current _ _ Hcur).
        -- intros key item. rewrite lookup_insert. case_decide as Hkey.
           ++ intros [= <-]. right. reflexivity.
           ++ intros Hk. left. exact Hk.
  - intros text Htext Hsafe Hviol. rewrite Htext, Hsafe, Hviol in Hv.
    unfold run.
    rewrite (supervisor_handler_audited _ _ _ _ _ _ Hpk Hp Hsel Hwsk Hget Hsound
               _ (f_equal fst Hv)).
    reflexivity.
Qed.

Lemma sample_winner_sound :
  Supervisor.structurally_sound (sanitize_for_json (H := Lite.runtime) Sample.winner).
Proof.
  eexists _, _, _, _. split; [reflexivity |].
  split; [reflexivity |]. split; [reflexivity |]. split; [reflexivity |]. exact I.
Defined.

Lemma audit_error_fails_closed_witness :
  let w := Sample.world [(Sample.winner_key, Sample.winner)]
                        [inl (Sample.throttled "InvokeModel")] in
  let run := Supervisor.lambda_handler (H := Lite.runtime) (Sample.supervisor_event 1) w in
  let ticket_sk := "VERSION#2025-01-01T00:00:00#TICKET#sup-3f9a1c" in
  Supervisor.get_item (Some "AGENT#concierge") (Some Sample.attempt_1) w
    = (inr (Some Sample.winner), w) /\
  fst (invoke_model_text w) = inl (Sample.throttled "InvokeModel") /\
  fst run = inr (PDict [
    ("compliant", PBool false);
    ("reason", PStr "Final Failure. Ticket Created: sup-3f9a1c") ]) /\
  (exists ticket,
     Escalation.open_system_ticket ticket ticket_sk Sample.chat_sk Sample.attempt_1 /\
     table (snd run) !! ("AGENT#concierge", ticket_sk) = Some ticket /\
     trace (snd run) = [Wrote ("AGENT#concierge", ticket_sk) ticket]) /\
  (forall q, table (snd run) !! (q, "CURRENT") = table w !! (q, "CURRENT")) /\
  (forall key item,
     table (snd run) !! key = Some item ->
     table w !! key = Some item \/ dict_get "EntityType" item = Some (PStr "Ticket")).
Proof.
  intros w run ticket_sk.
  assert (Hget : Supervisor.get_item (Some "AGENT#concierge") (Some Sample.attempt_1) w
                 = (inr (Some Sample.winner), w)) by (vm_compute; reflexivity).
  assert (Hne1 : "AGENT#concierge" <> "") by discriminate.
  assert (Hne2 : Sample.attempt_1 <> "") by discriminate.
  destruct (audit_error_fails_closed (H := Lite.runtime) (Sample.supervisor_event 1)
              "AGENT#concierge" Sample.attempt_1 Sample.winner w w
              eq_refl Hne1 eq_refl Hne2 Hget sample_winner_sound) as [Herr _].
  destruct (Herr (Sample.throttled "InvokeModel") eq_refl)
    as (_ & _ & Hticket & Hcur & Honly).
  destruct (Hticket ltac:(simpl; lia)) as (ticket_id & now & Hres & Hopen & Hput).
  assert (Hrun : fst run = inr (PDict [
            ("compliant", PBool false);
            ("reason", PStr "Final Failure. Ticket Created: sup-3f9a1c") ]))
    by (vm_compute; reflexivity).
  assert (Hid : ticket_id = "sup-3f9a1c").
  { fold run in Hres. rewrite Hrun in Hres. vm_compute in Hres.
    injection Hres as <-. reflexivity. }
  subst ticket_id.
  split; [exact Hget |]. split; [reflexivity |]. split; [exact Hrun |].
  split; [| split; [exact Hcur | exact Honly]].
  eexists. split; [exact Hopen |].
  destruct Hput as [Htable Htrace]. fold run in Htable, Htrace.
  split; [rewrite Htable; apply lookup_insert_eq | exact Htrace].
Defined.

(** ** Computations that write nothing *)

Lemma preserves_ret {A} (a : A) : preserves_store (ret a).
Proof. intros w r w' [= _ <-]. auto. Qed.

Lemma preserves_raise {A} (e : exn) : preserves_store (raise (A := A) e).
Proof. intros w r w' [= _ <-]. auto. Qed.

Lemma preserves_lift {A} (x : result A) : preserves_store (lift x).
Proof. intros w r w' [= _ <-]. auto. Qed.

Lemma preserves_bind {A B} (m : M A) (k : A -> M B) :
  preserves_store m -> (forall a, preserves_store (k a)) -> preserves_store (bind m k).
Proof.
  intros Hm Hk w r w'. unfold bind.
  destruct (m w) as [[e | a] w1] eqn:Hmw.
  - intros [= <- <-]. exact (Hm _ _ _ Hmw).
  - intros Hka. destruct (Hm _ _ _ Hmw) as [Ht Htr].
    destruct (Hk a _ _ _ Hka) as [Ht' Htr']. split; congruence.
Qed.

Lemma preserves_try {A} (m : M A) sel (h : exn -> M A) :
  preserves_store m -> (forall e, preserves_store (h e)) ->
  preserves_store (try_except m sel h).
Proof.
  intros Hm Hh w r w'. unfold try_except.
  destruct (m w) as [[e | a] w1] eqn:Hmw.
  - destruct (Hm _ _ _ Hmw) as [Ht Htr]. destruct (sel e).
    + intros Hhe. destruct (Hh e _ _ _ Hhe) as [Ht' Htr']. split; congruence.
    + intros [= <- <-]. auto.
  - intros [= <- <-]. exact (Hm _ _ _ Hmw).
Qed.

Lemma preserves_db_call : preserves_store db_call.
Proof.
  intros w r w'. unfold db_call.
  destruct (db_faults w) as [| [e |] rest]; intros [= <- <-]; auto.
Qed.

Lemma preserves_get_item pk sk : preserves_store (Env.get_item pk sk).
Proof.
  unfold Env.get_item. destruct pk, sk; try apply preserves_raise.
  apply preserves_bind; [apply preserves_db_call |].
  intros a w r w' [= <- <-]. auto.
Qed.

Lemma preserves_bedrock_call operation : preserves_store (bedrock_call operation).
Proof.
  intros w r w'. unfold bedrock_call.
  destruct (gateway w); intros [= <- <-]; auto.
Qed.

Lemma preserves_bedrock_text : preserves_store bedrock_text.
Proof. apply preserves_bedrock_call. Qed.

Lemma preserves_invoke_model_text : preserves_store invoke_model_text.
Proof. apply preserves_bedrock_call. Qed.

Lemma preserves_uuid4_hex : preserves_store uuid4_hex.
Proof.
  intros w r w'. unfold uuid4_hex. destruct (uuids w); intros [= <- <-]; auto.
Qed.

Lemma preserves_utcnow_isoformat : preserves_store utcnow_isoformat.
Proof.
  intros w r w'. unfold utcnow_isoformat. destruct (clock w); intros [= <- <-]; auto.
Qed.

Create HintDb frame.
#[export] Hint Resolve preserves_ret preserves_raise preserves_lift preserves_db_call
  preserves_get_item preserves_bedrock_text preserves_invoke_model_text
  preserves_uuid4_hex preserves_utcnow_isoformat : frame.

(** split a computation along its binds, handlers and branches *)
Ltac frame_step :=
  first
    [ solve [auto with frame]
    | apply preserves_bind; [| intros ?]
    | apply preserves_try; [| intros ?]
    | match goal with
      | |- preserves_store (if ?b then _ else _) => destruct b
      | |- preserves_store (match ?x with _ => _ end) => destruct x
      | |- preserves_store (let (_, _) := ?x in _) => destruct x
      end ].

Ltac frame := repeat frame_step.

Section FrameFacts.
Context `{Runtime}.

Lemma preserves_validate item :
  preserves_store (Supervisor.validate_genome_safety item).
Proof. unfold Supervisor.validate_genome_safety. frame. Qed.

Lemma preserves_supervisor_get_item pk sk :
  preserves_store (Supervisor.get_item pk sk).
Proof. unfold Supervisor.get_item. frame. Qed.

Lemma preserves_judge_get_item pk sk : preserves_store (Judge.get_item pk sk).
Proof. unfold Judge.get_item. frame. Qed.

Lemma preserves_invoke_judge_model : preserves_store Judge.invoke_judge_model.
Proof. unfold Judge.invoke_judge_model. frame. Qed.

Lemma preserves_invoke_agent_simulation genome transcript :
  preserves_store (Judge.invoke_agent_simulation genome transcript).
Proof. unfold Judge.invoke_agent_simulation. frame. Qed.

Lemma preserves_run_comparator_stage issue bad candidates history :
  preserves_store (Judge.run_comparator_stage issue bad candidates history).
Proof.
  unfold Judge.run_comparator_stage. destruct candidates; [frame |].
  apply preserves_bind; [frame |]. intros ?.
  apply preserves_bind; [apply preserves_invoke_judge_model |]. intros ?. frame.
Qed.

Lemma preserves_run_compliance_stage text genome history :
  preserves_store (Judge.run_compliance_stage text genome history).
Proof.
  unfold Judge.run_compliance_stage.
  do 5 (apply preserves_bind; [frame |]; intros ?).
  apply preserves_try; [apply preserves_invoke_judge_model | intros ?; frame].
Qed.

Lemma preserves_simulate_challengers pk original transcript sks :
  forall acc, preserves_store (Judge.simulate_challengers pk original transcript sks acc).
Proof.
  induction sks as [| sk rest IH]; intros acc; simpl; [frame |].
  apply preserves_bind; [apply preserves_judge_get_item |]. intros fetched.
  destruct (option_map sanitize_for_json fetched) as [cg |]; [| apply IH].
  destruct (py_truthy cg); [| apply IH].
  do 5 (apply preserves_bind; [frame |]; intros ?).
  apply preserves_bind; [| intros ?; apply IH].
  apply preserves_try; [| intros ?; frame].
  apply preserves_bind; [apply preserves_invoke_agent_simulation | intros ?; frame].
Qed.

End FrameFacts.

(** ** Supervisor: promotion *)

Lemma try_except_inr {A} (m : M A) sel (h : exn -> M A) w a w' :
  try_except m sel h w = (inr a, w') ->
  m w = (inr a, w') \/
  exists e w1, m w = (inl e, w1) /\ sel e = true /\ h e w1 = (inr a, w').
Proof.
  unfold try_except. destruct (m w) as [[e | x] w1].
  - destruct (sel e) eqn:Hsel; [| discriminate]. intros Hh. right.
    exists e, w1. auto.
  - intros [= <- <-]. left. reflexivity.
Qed.

Section PromotionFacts.
Context `{Runtime}.

(** no result of the Supervisor's failure handler has a status *)
Lemma supervisor_failure_no_status pk genome_sk chat_sk retry_count reason fc w result w' :
  Supervisor.handle_failure pk genome_sk chat_sk retry_count reason fc w = (inr result, w') ->
  dict_get "status" result = None.
Proof.
  intros Hrun. destruct (Z.lt_ge_cases retry_count 1) as [Hlt | Hge].
  - rewrite (supervisor_retry _ _ _ _ _ _ _ Hlt) in Hrun.
    injection Hrun as <- _. reflexivity.
  - destruct (supervisor_ticket pk genome_sk chat_sk retry_count reason fc w Hge)
      as (ticket_id & now & Hres & _).
    cbv zeta in Hres. rewrite Hrun in Hres. injection Hres as ->. reflexivity.
Qed.

Lemma promote_success pk genome_sk chat_sk retry_count winner_item promotion_reason
    w result w' :
  Supervisor.promote pk genome_sk chat_sk retry_count winner_item promotion_reason w
    = (inr result, w') ->
  dict_get "status" result = Some (PStr "SUCCESS") ->
  exists p now new_genome genome_db pointer_db,
    let new_version_sk := "VERSION#" +:+ now +:+ "Z" in
    pk = Some p /\
    (forall section, section ∈ Supervisor.copied_sections ->
       dict_get section new_genome = Some (Supervisor.section_of winner_item section)) /\
    (exists metadata,
       dict_get "metadata" new_genome = Some metadata /\
       dict_get "deployment_state" metadata = Some (PStr "ACTIVE")) /\
    json_copy false true (sanitize_for_json new_genome) = inr genome_db /\
    dict_get "active_version_sk" pointer_db = Some (PStr new_version_sk) /\
    dict_get "new_active_version" result = Some (PStr new_version_sk) /\
    trace w' = trace w ++ [Wrote (p, new_version_sk) genome_db;
                           Wrote (p, "CURRENT") pointer_db] /\
    table w' = <[(p, "CURRENT") := pointer_db]>
                 (<[(p, new_version_sk) := genome_db]> (table w)).
Proof.
  intros Hrun Hstatus. unfold Supervisor.promote in Hrun.
  apply bind_inr in Hrun as (now & w1 & Hnow & Hrun).
  destruct (preserves_utcnow_isoformat _ _ _ Hnow) as [Ht1 Htr1].
  apply bind_inr in Hrun as (brain & ? & Hbrain & Hrun). apply lift_inr in Hbrain as [Hbrain ->].
  apply bind_inr in Hrun as (config & ? & Hconfig & Hrun). apply lift_inr in Hconfig as [Hconfig ->].
  apply bind_inr in Hrun as (resources & ? & Hres & Hrun). apply lift_inr in Hres as [Hres ->].
  apply bind_inr in Hrun as (capabilities & ? & Hcap & Hrun). apply lift_inr in Hcap as [Hcap ->].
  apply bind_inr in Hrun as (evo & ? & Hevo & Hrun). apply lift_inr in Hevo as [Hevo ->].
  apply bind_inr in Hrun as (economics & ? & Heco & Hrun). apply lift_inr in Heco as [Heco ->].
  apply bind_inr in Hrun as (metadata & ? & Hmeta & Hrun). apply lift_inr in Hmeta as [Hmeta ->].
  apply bind_inr in Hrun as (name & ? & Hname & Hrun). apply lift_inr in Hname as [Hname ->].
  apply bind_inr in Hrun as (hex & w2 & Hhex & Hrun).
  destruct (preserves_uuid4_hex _ _ _ Hhex) as [Ht2 Htr2].
  apply bind_inr in Hrun as (metadata' & ? & Hmeta' & Hrun). apply lift_inr in Hmeta' as [Hmeta' ->].
  apply bind_inr in Hrun as (parent_hash & ? & Hph & Hrun). apply lift_inr in Hph as [Hph ->].
  apply bind_inr in Hrun as (written & w3 & Hwritten & Hrun).
  destruct written as [e |].
  { apply supervisor_failure_no_status in Hrun. congruence. }
  apply lift_inr in Hrun as [Hresult ->].
  apply try_except_inr in Hwritten as [Hwritten | (e & w4 & _ & _ & Hh)];
    [| discriminate].
  apply bind_inr in Hwritten as (genome_db & ? & Hgdb & Hwritten).
  apply lift_inr in Hgdb as [Hgdb ->].
  apply bind_inr in Hwritten as (pointer_db & ? & Hpdb & Hwritten).
  apply lift_inr in Hpdb as [Hpdb ->].
  apply bind_inr in Hwritten as (u1 & w5 & Hput1 & Hwritten).
  apply bind_inr in Hwritten as (u2 & w6 & Hput2 & Hwritten).
  apply ret_inr in Hwritten as [_ ->].
  apply put_item_inr in Hput1 as (p1 & s1 & Hp1 & Hs1 & Htab1 & Htrace1 & _).
  apply put_item_inr in Hput2 as (p2 & s2 & Hp2 & Hs2 & Htab2 & Htrace2 & _).
  (* the keys of the two items *)
  pose proof Hgdb as Hgdb0.
  simpl sanitize_for_json in Hgdb, Hpdb.
  rewrite json_copy_dict in Hgdb, Hpdb.
  match type of Hgdb with
  | match copy_items _ _ ?kvs with _ => _ end = _ =>
      destruct (copy_items false true kvs) as [? | gkvs] eqn:Hgcopy; [discriminate |]
  end.
  match type of Hpdb with
  | match copy_items _ _ ?kvs with _ => _ end = _ =>
      destruct (copy_items false true kvs) as [? | pkvs] eqn:Hpcopy; [discriminate |]
  end.
  injection Hgdb as <-. injection Hpdb as <-.
  pose proof (copy_items_get _ _ _ _ "PK" Hgcopy) as HgPK.
  pose proof (copy_items_get _ _ _ _ "SK" Hgcopy) as HgSK.
  pose proof (copy_items_get _ _ _ _ "PK" Hpcopy) as HpPK.
  pose proof (copy_items_get _ _ _ _ "SK" Hpcopy) as HpSK.
  pose proof (copy_items_get _ _ _ _ "active_version_sk" Hpcopy) as HpAV.
  simpl in HgPK, HgSK, HpPK, HpSK, HpAV, Hp1, Hs1, Hp2, Hs2.
  destruct HgSK as (? & [= <-] & HgSK). rewrite Hs1 in HgSK. injection HgSK as ->.
  destruct HpSK as (? & [= <-] & HpSK). rewrite Hs2 in HpSK. injection HpSK as ->.
  destruct HpAV as (? & [= <-] & HpAV).
  destruct pk as [p |]; simpl in HgPK, HpPK;
    destruct HgPK as (? & [= <-] & HgPK); destruct HpPK as (? & [= <-] & HpPK);
    rewrite Hp1 in HgPK; rewrite Hp2 in HpPK; try discriminate.
  injection HgPK as ->. injection HpPK as ->.
  eexists p, now, _, (PDict gkvs), (PDict pkvs). cbv zeta.
  split; [reflexivity |].
  split; [| split; [| split; [| split; [| split; [| split]]]]].
  3: exact Hgdb0.
  - intros section Hsec. unfold Supervisor.copied_sections in Hsec.
    destruct winner_item as [| | | | | | | fields]; try discriminate.
    simpl in Hbrain, Hconfig, Hres, Hcap, Hevo.
    injection Hbrain as <-. injection Hconfig as <-. injection Hres as <-.
    injection Hcap as <-. injection Hevo as <-.
    unfold Supervisor.section_of.
    repeat (apply elem_of_cons in Hsec as [-> | Hsec]; [reflexivity |]).
    apply elem_of_nil in Hsec. contradiction.
  - eexists. split; reflexivity.
  - exact HpAV.
  - injection Hresult as <-. reflexivity.
  - rewrite Htrace2, Htrace1, Htr2, Htr1, <- app_assoc. reflexivity.
  - rewrite Htab2, Htab1, Ht2, Ht1. reflexivity.
Qed.

End PromotionFacts.

(** C6: every successful promotion, that is every run of the Supervisor
    that returns status SUCCESS, minted a GenomeVersion whose brain,
    config, resources, capabilities and evolution_config are the
    sections of the fetched winning Challenger, in state ACTIVE; what is
    put is its encoding for DynamoDB, and the version is written first,
    the CurrentPointer that names it second. *)
Theorem promotion_copies_winner `{Runtime} event w result w' :
  Supervisor.lambda_handler event w = (inr result, w') ->
  dict_get "status" result = Some (PStr "SUCCESS") ->
  exists p winner_sk stored now new_genome genome_db pointer_db,
    let winner_item := sanitize_for_json stored in
    let new_version_sk := "VERSION#" +:+ now +:+ "Z" in
    Supervisor.pk event = Some p /\
    Supervisor.selected_challenger_sk event = Some winner_sk /\
    table w !! (p, winner_sk) = Some stored /\
    (forall section, section ∈ Supervisor.copied_sections ->
       dict_get section new_genome = Some (Supervisor.section_of winner_item section)) /\
    (exists metadata,
       dict_get "metadata" new_genome = Some metadata /\
       dict_get "deployment_state" metadata = Some (PStr "ACTIVE")) /\
    json_copy false true (sanitize_for_json new_genome) = inr genome_db /\
    dict_get "active_version_sk" pointer_db = Some (PStr new_version_sk) /\
    dict_get "new_active_version" result = Some (PStr new_version_sk) /\
    trace w' = trace w ++ [Wrote (p, new_version_sk) genome_db;
                           Wrote (p, "CURRENT") pointer_db] /\
    table w' = <[(p, "CURRENT") := pointer_db]>
                 (<[(p, new_version_sk) := genome_db]> (table w)).
Proof.
  intros Hrun Hstatus. unfold Supervisor.lambda_handler in Hrun.
  destruct (Supervisor.falsy (Supervisor.pk event)
            || Supervisor.falsy (Supervisor.selected_challenger_sk event)).
  { apply ret_inr in Hrun as [-> _]. discriminate. }
  apply bind_inr in Hrun as (fetched & w1 & Hget & Hrun).
  apply supervisor_get_item_frame in Hget as (Ht1 & Htr1 & _ & Hfetched).
  destruct fetched as [stored |]; simpl in Hrun;
    [| apply supervisor_failure_no_status in Hrun; congruence].
  destruct Hfetched as [[=] | (p & wsk & Hpk & Hsel & [= Hstored])].
  destruct (py_truthy (sanitize_for_json stored)); simpl in Hrun;
    [| apply supervisor_failure_no_status in Hrun; congruence].
  apply bind_inr in Hrun as (check & w2 & Hcheck & Hrun).
  destruct (preserves_validate _ _ _ _ Hcheck) as [Ht2 Htr2].
  destruct (Supervisor.safe check); simpl in Hrun;
    [| apply supervisor_failure_no_status in Hrun; congruence].
  rewrite Hpk in Hrun.
  destruct (promote_success _ _ _ _ _ _ _ _ _ Hrun Hstatus)
    as (p' & now & new_genome & genome_db & pointer_db
        & [= <-] & Hsec & Hmeta & Hcopy & Hav & Hres & Htrace & Htable).
  exists p, wsk, stored, now, new_genome, genome_db, pointer_db. cbv zeta.
  rewrite Htrace, Htable, Htr2, Htr1, Ht2, Ht1.
  repeat split; auto.
Qed.

Lemma promotion_copies_winner_witness :
  let w := Sample.world [(Sample.winner_key, Sample.winner)] [inr "SAFE"] in
  let run := Supervisor.lambda_handler (H := Lite.runtime) (Sample.supervisor_event 0) w in
  exists result genome_db pointer_db,
    fst run = inr result /\
    dict_get "status" result = Some (PStr "SUCCESS") /\
    trace (snd run) =
      [Wrote ("AGENT#concierge", "VERSION#2025-02-02T10:00:00Z") genome_db;
       Wrote ("AGENT#concierge", "CURRENT") pointer_db] /\
    dict_get "brain" genome_db = dict_get "brain" Sample.winner.
Proof.
  intros w run.
  assert (Hrun : exists result, fst run = inr result /\
                                dict_get "status" result = Some (PStr "SUCCESS")).
  { eexists. split; vm_compute; reflexivity. }
  destruct Hrun as (result & Hres & Hstatus).
  destruct (promotion_copies_winner (H := Lite.runtime) (Sample.supervisor_event 0)
              w result (snd run) (run_returns _ _ _ Hres) Hstatus)
    as (p & wsk & stored & now & ng & genome_db & pointer_db & _).
  eexists result, _, _.
  split; [exact Hres |]. split; [exact Hstatus |].
  split; vm_compute; reflexivity.
Defined.

(** ** Judge: the compliance stage *)

Section ComplianceFacts.
Context `{Runtime}.

(** [invoke_judge_model] swallows every failure of the call: it answers
    with the empty dict and never raises *)
Lemma invoke_judge_model_error w e :
  fst (bedrock_text w) = inl e ->
  Judge.invoke_judge_model w = (inr (PDict []), after_bedrock w).
Proof.
  intros He. unfold Judge.invoke_judge_model, try_except, bind, after_bedrock.
  destruct (bedrock_text w) as [[e' | text] w1]; simpl in *; [reflexivity | discriminate].
Qed.

Lemma invoke_judge_model_returns w :
  exists v, fst (Judge.invoke_judge_model w) = inr v.
Proof.
  unfold Judge.invoke_judge_model, try_except, bind, any_exception, ret, raise.
  destruct (bedrock_text w) as [[e | text] w1]; simpl; [eauto |].
  destruct (regex_json_span (strip text)) as [m |].
  - destruct (json_loads m); simpl; eauto.
  - destruct (String.index 0 "{" (strip text)); [| simpl; eauto].
    match goal with |- context [json_loads ?s] => destruct (json_loads s) end;
      simpl; eauto.
Qed.

(** so the handler of [run_compliance_stage] is never entered: when the
    arbitration call raises, the stage returns the empty dict, not the
    dict with "passed" false *)
Lemma run_compliance_stage_error response_text genome history w e fields :
  genome = PDict fields ->
  (forall v, assoc_get "resources" fields = Some v -> exists r, v = PDict r) ->
  (forall v, assoc_get "evolution_config" fields = Some v -> exists r, v = PDict r) ->
  fst (bedrock_text w) = inl e ->
  Judge.run_compliance_stage response_text genome history w
  = (inr (PDict []), after_bedrock w).
Proof.
  intros -> Hres Hevo He. unfold Judge.run_compliance_stage.
  unfold bind at 1, lift at 1. simpl.
  destruct (assoc_get "resources" fields) as [v |] eqn:Hr;
    [destruct (Hres v eq_refl) as [r ->] |];
    (unfold bind at 1, lift at 1; simpl;
     destruct (assoc_get "evolution_config" fields) as [v' |] eqn:Hev;
     [destruct (Hevo v' eq_refl) as [r' ->] |];
     unfold bind, lift, try_except; simpl;
     rewrite (invoke_judge_model_error _ _ He); reflexivity).
Qed.

End ComplianceFacts.

(** C4, at the inputs where the code departs from it.  A winner exists
    and the compliance call is throttled away: the stage returns the
    empty dict, the subscript ["passed"] raises KeyError, and the Judge
    ends without entering the failure handler (at retry count 1 no
    ticket is written).  The same happens for a reply that holds no
    JSON.  And a reply whose "passed" is the string "no" counts as
    passed: the challenger is returned as a success record. *)
Theorem judge_compliance_error_not_closed :
  let throttled := Sample.judge_world (inl (Sample.throttled "Converse")) in
  let prose := Sample.judge_world (inr "I cannot assess this candidate.") in
  let misshapen := Sample.judge_world (inr Sample.reply_passed_no) in
  let judge := Judge.lambda_handler (H := Lite.runtime) in
  (fst (judge (Sample.judge_event 1) throttled) = inl (KeyError "passed") /\
   table (snd (judge (Sample.judge_event 1) throttled)) = table throttled /\
   trace (snd (judge (Sample.judge_event 1) throttled)) = []) /\
  fst (judge (Sample.judge_event 0) prose) = inl (KeyError "passed") /\
  fst (judge (Sample.judge_event 0) misshapen) = inr (PDict [
    ("improved", PBool true);
    ("selected_challenger_sk", PStr Sample.attempt_1);
    ("improved_response", PStr Sample.simulated_reply);
    ("reason", PStr "Promises a refund");
    ("retryCount", PInt 0) ]).
Proof.
  intros throttled prose misshapen judge.
  repeat split; vm_compute; reflexivity.
Qed.

(** ** Serving path: persisting the transcript *)





(** ** Serving path: what reaches the event bus *)

Lemma keeps_bus_ret {A} (a : A) : keeps_bus (ret a).
Proof. intros w r w' [= _ <-]. reflexivity. Qed.

Lemma keeps_bus_raise {A} (e : exn) : keeps_bus (raise (A := A) e).
Proof. intros w r w' [= _ <-]. reflexivity. Qed.

Lemma keeps_bus_lift {A} (x : result A) : keeps_bus (lift x).
Proof. intros w r w' [= _ <-]. reflexivity. Qed.

Lemma keeps_bus_bind {A B} (m : M A) (k : A -> M B) :
  keeps_bus m -> (forall a, keeps_bus (k a)) -> keeps_bus (bind m k).
Proof.
  intros Hm Hk w r w'. unfold bind.
  destruct (m w) as [[e | a] w1] eqn:Hmw.
  - intros [= <- <-]. exact (Hm _ _ _ Hmw).
  - intros Hka. rewrite (Hk a _ _ _ Hka). exact (Hm _ _ _ Hmw).
Qed.

Lemma keeps_bus_try {A} (m : M A) sel (h : exn -> M A) :
  keeps_bus m -> (forall e, keeps_bus (h e)) -> keeps_bus (try_except m sel h).
Proof.
  intros Hm Hh w r w'. unfold try_except.
  destruct (m w) as [[e | a] w1] eqn:Hmw.
  - destruct (sel e).
    + intros Hhe. rewrite (Hh e _ _ _ Hhe). exact (Hm _ _ _ Hmw).
    + intros [= <- <-]. exact (Hm _ _ _ Hmw).
  - intros [= <- <-]. exact (Hm _ _ _ Hmw).
Qed.

Lemma keeps_bus_db_call : keeps_bus db_call.
Proof.
  intros w r w'. unfold db_call.
  destruct (db_faults w) as [| [e |] rest]; intros [= <- <-]; reflexivity.
Qed.

Lemma keeps_bus_get_item pk sk : keeps_bus (Env.get_item pk sk).
Proof.
  unfold Env.get_item. destruct pk, sk; try apply keeps_bus_raise.
  apply keeps_bus_bind; [apply keeps_bus_db_call |].
  intros a w r w' [= <- <-]. reflexivity.
Qed.

Lemma keeps_bus_update_item_set p s sets : keeps_bus (update_item_set p s sets).
Proof.
  unfold update_item_set.
  destruct (forallb _ sets); [| apply keeps_bus_raise].
  apply keeps_bus_bind; [apply keeps_bus_db_call |].
  intros a w r w' [= <- <-]. reflexivity.
Qed.

Lemma keeps_bus_bedrock_call operation : keeps_bus (bedrock_call operation).
Proof.
  intros w r w'. unfold bedrock_call.
  destruct (gateway w); intros [= <- <-]; reflexivity.
Qed.

Lemma keeps_bus_utcnow_isoformat : keeps_bus utcnow_isoformat.
Proof.
  intros w r w'. unfold utcnow_isoformat. destruct (clock w); intros [= <- <-]; reflexivity.
Qed.

Lemma keeps_bus_retry {A} (func : M A) n :
  keeps_bus func -> keeps_bus (Proxy.exponential_backoff_retry func n).
Proof.
  intros Hf. induction n as [| n IH]; simpl; [apply keeps_bus_raise |].
  apply keeps_bus_try; [exact Hf |]. intros e.
  destruct (Proxy.is_throttling e); [| apply keeps_bus_raise].
  destruct n; [apply keeps_bus_raise | exact IH].
Qed.

Create HintDb bus.
#[export] Hint Resolve keeps_bus_ret keeps_bus_raise keeps_bus_lift keeps_bus_db_call
  keeps_bus_get_item keeps_bus_update_item_set keeps_bus_bedrock_call
  keeps_bus_utcnow_isoformat : bus.

Ltac bus_step :=
  first
    [ solve [auto with bus]
    | apply keeps_bus_retry
    | apply keeps_bus_bind; [| intros ?]
    | apply keeps_bus_try; [| intros ?]
    | match goal with
      | |- keeps_bus (if ?b then _ else _) => destruct b
      | |- keeps_bus (match ?x with _ => _ end) => destruct x
      | |- keeps_bus (let (_, _) := ?x in _) => destruct x
      end ].

Ltac bus := repeat bus_step.

(** ** Serving path: the steps of a request *)

Lemma preserves_retry {A} (func : M A) n :
  preserves_store func -> preserves_store (Proxy.exponential_backoff_retry func n).
Proof.
  intros Hf. induction n as [| n IH]; simpl; [frame |].
  apply preserves_try; [exact Hf |]. intros e.
  destruct (Proxy.is_throttling e); [| frame].
  destruct n; [frame | exact IH].
Qed.

(** a retry loop that returns does so from an attempt that returns *)
Lemma retry_inr {A} (func : M A) n : preserves_store func -> forall w a w',
  Proxy.exponential_backoff_retry func n w = (inr a, w') ->
  exists w0, table w0 = table w /\ trace w0 = trace w /\ func w0 = (inr a, w').
Proof.
  intros Hf. induction n as [| n IH]; intros w a w'; simpl.
  - unfold raise. intros [=].
  - unfold try_except. destruct (func w) as [[e | x] w1] eqn:Hfw.
    + destruct (Hf _ _ _ Hfw) as [Ht Htr].
      destruct (is_ClientError e); [| intros [=]].
      destruct (Proxy.is_throttling e); [| unfold raise; intros [=]].
      destruct n as [| n']; [unfold raise; intros [=] |].
      intros Hrest. apply IH in Hrest as (w0 & Ht0 & Htr0 & Hw0).
      exists w0. repeat split; congruence.
    + intros [= <- <-]. exists w. auto.
Qed.

Lemma get_item_inr p s w got w' :
  Env.get_item (Some p) (Some s) w = (inr got, w') -> got = table w !! (p, s).
Proof.
  unfold Env.get_item, bind.
  destruct (db_call w) as [[e | u] w1] eqn:Hdb; [intros [=] |].
  destruct (preserves_db_call _ _ _ Hdb) as [Htab _].
  intros [= <- _]. rewrite Htab. reflexivity.
Qed.

Lemma preserves_rmap {A B} (f : A -> result B) l : preserves_store (lift (rmap f l)).
Proof. apply preserves_lift. Qed.

Section ServingFacts.
Context `{Runtime}.











End ServingFacts.




(** ** Serving path: the event *)





(** * Further properties of the handlers *)

(** ** Sanitizing and the copy made before a write *)

Section SanitizeFacts.
Context `{Runtime}.

Lemma sanitize_decimal_free v : decimal_free (sanitize_for_json v) = true.
Proof.
  induction v using pyval_nested_ind; simpl; try reflexivity.
  - destruct (decimal_integral d); reflexivity.
  - induction H0 as [| x l Hx _ IH]; simpl; [reflexivity |].
    rewrite Hx. exact IH.
  - induction H0 as [| [k x] l Hx _ IH]; simpl; [reflexivity |].
    simpl in Hx. rewrite Hx. exact IH.
Qed.

Lemma sanitize_fixed v : decimal_free v = true -> sanitize_for_json v = v.
Proof.
  induction v using pyval_nested_ind; simpl; try reflexivity; try discriminate.
  - intros Hall. f_equal.
    induction H0 as [| x l Hx _ IH]; simpl in *; [reflexivity |].
    apply andb_prop in Hall as [Hd Hr]. rewrite (Hx Hd), (IH Hr). reflexivity.
  - intros Hall. f_equal.
    induction H0 as [| [k x] l Hx _ IH]; simpl in *; [reflexivity |].
    apply andb_prop in Hall as [Hd Hr]. rewrite (Hx Hd), (IH Hr). reflexivity.
Qed.

(** the copy of a value without Decimals does not raise, and holds no
    float exactly when every float of the value is finite *)
Lemma json_copy_storable v :
  decimal_free v = true ->
  exists item, json_copy false true v = inr item /\ float_free item = finite v.
Proof.
  induction v using pyval_nested_ind; simpl; try discriminate; eauto.
  - intros _. exists (reread_float true r). split; [reflexivity |].
    unfold reread_float. simpl. destruct (nonfinite r); reflexivity.
  - intros Hall.
    assert (exists l', copy_list false true l = inr l' /\
                       forallb float_free l' = forallb finite l)
      as (l' & Hl' & Hf).
    { induction H0 as [| x l Hx _ IH]; simpl in *; [eauto |].
      apply andb_prop in Hall as [Hd Hr].
      destruct (Hx Hd) as (x' & -> & Hfx). destruct (IH Hr) as (l' & -> & Hfl).
      exists (x' :: l'). simpl. rewrite Hfx, Hfl. auto. }
    unfold copy_list in Hl'. rewrite Hl'. eauto.
  - intros Hall.
    assert (exists l', copy_items false true kvs = inr l' /\
                       forallb (fun kv => float_free (snd kv)) l' =
                       forallb (fun kv => finite (snd kv)) kvs)
      as (l' & Hl' & Hf).
    { induction H0 as [| [k x] l Hx _ IH]; simpl in *; [eauto |].
      apply andb_prop in Hall as [Hd Hr].
      destruct (Hx Hd) as (x' & -> & Hfx). destruct (IH Hr) as (l' & -> & Hfl).
      exists ((k, x') :: l'). simpl. rewrite Hfx, Hfl. auto. }
    unfold copy_items in Hl'. rewrite Hl'. eauto.
Qed.

End SanitizeFacts.

(** X1 [sanitize_for_json]: the result holds no Decimal at any depth,
    sanitizing a second time changes nothing, and a value without a
    Decimal is returned as it is. *)
Theorem sanitize_removes_decimals `{Runtime} v :
  decimal_free (sanitize_for_json v) = true /\
  sanitize_for_json (sanitize_for_json v) = sanitize_for_json v /\
  (decimal_free v = true -> sanitize_for_json v = v).
Proof.
  split; [apply sanitize_decimal_free |].
  split; [apply sanitize_fixed, sanitize_decimal_free | apply sanitize_fixed].
Qed.

Lemma sanitize_removes_decimals_witness :
  decimal_free Sample.original = true /\
  sanitize_for_json (H := Lite.runtime) Sample.original = Sample.original.
Proof.
  split; [reflexivity |].
  apply (sanitize_removes_decimals (H := Lite.runtime) Sample.original). reflexivity.
Defined.

(** X2 The copy made before every put,
    [json.loads(json.dumps(sanitize_for_json(item)), parse_float=Decimal)]:
    on a sanitized value [json.dumps] never meets a Decimal, so the copy
    never raises.  What it returns holds no float exactly when every
    float of the sanitized value is finite: a finite float comes back as
    a Decimal, while [nan], [inf] and [-inf] come back as floats, and
    [put_item] then raises boto3's TypeError without calling the table. *)
Theorem sanitized_copy_is_storable `{Runtime} v :
  exists item,
    json_copy false true (sanitize_for_json v) = inr item /\
    float_free item = finite (sanitize_for_json v) /\
    (finite (sanitize_for_json v) = false ->
     forall w, put_item item w = (inl float_refused, w)).
Proof.
  destruct (json_copy_storable (sanitize_for_json v) (sanitize_decimal_free v))
    as (item & Hcopy & Hfree).
  exists item. split; [exact Hcopy |]. split; [exact Hfree |].
  intros Hfin w. unfold put_item. rewrite Hfree, Hfin. reflexivity.
Qed.

Lemma sanitized_copy_is_storable_witness :
  let v := PDict [("PK", PStr "AGENT#concierge"); ("SK", PStr "VERSION#1");
                  ("score", PFloat "0.5"); ("drift", PFloat "nan")] in
  let w := Sample.world [] [] in
  finite (H := Lite.runtime) (sanitize_for_json (H := Lite.runtime) v) = false /\
  exists item,
    json_copy (H := Lite.runtime) false true (sanitize_for_json (H := Lite.runtime) v)
      = inr item /\
    dict_get "score" item = Some (PDecimal "0.5") /\
    dict_get "drift" item = Some (PFloat "nan") /\
    put_item item w = (inl float_refused, w).
Proof.
  intros v w.
  assert (Hfin : finite (H := Lite.runtime) (sanitize_for_json (H := Lite.runtime) v)
                 = false) by reflexivity.
  split; [exact Hfin |].
  destruct (sanitized_copy_is_storable (H := Lite.runtime) v)
    as (item & Hcopy & _ & Hput).
  exists item. split; [exact Hcopy |].
  assert (Hitem : item = PDict [("PK", PStr "AGENT#concierge"); ("SK", PStr "VERSION#1");
                                ("score", PDecimal "0.5"); ("drift", PFloat "nan")]).
  { vm_compute in Hcopy. injection Hcopy as <-. reflexivity. }
  split; [rewrite Hitem; reflexivity |]. split; [rewrite Hitem; reflexivity |].
  exact (Hput Hfin w).
Defined.

(** ** Finding the JSON in a model reply *)

Lemma rindex_last c s n :
  rindex c s = Some n ->
  last_char (String.substring 0 (S n) s) = Some c.
Proof.
  revert n. induction s as [| a rest IH]; simpl; [discriminate |].
  intros n. destruct (rindex c rest) as [m |] eqn:Hr.
  - intros [= <-]. specialize (IH m eq_refl).
    simpl in IH. destruct rest as [| b rest']; [discriminate |].
    simpl. simpl in IH. exact IH.
  - destruct (Ascii.eqb_spec a c) as [-> |]; [| discriminate].
    intros [= <-]. simpl. destruct rest; reflexivity.
Qed.

Lemma rindex_prefix c s n :
  rindex c s = Some n ->
  exists post, s = String.substring 0 (S n) s +:+ post.
Proof.
  revert n. induction s as [| a rest IH]; simpl; [discriminate |].
  intros n. destruct (rindex c rest) as [m |] eqn:Hr.
  - intros [= <-]. destruct (IH m eq_refl) as (post & Hpost).
    exists post. change (String a rest = String a (String.substring 0 (S m) rest +:+ post)).
    f_equal. exact Hpost.
  - destruct (Ascii.eqb a c); [| discriminate].
    intros [= <-]. exists rest. simpl. destruct rest; reflexivity.
Qed.

Lemma rindex_none c s : mentions c s = false -> rindex c s = None.
Proof.
  induction s as [| a rest IH]; simpl; [reflexivity |].
  intros Hm. apply orb_false_elim in Hm as [Ha Hr].
  rewrite (IH Hr), Ha. reflexivity.
Qed.

Lemma startswith_head a s : startswith (String a s) (String a EmptyString) = true.
Proof.
  unfold startswith. simpl.
  destruct (ascii_dec a a); [destruct s; reflexivity | congruence].
Qed.

(** X3 The JSON extraction every agent shares,
    [re.search(r'(\{.*\}|\[.*\])', text, re.DOTALL)]: a match is a piece of
    the text that opens with a brace and ends with a closing brace, or
    opens with a bracket and ends with a closing bracket; a text without
    a closing brace or bracket has no match. *)
Theorem regex_json_span_shape text :
  (forall m, regex_json_span text = Some m ->
     (exists pre post, text = pre +:+ m +:+ post) /\
     ((startswith m "{" = true /\ last_char m = Some "}"%char) \/
      (startswith m "[" = true /\ last_char m = Some "]"%char))) /\
  (mentions "}" text = false -> mentions "]" text = false ->
   regex_json_span text = None).
Proof.
  split.
  - induction text as [| a rest IH]; simpl; [discriminate |].
    intros m.
    assert (Hrest : regex_json_span rest = Some m ->
              (exists pre post, String a rest = pre +:+ m +:+ post) /\
              ((startswith m "{" = true /\ last_char m = Some "}"%char) \/
               (startswith m "[" = true /\ last_char m = Some "]"%char))).
    { intros Hm. destruct (IH m Hm) as ((pre & post & Heq) & Hshape).
      split; [| exact Hshape]. exists (String a pre), post.
      change (String a rest = String a (pre +:+ m +:+ post)). f_equal. exact Heq. }
    assert (Hhere : forall c n,
              rindex c rest = Some n ->
              (exists pre post,
                 String a rest = pre +:+ String a (String.substring 0 (S n) rest) +:+ post) /\
              last_char (String a (String.substring 0 (S n) rest)) = Some c).
    { intros c n Hn. split.
      - destruct (rindex_prefix _ _ _ Hn) as (post & Hpost).
        exists EmptyString, post.
        change (String a rest = String a (String.substring 0 (S n) rest +:+ post)).
        f_equal. exact Hpost.
      - pose proof (rindex_last _ _ _ Hn) as Hl.
        destruct rest as [| b rest']; [discriminate |]. simpl in *. exact Hl. }
    destruct (Ascii.eqb_spec a "{") as [-> | Hbrace].
    + destruct (rindex "}" rest) as [n |] eqn:Hn; [| exact Hrest].
      intros [= <-]. destruct (Hhere _ _ Hn) as (Hsub & Hl).
      split; [exact Hsub |]. left. split; [apply startswith_head | exact Hl].
    + destruct (Ascii.eqb_spec a "[") as [-> | Hbracket]; [| exact Hrest].
      destruct (rindex "]" rest) as [n |] eqn:Hn; [| exact Hrest].
      intros [= <-]. destruct (Hhere _ _ Hn) as (Hsub & Hl).
      split; [exact Hsub |]. right. split; [apply startswith_head | exact Hl].
  - induction text as [| a rest IH]; simpl; [reflexivity |].
    intros Hb Hk.
    apply orb_false_elim in Hb as [_ Hb]. apply orb_false_elim in Hk as [_ Hk].
    destruct (Ascii.eqb a "{"); [rewrite (rindex_none _ _ Hb); apply IH; assumption |].
    destruct (Ascii.eqb a "["); [rewrite (rindex_none _ _ Hk) |]; apply IH; assumption.
Qed.

Lemma regex_json_span_shape_witness :
  regex_json_span "Here you go: [1, 2] and {3}. Bye" = Some "[1, 2]" /\
  exists pre post, "Here you go: [1, 2] and {3}. Bye" = pre +:+ "[1, 2]" +:+ post.
Proof.
  split; [reflexivity |].
  destruct (regex_json_span_shape "Here you go: [1, 2] and {3}. Bye") as [Hshape _].
  destruct (Hshape "[1, 2]" eq_refl) as [Hsub _]. exact Hsub.
Defined.

(** ** Computations that only read the table *)

Lemma same_outside_db_refl w : same_outside_db w w.
Proof. unfold same_outside_db. auto. Qed.

Lemma same_outside_db_trans w1 w2 w3 :
  same_outside_db w1 w2 -> same_outside_db w2 w3 -> same_outside_db w1 w3.
Proof.
  unfold same_outside_db. intros (? & ? & ? & ?) (? & ? & ? & ?).
  repeat split; congruence.
Qed.

Lemma reads_only_preserves {A} (m : M A) : reads_only m -> preserves_store m.
Proof. intros Hm w r w' Hrun. destruct (Hm _ _ _ Hrun) as (? & ? & _). auto. Qed.

Lemma reads_ret {A} (a : A) : reads_only (ret a).
Proof. intros w r w' [= _ <-]. auto using same_outside_db_refl. Qed.

Lemma reads_raise {A} (e : exn) : reads_only (raise (A := A) e).
Proof. intros w r w' [= _ <-]. auto using same_outside_db_refl. Qed.

Lemma reads_lift {A} (x : result A) : reads_only (lift x).
Proof. intros w r w' [= _ <-]. auto using same_outside_db_refl. Qed.

Lemma reads_bind {A B} (m : M A) (k : A -> M B) :
  reads_only m -> (forall a, reads_only (k a)) -> reads_only (bind m k).
Proof.
  intros Hm Hk w r w'. unfold bind.
  destruct (m w) as [[e | a] w1] eqn:Hrun; destruct (Hm _ _ _ Hrun) as (Ht & Htr & Hs).
  - intros [= <- <-]. auto.
  - intros Hrun2. destruct (Hk _ _ _ _ Hrun2) as (Ht2 & Htr2 & Hs2).
    split; [congruence | split; [congruence |]].
    eapply same_outside_db_trans; eassumption.
Qed.

Lemma reads_try {A} (m : M A) sel (h : exn -> M A) :
  reads_only m -> (forall e, reads_only (h e)) -> reads_only (try_except m sel h).
Proof.
  intros Hm Hh w r w'. unfold try_except.
  destruct (m w) as [[e | a] w1] eqn:Hrun; destruct (Hm _ _ _ Hrun) as (Ht & Htr & Hs).
  - destruct (sel e).
    + intros Hrun2. destruct (Hh _ _ _ _ Hrun2) as (Ht2 & Htr2 & Hs2).
      split; [congruence | split; [congruence |]].
      eapply same_outside_db_trans; eassumption.
    + intros [= <- <-]. auto.
  - intros [= <- <-]. auto.
Qed.

Lemma reads_db_call : reads_only db_call.
Proof.
  intros w [e | u] w' Hrun; [apply db_call_inl in Hrun | apply db_call_inr in Hrun];
    exact Hrun.
Qed.

Lemma reads_get_item pk sk : reads_only (Env.get_item pk sk).
Proof.
  unfold Env.get_item. destruct pk, sk; try apply reads_raise.
  apply reads_bind; [apply reads_db_call |].
  intros _ w r w' [= _ <-]. auto using same_outside_db_refl.
Qed.

Lemma reads_retry {A} (func : M A) n :
  reads_only func -> reads_only (Proxy.exponential_backoff_retry func n).
Proof.
  intros Hf. induction n as [| n IH]; simpl; [apply reads_raise |].
  apply reads_try; [exact Hf |]. intros e.
  destruct (Proxy.is_throttling e); [| apply reads_raise].
  destruct n; [apply reads_raise | exact IH].
Qed.

Create HintDb reads.
#[export] Hint Resolve reads_ret reads_raise reads_lift reads_db_call reads_get_item
  reads_retry : reads.

Ltac reads_step :=
  first
    [ solve [auto with reads]
    | apply reads_bind; [| intros ?]
    | apply reads_try; [| intros ?]
    | match goal with
      | |- reads_only (if ?b then _ else _) => destruct b
      | |- reads_only (match ?x with _ => _ end) => destruct x
      | |- reads_only (let (_, _) := ?x in _) => destruct x
      end ].

Ltac reads := repeat reads_step.

Section ReadFacts.
Context `{Runtime}.

Lemma reads_mutator_fetch_genome pk sk : reads_only (Mutator.fetch_genome pk sk).
Proof. unfold Mutator.fetch_genome. reads. Qed.

Lemma reads_judge_get_item pk sk : reads_only (Judge.get_item pk sk).
Proof. unfold Judge.get_item. reads. Qed.

Lemma reads_supervisor_get_item pk sk : reads_only (Supervisor.get_item pk sk).
Proof. unfold Supervisor.get_item. reads. Qed.

Lemma reads_resolve_active_genome pk : reads_only (Proxy.resolve_active_genome pk).
Proof. unfold Proxy.resolve_active_genome. reads. Qed.

Lemma reads_get_chat_history pk version_sk chat_id :
  reads_only (Proxy.get_chat_history pk version_sk chat_id).
Proof. unfold Proxy.get_chat_history. reads. Qed.

End ReadFacts.

(** ** The Mutator: what a round writes and returns *)

Lemma challenger_puts_nil keys : Notions.challenger_puts keys [] = [].
Proof. destruct keys; reflexivity. Qed.

Section MutatorRound.
Context `{Runtime}.

(** whatever the outcome of the loop, the puts that went through are
    those of the first keys of the round, in order *)
Lemma write_loop_outcome original ci ts base muts : forall i acc w r w',
  Mutator.write_loop original ci ts base i muts acc w = (r, w') ->
  exists written,
    (length written <= length muts)%nat /\
    Forall (fun pi => Mutator.written_pk original (fst pi)) written /\
    (forall sks, r = inr sks ->
       sks = acc ++ Mutator.loop_keys ts base i (length muts) /\
       length written = length muts) /\
    trace w' = trace w ++ Notions.challenger_puts
                            (Mutator.loop_keys ts base i (length muts)) written /\
    table w' = Notions.replay
                 (Notions.challenger_puts
                    (Mutator.loop_keys ts base i (length muts)) written) (table w) /\
    same_outside_db w w'.
Proof.
  induction muts as [| m rest IH]; intros i acc w r w' Hrun; simpl in Hrun.
  - injection Hrun as <- <-. exists []. simpl. rewrite !app_nil_r.
    split; [lia |]. split; [constructor |]. split.
    + intros sks [= <-]. auto.
    + repeat split.
  - assert (Hstop : forall e w0,
              table w0 = table w -> trace w0 = trace w -> same_outside_db w w0 ->
              (inl e, w0) = (r, w') ->
              exists written : list (string * pyval),
                (length written <= length (m :: rest))%nat /\
                Forall (fun pi => Mutator.written_pk original (fst pi)) written /\
                (forall sks, r = inr sks ->
                   sks = acc ++ Mutator.loop_keys ts base i (length (m :: rest)) /\
                   length written = length (m :: rest)) /\
                trace w' = trace w ++ Notions.challenger_puts
                             (Mutator.loop_keys ts base i (length (m :: rest))) written /\
                table w' = Notions.replay
                             (Notions.challenger_puts
                                (Mutator.loop_keys ts base i (length (m :: rest))) written)
                             (table w) /\
                same_outside_db w w').
    { intros e w0 Ht Htr Hsame [= <- <-]. exists [].
      rewrite challenger_puts_nil, app_nil_r. simpl.
      split; [lia |]. split; [constructor |]. split; [discriminate |]. auto. }
    unfold bind at 1, lift at 1 in Hrun.
    destruct (Mutator.assemble_complete_genome original m ci
                (Mutator.challenger_sk ts (base + i))) as [e | ch] eqn:Hch.
    { eapply Hstop; eauto using same_outside_db_refl. }
    unfold bind at 1, lift at 1 in Hrun.
    destruct (json_copy false true (sanitize_for_json ch)) as [e | item] eqn:Hit.
    { eapply Hstop; eauto using same_outside_db_refl. }
    unfold bind at 1 in Hrun.
    destruct (put_item item w) as [[e | u] w3] eqn:Hput.
    { apply put_item_inl in Hput as (Ht & Htr & Hsame). eapply Hstop; eauto. }
    assert (Hstep : (let! challenger_genome :=
               lift (Mutator.assemble_complete_genome original m ci
                       (Mutator.challenger_sk ts (base + i))) in
             let! item_to_write :=
               lift (json_copy false true (sanitize_for_json challenger_genome)) in
             put_item item_to_write) w = (inr u, w3)).
    { unfold bind at 1, lift at 1. rewrite Hch. unfold bind at 1, lift at 1.
      rewrite Hit. exact Hput. }
    apply challenger_put in Hstep as (p & it & Hp & Ht & Htr & Hsame).
    apply IH in Hrun as (written & Hlen & Hall & Hret & Htr' & Ht' & Hsame').
    exists ((p, it) :: written). simpl.
    split; [lia |]. split; [constructor; assumption |]. split; [| split; [| split]].
    + intros sks Hsks. destruct (Hret sks Hsks) as [-> ->].
      rewrite <- app_assoc. auto.
    + rewrite Htr', Htr, <- app_assoc. reflexivity.
    + rewrite Ht', Ht. reflexivity.
    + eapply same_outside_db_trans; eassumption.
Qed.

End MutatorRound.

Lemma original_timestamp_run `{Runtime} original w :
  exists ts w1,
    Mutator.original_timestamp original w = (inr ts, w1) /\
    table w1 = table w /\ trace w1 = trace w.
Proof.
  assert (Hnow : exists ts w1, utcnow_isoformat w = (inr ts, w1) /\
                               table w1 = table w /\ trace w1 = trace w).
  { unfold utcnow_isoformat. destruct (clock w); eauto. }
  unfold Mutator.original_timestamp.
  destruct (dict_get "SK" original) as [[| | | | | sk | |] |]; try exact Hnow.
  destruct (split_on "#" sk) as [| a [| ts rest]]; try exact Hnow.
  unfold ret. eauto.
Qed.

(** X4 At most a prefix of a round reaches the table.  However
    [write_complete_challengers] ends, the puts that went through are
    those of the first keys of the round, in order and under the parent's
    partition key, and nothing else was written: a put that fails leaves
    the challengers before it in the table.  When the function returns,
    every key of the round was written. *)
Theorem challenger_writes_are_a_prefix `{Runtime} original muts ci retry_count w r w' :
  Mutator.write_complete_challengers original (PList muts) ci retry_count w = (r, w') ->
  exists ts written,
    let keys :=
      Mutator.loop_keys ts (Mutator.base_attempt retry_count) 0 (length muts) in
    (length written <= length muts)%nat /\
    Forall (fun pi => Mutator.written_pk original (fst pi)) written /\
    (forall sks, r = inr sks -> sks = keys /\ length written = length muts) /\
    trace w' = trace w ++ Notions.challenger_puts keys written /\
    table w' = Notions.replay (Notions.challenger_puts keys written) (table w).
Proof.
  intros Hrun. unfold Mutator.write_complete_challengers, bind at 1 in Hrun.
  destruct (original_timestamp_run original w) as (ts & w1 & Hts & Ht & Htr).
  rewrite Hts in Hrun. unfold bind at 1, lift at 1 in Hrun. simpl py_iter in Hrun.
  apply write_loop_outcome in Hrun as (written & Hlen & Hall & Hret & Htr' & Ht' & _).
  exists ts, written. simpl. rewrite <- Ht, <- Htr. auto.
Qed.

Lemma challenger_writes_are_a_prefix_witness :
  let w := set_db_faults [None; Some (Sample.internal_error "PutItem")]
             (Sample.world [] []) in
  let run := Mutator.write_complete_challengers (H := Lite.runtime)
               Sample.original Sample.mutations Sample.critic_issue 0 w in
  fst run = inl (Sample.internal_error "PutItem") /\
  length (trace (snd run)) = 1%nat /\
  exists ts written,
    (length written <= 3)%nat /\
    trace (snd run) = Notions.challenger_puts (Mutator.loop_keys ts 1 0 3) written.
Proof.
  intros w run. split; [vm_compute; reflexivity |]. split; [vm_compute; reflexivity |].
  destruct (challenger_writes_are_a_prefix (H := Lite.runtime)
              Sample.original [Sample.brain "Strict"; Sample.brain "Warm"; Sample.brain "Brief"]
              Sample.critic_issue 0 w (fst run) (snd run) (surjective_pairing run))
    as (ts & written & Hlen & _ & _ & Htr & _).
  exists ts, written. split; [exact Hlen | exact Htr].
Defined.

Section MutatorHandler.
Context `{Runtime}.

Lemma preserves_generate_mutations original ci retry_count :
  preserves_store (Mutator.generate_mutations original ci retry_count).
Proof. unfold Mutator.generate_mutations. frame. Qed.

Lemma generate_fallback_mutations_inr brain v :
  Mutator.generate_fallback_mutations brain = inr v ->
  exists m1 m2 m3, v = PList [m1; m2; m3].
Proof.
  unfold Mutator.generate_fallback_mutations. intros Hrun.
  apply rbind_inr in Hrun as (safe & _ & Hrun).
  apply rbind_inr in Hrun as (m1 & _ & Hrun).
  apply rbind_inr in Hrun as (m2 & _ & Hrun).
  apply rbind_inr in Hrun as (m3 & _ & Hrun).
  injection Hrun as <-. eauto.
Qed.

Lemma py_iter_three mutations :
  py_len mutations = inr 3 -> exists a b c, py_iter mutations = inr [a; b; c].
Proof.
  destruct mutations as [| | | | | s | l | kvs]; simpl; try discriminate; intros [= Hlen].
  - destruct s as [| a [| b [| c [| d s]]]]; simpl in Hlen; try lia. simpl. eauto.
  - destruct l as [| a [| b [| c [| d l]]]]; simpl in Hlen; try lia. eauto.
  - destruct kvs as [| a [| b [| c [| d l]]]]; simpl in Hlen; try lia. simpl. eauto.
Qed.

Lemma checked_mutations_inr original ci retry_count w mutations w' :
  Mutator.checked_mutations original ci retry_count w = (inr mutations, w') ->
  (exists a b c, py_iter mutations = inr [a; b; c]) /\
  table w' = table w /\ trace w' = trace w.
Proof.
  unfold Mutator.checked_mutations. intros Hrun.
  apply bind_inr in Hrun as (m0 & w1 & Hgen & Hrun).
  apply preserves_generate_mutations in Hgen as [Ht Htr].
  apply bind_inr in Hrun as (n & w2 & Hlen & Hrun). apply lift_inr in Hlen as [Hlen ->].
  destruct (Z.eqb_spec n 3) as [-> | Hne]; simpl in Hrun.
  - apply ret_inr in Hrun as [-> ->]. split; [apply py_iter_three; exact Hlen | auto].
  - apply bind_inr in Hrun as (brain & w3 & Hb & Hrun).
    apply lift_inr in Hb as [_ ->]. apply lift_inr in Hrun as [Hfb ->].
    apply generate_fallback_mutations_inr in Hfb as (m1 & m2 & m3 & ->).
    split; [simpl; eauto | auto].
Qed.

End MutatorHandler.

(** X5 Whenever the Mutator handler returns, it has written exactly
    three challengers and returns their three keys: attempts 1 to 3 of the
    parent's version in round 0, attempts 4 to 6 in a later round.  The
    parent is the stored item at the event's key. *)
Theorem mutator_returns_three_keys `{Runtime} event w result w' :
  Mutator.lambda_handler event w = (inr result, w') ->
  exists p s stored ts written,
    let b := Mutator.base_attempt
               match Mutator.retryCount event with Some r => r | None => 0 end in
    let keys := [Mutator.challenger_sk ts b; Mutator.challenger_sk ts (b + 1);
                 Mutator.challenger_sk ts (b + 2)] in
    Mutator.pk event = Some p /\ Mutator.genome_sk event = Some s /\
    table w !! (p, s) = Some stored /\
    result = PDict [("challenger_sks", PList (map PStr keys))] /\
    length written = 3%nat /\
    Forall (fun pi => Mutator.written_pk (sanitize_for_json stored) (fst pi)) written /\
    trace w' = trace w ++ Notions.challenger_puts keys written /\
    table w' = Notions.replay (Notions.challenger_puts keys written) (table w).
Proof.
  unfold Mutator.lambda_handler. intros Hrun.
  apply bind_inr in Hrun as (p & w1 & Hp & Hrun). apply lift_inr in Hp as [Hp ->].
  apply bind_inr in Hrun as (s & w1 & Hs & Hrun). apply lift_inr in Hs as [Hs ->].
  destruct (Mutator.pk event) as [p0 |]; [injection Hp as -> | discriminate].
  destruct (Mutator.genome_sk event) as [s0 |]; [injection Hs as -> | discriminate].
  apply bind_inr in Hrun as (original & w1 & Hfetch & Hrun).
  apply bind_inr in Hrun as (mutations & w2 & Hmut & Hrun).
  apply bind_inr in Hrun as (sks & w3 & Hwrite & Hrun).
  apply lift_inr in Hrun as [Hres ->].
  pose proof (reads_mutator_fetch_genome _ _ _ _ _ Hfetch) as (Ht1 & Htr1 & _).
  unfold Mutator.fetch_genome in Hfetch.
  apply bind_inr in Hfetch as (got & w0 & Hget & Hfetch).
  apply get_item_inr in Hget as ->.
  destruct (table w !! (p, s)) as [stored |] eqn:Hstored; [| discriminate].
  apply ret_inr in Hfetch as [-> _].
  apply checked_mutations_inr in Hmut as ((a & b & c & Hiter) & Ht2 & Htr2).
  unfold Mutator.write_complete_challengers, bind at 1 in Hwrite.
  destruct (original_timestamp_run (sanitize_for_json stored) w2)
    as (ts & w4 & Hts & Ht4 & Htr4).
  rewrite Hts in Hwrite. unfold bind at 1, lift at 1 in Hwrite. rewrite Hiter in Hwrite.
  apply write_loop_outcome in Hwrite as (written & _ & Hall & Hret & Htr' & Ht' & _).
  destruct (Hret sks eq_refl) as [-> Hlen].
  cbn [length Mutator.loop_keys app Z.add] in *. rewrite Z.add_0_r in *.
  exists p, s, stored, ts, written.
  rewrite Htr', Ht', Ht4, Htr4, Ht2, Htr2, Ht1, Htr1.
  repeat split; try assumption; try reflexivity.
  rewrite json_copy_id in Hres by reflexivity. injection Hres as <-. reflexivity.
Qed.

Lemma mutator_returns_three_keys_witness :
  let w := Sample.world [(Sample.parent_key, Sample.parent)] [] in
  let run := Mutator.lambda_handler (H := Lite.runtime) Sample.mutator_event w in
  fst run = inr (PDict [("challenger_sks", PList [
    PStr "VERSION#2025-01-01T00:00:00#CHALLENGER#attempt-1";
    PStr "VERSION#2025-01-01T00:00:00#CHALLENGER#attempt-2";
    PStr "VERSION#2025-01-01T00:00:00#CHALLENGER#attempt-3" ])]) /\
  exists ts written,
    length written = 3%nat /\
    trace (snd run) =
      Notions.challenger_puts
        [Mutator.challenger_sk ts 1; Mutator.challenger_sk ts (1 + 1);
         Mutator.challenger_sk ts (1 + 2)] written.
Proof.
  intros w run.
  assert (H0 : fst run = inr (PDict [("challenger_sks", PList [
    PStr "VERSION#2025-01-01T00:00:00#CHALLENGER#attempt-1";
    PStr "VERSION#2025-01-01T00:00:00#CHALLENGER#attempt-2";
    PStr "VERSION#2025-01-01T00:00:00#CHALLENGER#attempt-3" ])]))
    by (vm_compute; reflexivity).
  split; [exact H0 |].
  destruct (mutator_returns_three_keys (H := Lite.runtime) _ _ _ _ (run_returns _ _ _ H0))
    as (p & s & stored & ts & written & _ & _ & _ & _ & Hlen & _ & Htr & _).
  exists ts, written. split; [exact Hlen | exact Htr].
Defined.

(** X6 A parent that is not in the table stops the Mutator at its first
    step: the handler raises (a [ValueError] naming the key when the read
    itself went through), nothing is written, and Bedrock, the clock and
    the event bus are not touched. *)
Theorem mutator_missing_genome `{Runtime} event p s w :
  Mutator.pk event = Some p -> Mutator.genome_sk event = Some s ->
  table w !! (p, s) = None ->
  let run := Mutator.lambda_handler event w in
  (exists e, fst run = inl e /\
     (next_db_call_fails w = false ->
      e = ValueError ("Genome not found: " +:+ p +:+ " / " +:+ s))) /\
  table (snd run) = table w /\ trace (snd run) = trace w /\
  same_outside_db w (snd run).
Proof.
  intros Hp Hs Hnone.
  unfold Mutator.lambda_handler, Mutator.fetch_genome, Env.get_item, next_db_call_fails.
  rewrite Hp, Hs. unfold bind, lift, db_call, raise, same_outside_db.
  destruct (db_faults w) as [| [e |] rest]; simpl; rewrite ?Hnone; simpl;
    (split; [eexists; split; [reflexivity | intros; try discriminate; reflexivity]
            | repeat split]).
Qed.

Lemma mutator_missing_genome_witness :
  let run := Mutator.lambda_handler (H := Lite.runtime) Sample.mutator_event
               (Sample.world [] [inr "unused"]) in
  fst run = inl (ValueError
    "Genome not found: AGENT#concierge / VERSION#2025-01-01T00:00:00") /\
  gateway (snd run) = [inr "unused"].
Proof.
  destruct (mutator_missing_genome (H := Lite.runtime) Sample.mutator_event
              "AGENT#concierge" "VERSION#2025-01-01T00:00:00"
              (Sample.world [] [inr "unused"]) eq_refl eq_refl eq_refl)
    as ((e & He & Hmsg) & _ & _ & Hgw & _).
  split; [rewrite He, (Hmsg eq_refl); reflexivity | exact Hgw].
Defined.

(** X7 The fallback mutations.  For a brain with a persona object and
    the two guideline lists, [generate_fallback_mutations] returns three
    variants of the copied brain: the tone gets the suffix (Stricter),
    (Empathetic) or (Concise), one fixed line is appended to the
    operational guidelines (first two) or to the style guide (third), and
    every other entry of the brain is kept. *)
Theorem fallback_mutations_vary_one_list `{Runtime} original_brain persona guidelines style :
  dict_get "persona" original_brain = Some (PDict persona) ->
  dict_get "operational_guidelines" original_brain = Some (PList guidelines) ->
  dict_get "style_guide" original_brain = Some (PList style) ->
  exists safe m1 m2 m3,
    json_copy true false original_brain = inr (PDict safe) /\
    Mutator.generate_fallback_mutations original_brain = inr (PList [m1; m2; m3]) /\
    Notions.fallback_of safe " (Stricter)" "operational_guidelines"
      "Strictly adhere to the provided policy." m1 /\
    Notions.fallback_of safe " (Empathetic)" "operational_guidelines"
      "Ensure the user feels heard and understood." m2 /\
    Notions.fallback_of safe " (Concise)" "style_guide"
      "Keep responses under 2 sentences when possible." m3.
Proof.
  intros Hp Hg Hs.
  destruct original_brain as [| | | | | | | kvs]; try discriminate.
  simpl in Hp, Hg, Hs.
  unfold Mutator.generate_fallback_mutations.
  destruct (json_copy_encoder_total false (PDict kvs)) as [safe Hsafe].
  rewrite Hsafe. simpl.
  pose proof (json_copy_decimal_free _ _ _ Hsafe) as Hfree.
  rewrite json_copy_dict in Hsafe.
  destruct (copy_items true false kvs) as [e | kvs'] eqn:Hcopy; [discriminate |].
  injection Hsafe as <-.
  pose proof (copy_items_get _ _ _ _ "persona" Hcopy) as Hp'.
  pose proof (copy_items_get _ _ _ _ "operational_guidelines" Hcopy) as Hg'.
  pose proof (copy_items_get _ _ _ _ "style_guide" Hcopy) as Hs'.
  rewrite Hp in Hp'. rewrite Hg in Hg'. rewrite Hs in Hs'.
  destruct Hp' as (p' & Hcp & Hp'). destruct Hg' as (g' & Hcg & Hg').
  destruct Hs' as (s' & Hcs & Hs').
  rewrite json_copy_dict in Hcp.
  destruct (copy_items true false persona) as [e | persona'] eqn:Hcpp; [discriminate |].
  injection Hcp as <-.
  rewrite json_copy_list in Hcg.
  destruct (copy_list true false guidelines) as [e | guidelines']; [discriminate |].
  injection Hcg as <-.
  rewrite json_copy_list in Hcs.
  destruct (copy_list true false style) as [e | style']; [discriminate |].
  injection Hcs as <-.
  assert (Hvariant : forall suffix list_key line lines,
            assoc_get list_key kvs' = Some (PList lines) -> list_key <> "persona" ->
            exists m,
              Mutator.fallback_variant (PDict kvs') suffix list_key line = inr m /\
              Notions.fallback_of kvs' suffix list_key line m).
  { intros suffix list_key line lines Hlines Hne.
    destruct (fallback_variant_returns (PDict kvs') suffix list_key line kvs' persona'
                lines Hfree eq_refl Hp' Hlines Hne) as (tone & Htone & ->).
    eexists. split; [reflexivity |].
    exists persona', tone, lines. repeat split; try assumption.
    - simpl. rewrite assoc_get_set_ne by congruence. apply assoc_get_set_eq.
    - simpl. apply assoc_get_set_eq.
    - intros k Hk1 Hk2. simpl. rewrite !assoc_get_set_ne by congruence. reflexivity. }
  destruct (Hvariant " (Stricter)" "operational_guidelines"
              "Strictly adhere to the provided policy." _ Hg' ltac:(discriminate))
    as (m1 & -> & H1).
  destruct (Hvariant " (Empathetic)" "operational_guidelines"
              "Ensure the user feels heard and understood." _ Hg' ltac:(discriminate))
    as (m2 & -> & H2).
  destruct (Hvariant " (Concise)" "style_guide"
              "Keep responses under 2 sentences when possible." _ Hs' ltac:(discriminate))
    as (m3 & -> & H3).
  simpl. exists kvs', m1, m2, m3. auto.
Qed.

Lemma fallback_mutations_vary_one_list_witness :
  exists brain safe m1 m2 m3,
    py_item Sample.original "brain" = inr brain /\
    Mutator.generate_fallback_mutations (H := Lite.runtime) brain
      = inr (PList [m1; m2; m3]) /\
    Notions.fallback_of (H := Lite.runtime) safe " (Concise)" "style_guide"
      "Keep responses under 2 sentences when possible." m3.
Proof.
  eexists.
  edestruct (fallback_mutations_vary_one_list (H := Lite.runtime)
               (PDict [
                  ("persona", PDict [("role", PStr "Concierge"); ("tone", PStr "Professional")]);
                  ("style_guide", PList []);
                  ("objectives", PList [PStr "Help the guest"]);
                  ("operational_guidelines", PList []) ])
               _ _ _ eq_refl eq_refl eq_refl)
    as (safe & m1 & m2 & m3 & _ & Hrun & _ & _ & H3).
  exists safe, m1, m2, m3. split; [reflexivity |]. split; [exact Hrun | exact H3].
Defined.

(** X8 The fallback is not a safety net for every brain: when the brain
    has no persona entry, [generate_fallback_mutations] raises
    [KeyError('persona')], so a Bedrock failure or an unusable reply makes
    [generate_mutations] raise instead of returning three mutations. *)
Theorem fallback_needs_persona `{Runtime} original_genome critic_issue retry_count
    brain_fields rule reason w e :
  py_item original_genome "brain" = inr (PDict brain_fields) ->
  py_item critic_issue "rule" = inr rule ->
  py_item critic_issue "reason" = inr reason ->
  assoc_get "persona" brain_fields = None ->
  Mutator.generated w = inl e ->
  Mutator.generate_fallback_mutations (PDict brain_fields) = inl (KeyError "persona") /\
  fst (Mutator.generate_mutations original_genome critic_issue retry_count w)
    = inl (KeyError "persona").
Proof.
  intros Hbrain Hrule Hreason Hnone Hgen.
  assert (Hfb : Mutator.generate_fallback_mutations (PDict brain_fields)
                = inl (KeyError "persona")).
  { unfold Mutator.generate_fallback_mutations.
    destruct (json_copy_encoder_total false (PDict brain_fields)) as [safe Hsafe].
    rewrite Hsafe. simpl.
    pose proof (json_copy_decimal_free _ _ _ Hsafe) as Hfree.
    rewrite json_copy_dict in Hsafe.
    destruct (copy_items true false brain_fields) as [e0 | kvs'] eqn:Hcopy; [discriminate |].
    injection Hsafe as <-.
    pose proof (copy_items_get _ _ _ _ "persona" Hcopy) as Hp'. rewrite Hnone in Hp'.
    unfold Mutator.fallback_variant. rewrite (json_copy_id false _ Hfree). simpl.
    rewrite Hp'. reflexivity. }
  split; [exact Hfb |].
  rewrite (generate_mutations_run _ _ _ _ _ retry_count Hbrain Hrule Hreason).
  rewrite Hgen. exact Hfb.
Qed.

Lemma fallback_needs_persona_witness :
  fst (Mutator.generate_mutations (H := Lite.runtime)
         (PDict [("brain", PDict [("objectives", PList [])])])
         Sample.critic_issue 0 (Sample.world [] []))
  = inl (KeyError "persona").
Proof.
  apply (fallback_needs_persona (H := Lite.runtime)
           (PDict [("brain", PDict [("objectives", PList [])])])
           Sample.critic_issue 0 [("objectives", PList [])]
           (PStr "Never promise a refund.") (PStr "The agent promised a refund.")
           (Sample.world [] []) (unavailable "Converse")
           eq_refl eq_refl eq_refl eq_refl eq_refl).
Defined.

(** ** The key grammar of a round *)

Lemma split_on_absent c s : mentions c s = false -> split_on c s = [s].
Proof.
  induction s as [| a rest IH]; simpl; [reflexivity |].
  intros Hm. apply orb_false_elim in Hm as [-> Hr]. rewrite (IH Hr). reflexivity.
Qed.

Lemma startswith_app (pre s : string) : startswith (pre +:+ s) pre = true.
Proof.
  unfold startswith. induction pre as [| a pre IH].
  - destruct s; reflexivity.
  - change (String.prefix (String a pre) (String a (pre +:+ s)) = true). simpl.
    destruct (ascii_dec a a); [exact IH | congruence].
Qed.

Lemma append_assoc (a b c : string) : (a +:+ b) +:+ c = a +:+ (b +:+ c).
Proof.
  induction a as [| x a IH]; [reflexivity |].
  change (String x ((a +:+ b) +:+ c) = String x (a +:+ (b +:+ c))).
  f_equal. exact IH.
Qed.

Lemma loop_keys_prefix ts base n : forall i,
  Forall (fun k => startswith k ("VERSION#" +:+ ts +:+ "#CHALLENGER#attempt-") = true)
         (Mutator.loop_keys ts base i n).
Proof.
  induction n as [| n IH]; intros i; simpl; constructor; [| apply IH].
  unfold Mutator.challenger_sk.
  change ("VERSION#" +:+ ts +:+ "#CHALLENGER#attempt-" +:+ str_of_int (base + i))
    with (String "V" (String "E" (String "R" (String "S" (String "I" (String "O"
            (String "N" (String "#"
              (ts +:+ "#CHALLENGER#attempt-" +:+ str_of_int (base + i)))))))))).
  change ("VERSION#" +:+ ts +:+ "#CHALLENGER#attempt-")
    with (String "V" (String "E" (String "R" (String "S" (String "I" (String "O"
            (String "N" (String "#" (ts +:+ "#CHALLENGER#attempt-"))))))))).
  unfold startswith. simpl.
  rewrite <- append_assoc. apply (startswith_app (ts +:+ "#CHALLENGER#attempt-")).
Qed.

(** X9 Challenger keys extend the parent's key.  For a parent stored
    under [VERSION#<ts>] with no further [#] in [ts], every key a round
    returns starts with the parent's sort key followed by
    [#CHALLENGER#attempt-], and the clock is not read to build it. *)
Theorem challenger_keys_extend_parent_key `{Runtime}
    original ts muts ci retry_count w sks w' :
  dict_get "SK" original = Some (PStr ("VERSION#" +:+ ts)) ->
  mentions "#" ts = false ->
  Mutator.write_complete_challengers original (PList muts) ci retry_count w
    = (inr sks, w') ->
  Forall (fun k => startswith k ("VERSION#" +:+ ts +:+ "#CHALLENGER#attempt-") = true) sks /\
  length sks = length muts /\
  clock w' = clock w.
Proof.
  intros Hsk Hts Hrun.
  assert (Hsplit : split_on "#" ("VERSION#" +:+ ts) = ["VERSION"; ts]).
  { change ("VERSION#" +:+ ts)
      with (String "V" (String "E" (String "R" (String "S" (String "I" (String "O"
              (String "N" (String "#" ts)))))))).
    simpl. rewrite (split_on_absent _ _ Hts). reflexivity. }
  apply write_complete_challengers_inr in Hrun as (ts' & w1 & Hstamp & Hloop & ->).
  rewrite (original_timestamp_of_sk _ _ _ _ _ w Hsk Hsplit) in Hstamp.
  injection Hstamp as <- <-.
  apply write_loop_outcome in Hloop as (_ & _ & _ & _ & _ & _ & _ & _ & _ & Hclock).
  split; [apply loop_keys_prefix |]. split; [| exact Hclock].
  generalize 0. induction muts as [| m rest IH]; intros i; simpl; [reflexivity |].
  f_equal. apply IH.
Qed.

Lemma challenger_keys_extend_parent_key_witness :
  let run := Mutator.write_complete_challengers (H := Lite.runtime)
               Sample.original Sample.mutations Sample.critic_issue 1
               (Sample.world [] []) in
  exists sks,
    fst run = inr sks /\ length sks = 3%nat /\
    Forall (fun k => startswith k "VERSION#2025-01-01T00:00:00#CHALLENGER#attempt-" = true)
           sks.
Proof.
  intros run.
  assert (H0 : fst run = inr ["VERSION#2025-01-01T00:00:00#CHALLENGER#attempt-4";
                              "VERSION#2025-01-01T00:00:00#CHALLENGER#attempt-5";
                              "VERSION#2025-01-01T00:00:00#CHALLENGER#attempt-6"])
    by (vm_compute; reflexivity).
  eexists. split; [exact H0 |].
  destruct (challenger_keys_extend_parent_key (H := Lite.runtime)
              Sample.original "2025-01-01T00:00:00"
              [Sample.brain "Strict"; Sample.brain "Warm"; Sample.brain "Brief"]
              Sample.critic_issue 1 (Sample.world [] []) _ _
              eq_refl eq_refl (run_returns _ _ _ H0)) as (Hall & Hlen & _).
  split; [exact Hlen | exact Hall].
Defined.

(** X10 The economics of a Challenger.  Whenever
    [assemble_complete_genome] returns, the Challenger's economics are
    reset: likes and dislikes are 0, the token budget is the parent's
    (600 when the parent gives none), the cost is the placeholder, and
    the input token count is [estimate_token_count] of the system prompt
    built from the mutated brain and the parent's resources and
    capabilities: a quarter of the prompt's length, rounded down. *)
Theorem challenger_economics_are_reset `{Runtime}
    original mutation_brain critic_issue sk ch :
  Mutator.assemble_complete_genome original mutation_brain critic_issue sk = inr ch ->
  exists resources capabilities prompt original_econ token_budget,
    py_get original "resources" (PDict []) = inr resources /\
    py_get original "capabilities" (PDict []) = inr capabilities /\
    construct_system_prompt (PDict [
      ("brain", mutation_brain);
      ("resources", resources);
      ("capabilities", capabilities) ]) = inr prompt /\
    py_get original "economics" (PDict []) = inr original_econ /\
    py_get original_econ "token_budget" (PInt 600) = inr token_budget /\
    dict_get "economics" ch = Some (PDict [
      ("likes", PInt 0);
      ("dislikes", PInt 0);
      ("input_token_count", PInt (Mutator.estimate_token_count prompt));
      ("token_budget", token_budget);
      ("estimated_cost_of_calling", PStr "$0.001") ]) /\
    (let n := Mutator.estimate_token_count prompt in
     let len := Z.of_nat (String.length prompt) in
     0 <= n /\ 4 * n <= len < 4 * n + 4).
Proof.
  unfold Mutator.assemble_complete_genome. intros Ha.
  apply rbind_inr in Ha as (original_meta & _ & Ha).
  apply rbind_inr in Ha as (name & _ & Ha).
  apply rbind_inr in Ha as (description & _ & Ha).
  apply rbind_inr in Ha as (parent_hash & _ & Ha).
  apply rbind_inr in Ha as (mutation_reason & _ & Ha).
  apply rbind_inr in Ha as (config & _ & Ha).
  apply rbind_inr in Ha as (resources & Hres & Ha).
  apply rbind_inr in Ha as (capabilities & Hcap & Ha).
  apply rbind_inr in Ha as (evolution_config & _ & Ha).
  apply rbind_inr in Ha as (original_econ & Hecon & Ha).
  apply rbind_inr in Ha as (prompt & Hprompt & Ha).
  apply rbind_inr in Ha as (token_budget & Htb & Ha).
  apply rbind_inr in Ha as (original_pk & _ & Ha).
  injection Ha as <-.
  exists resources, capabilities, prompt, original_econ, token_budget.
  repeat (split; [assumption |]). split; [reflexivity |].
  unfold Mutator.estimate_token_count.
  destruct (String.eqb_spec prompt "") as [-> | _]; simpl; [lia |].
  pose proof (Z.div_mod (Z.of_nat (String.length prompt)) 4 ltac:(lia)) as Hdm.
  pose proof (Z.mod_pos_bound (Z.of_nat (String.length prompt)) 4 ltac:(lia)) as Hb.
  split; [apply Z.div_pos; lia | lia].
Qed.

Lemma challenger_economics_are_reset_witness :
  exists ch,
    Mutator.assemble_complete_genome (H := Lite.runtime) Sample.original
      (Sample.brain "Warm") Sample.critic_issue
      "VERSION#2025-01-01T00:00:00#CHALLENGER#attempt-1" = inr ch /\
    dict_get "economics" Sample.original
      = Some (PDict [("likes", PInt 2); ("dislikes", PInt 1);
                     ("token_budget", PInt 600)]) /\
    dict_get "economics" ch = Some (PDict [
      ("likes", PInt 0);
      ("dislikes", PInt 0);
      ("input_token_count", PInt 56);
      ("token_budget", PInt 600);
      ("estimated_cost_of_calling", PStr "$0.001") ]).
Proof.
  destruct (Mutator.assemble_complete_genome (H := Lite.runtime) Sample.original
              (Sample.brain "Warm") Sample.critic_issue
              "VERSION#2025-01-01T00:00:00#CHALLENGER#attempt-1") as [e | ch] eqn:Hch;
    [vm_compute in Hch; discriminate |].
  exists ch. split; [reflexivity |]. split; [vm_compute; reflexivity |].
  destruct (challenger_economics_are_reset (H := Lite.runtime) _ _ _ _ _ Hch)
    as (resources & capabilities & prompt & original_econ & token_budget
        & Hres & Hcap & Hprompt & Hecon & Htb & Heconomics & _).
  injection Hres as <-. injection Hcap as <-. injection Hecon as <-.
  injection Htb as <-. vm_compute in Hprompt. injection Hprompt as <-.
  rewrite Heconomics. vm_compute. reflexivity.
Defined.

(** ** The Judge: what it reads, selects and writes *)

Section JudgeFacts.
Context `{Runtime}.

Lemma judge_get_item_frame pk sk w r w1 :
  Judge.get_item pk sk w = (r, w1) ->
  table w1 = table w /\ trace w1 = trace w /\ same_outside_db w w1 /\
  (r = inr None \/ exists p s, pk = Some p /\ sk = Some s /\ r = inr (table w !! (p, s))).
Proof. exact (supervisor_get_item_frame pk sk w r w1). Qed.

(** the candidates the simulation loop adds are challengers of the list
    that were found in the table *)
Lemma simulate_challengers_inr pk og tr sks : forall acc w cands w',
  Judge.simulate_challengers pk og tr sks acc w = (inr cands, w') ->
  exists new,
    cands = acc ++ new /\
    Forall (fun c => Judge.challenger_sk c ∈ sks /\
                     exists p stored, pk = Some p /\
                       table w !! (p, Judge.challenger_sk c) = Some stored) new.
Proof.
  induction sks as [| sk rest IH]; intros acc w cands w' Hrun; simpl in Hrun.
  - apply ret_inr in Hrun as [-> _]. exists []. rewrite app_nil_r. auto.
  - apply bind_inr in Hrun as (fetched & w1 & Hget & Hrun).
    apply judge_get_item_frame in Hget as (Ht & _ & _ & Hfetched).
    assert (Hskip : forall acc' w2,
              table w2 = table w ->
              Judge.simulate_challengers pk og tr rest acc' w2 = (inr cands, w') ->
              (acc' = acc \/
               exists resp stored p, acc' = acc ++ [Judge.mkCandidate sk resp] /\
                                     pk = Some p /\ table w !! (p, sk) = Some stored) ->
              exists new,
                cands = acc ++ new /\
                Forall (fun c => Judge.challenger_sk c ∈ sk :: rest /\
                                 exists p stored, pk = Some p /\
                                   table w !! (p, Judge.challenger_sk c) = Some stored)
                       new).
    { intros acc' w2 Ht2 Hrec Hacc.
      apply IH in Hrec as (new & -> & Hall).
      assert (Hall' : Forall (fun c => Judge.challenger_sk c ∈ sk :: rest /\
                         exists p stored, pk = Some p /\
                           table w !! (p, Judge.challenger_sk c) = Some stored) new).
      { eapply Forall_impl; [exact Hall |]. intros c [Hin Hst]. rewrite Ht2 in Hst.
        split; [right; exact Hin | exact Hst]. }
      destruct Hacc as [-> | (resp & stored & p & -> & Hp & Hst)].
      - exists new. auto.
      - exists (Judge.mkCandidate sk resp :: new). rewrite <- app_assoc. split; [reflexivity |].
        constructor; [| exact Hall']. simpl. split; [left | eauto]. }
    destruct fetched as [stored |]; simpl in Hrun.
    + destruct Hfetched as [[=] | (p & s & Hp & [= <-] & [= Hst])].
      destruct (py_truthy (sanitize_for_json stored)).
      * apply bind_inr in Hrun as (brain & w2 & Hb & Hrun). apply lift_inr in Hb as [_ ->].
        apply bind_inr in Hrun as (oc & w2 & Hb & Hrun). apply lift_inr in Hb as [_ ->].
        apply bind_inr in Hrun as (cfg & w2 & Hb & Hrun). apply lift_inr in Hb as [_ ->].
        apply bind_inr in Hrun as (res & w2 & Hb & Hrun). apply lift_inr in Hb as [_ ->].
        apply bind_inr in Hrun as (cap & w2 & Hb & Hrun). apply lift_inr in Hb as [_ ->].
        apply bind_inr in Hrun as (acc' & w2 & Htry & Hrun).
        assert (Ht2 : table w2 = table w).
        { transitivity (table w1); [| exact Ht].
          match type of Htry with
          | ?m _ = _ => assert (Hpres : preserves_store m)
          end.
          { apply preserves_try; [| intros ?; apply preserves_ret].
            apply preserves_bind; [apply preserves_invoke_agent_simulation |].
            intros ?. apply preserves_ret. }
          apply (Hpres _ _ _ Htry). }
        apply (Hskip acc' w2 Ht2 Hrun).
        apply try_except_inr in Htry as [Hok | (e & w3 & _ & _ & Hh)].
        -- apply bind_inr in Hok as (resp & w3 & _ & Hret).
           apply ret_inr in Hret as [-> _]. right. exists resp, stored, p. auto.
        -- apply ret_inr in Hh as [-> _]. left. reflexivity.
      * apply (Hskip acc w1 Ht Hrun). left. reflexivity.
    + apply (Hskip acc w1 Ht Hrun). left. reflexivity.
Qed.

(** the comparator hands back one of the candidates it was given *)
Lemma run_comparator_stage_member issue bad candidates history w c w' :
  Judge.run_comparator_stage issue bad candidates history w = (inr (Some c), w') ->
  c ∈ candidates.
Proof.
  unfold Judge.run_comparator_stage. destruct candidates as [| c0 cs].
  - intros Hr. apply ret_inr in Hr as [[=] _].
  - intros Hr. apply bind_inr in Hr as (lm & w1 & _ & Hr).
    apply bind_inr in Hr as (res & w2 & _ & Hr). apply ret_inr in Hr as [Hc _].
    destruct (Judge.winner_index res (length (c0 :: cs))) as [i |]; [| discriminate].
    symmetry in Hc. eapply list_elem_of_lookup_2. exact Hc.
Qed.

(** a failure result never says [improved] *)
Lemma judge_failure_not_improved pk genome_sk chat_sk retry_count reason fc w r w1 result :
  Judge.handle_failure pk genome_sk chat_sk retry_count reason fc w = (inr r, w1) ->
  json_copy true false r = inr result ->
  dict_get "improved" result = Some (PBool false) /\
  (retry_count < 1 -> dict_get "reason" result = Some (PStr reason)).
Proof.
  intros Hrun Hcopy. destruct (Z.lt_ge_cases retry_count 1) as [Hlt | Hge].
  - rewrite (judge_retry _ _ _ _ _ _ _ Hlt) in Hrun. injection Hrun as <- _.
    simpl in Hcopy. injection Hcopy as <-. auto.
  - destruct (judge_ticket pk genome_sk chat_sk retry_count reason fc w Hge)
      as (ticket_id & now & Hfst & _).
    rewrite Hrun in Hfst. simpl in Hfst. injection Hfst as ->.
    simpl in Hcopy. injection Hcopy as <-. split; [reflexivity | lia].
Qed.

End JudgeFacts.

(** X11 The Judge can only select what the Mutator offered.  When the
    Judge handler returns [improved: true], the selected challenger is one
    of the event's [challenger_sks], an item stored under that key was
    read, and the Judge has written nothing. *)
Theorem judge_selects_an_offered_challenger `{Runtime} event w result w' :
  Judge.lambda_handler event w = (inr result, w') ->
  dict_get "improved" result = Some (PBool true) ->
  exists p s stored,
    Judge.pk event = Some p /\
    dict_get "selected_challenger_sk" result = Some (PStr s) /\
    s ∈ Judge.challenger_sks event /\
    table w !! (p, s) = Some stored /\
    table w' = table w /\ trace w' = trace w.
Proof.
  unfold Judge.lambda_handler. intros Hrun Himproved.
  apply bind_inr in Hrun as (g & w1 & Hg & Hrun).
  apply bind_inr in Hrun as (c & w2 & Hc & Hrun).
  apply preserves_judge_get_item in Hg as [Ht1 Htr1].
  apply preserves_judge_get_item in Hc as [Ht2 Htr2].
  destruct (option_map sanitize_for_json g) as [original_genome |]; [| discriminate].
  destruct (option_map sanitize_for_json c) as [original_chat |]; [| discriminate].
  destruct (negb (py_truthy original_genome) || negb (py_truthy original_chat));
    [discriminate |].
  apply bind_inr in Hrun as (tv & w3 & Hb & Hrun). apply lift_inr in Hb as [_ ->].
  apply bind_inr in Hrun as (n & w3 & Hb & Hrun). apply lift_inr in Hb as [_ ->].
  apply bind_inr in Hrun as (fti & w3 & Hb & Hrun). apply lift_inr in Hb as [_ ->].
  apply bind_inr in Hrun as (fi & w3 & Hb & Hrun). apply lift_inr in Hb as [_ ->].
  apply bind_inr in Hrun as (tr & w3 & Hb & Hrun). apply lift_inr in Hb as [_ ->].
  apply bind_inr in Hrun as (ft & w3 & Hb & Hrun). apply lift_inr in Hb as [_ ->].
  apply bind_inr in Hrun as (bad & w3 & Hb & Hrun). apply lift_inr in Hb as [_ ->].
  apply bind_inr in Hrun as (cr & w3 & Hb & Hrun). apply lift_inr in Hb as [_ ->].
  apply bind_inr in Hrun as (cands & w3 & Hsim & Hrun).
  apply bind_inr in Hrun as (winner & w4 & Hcmp & Hrun).
  pose proof (preserves_simulate_challengers _ _ _ _ _ _ _ _ Hsim) as [Ht3 Htr3].
  pose proof (preserves_run_comparator_stage _ _ _ _ _ _ _ Hcmp) as [Ht4 Htr4].
  destruct winner as [winner |].
  - apply run_comparator_stage_member in Hcmp.
    apply simulate_challengers_inr in Hsim as (new & -> & Hall).
    simpl in Hcmp. rewrite Forall_forall in Hall.
    destruct (Hall _ Hcmp) as (Hin & p & stored & Hp & Hst).
    apply bind_inr in Hrun as (cres & w5 & Hcomp & Hrun).
    apply preserves_run_compliance_stage in Hcomp as [Ht5 Htr5].
    apply bind_inr in Hrun as (passed & w6 & Hb & Hrun). apply lift_inr in Hb as [_ ->].
    destruct (py_truthy passed).
    + apply bind_inr in Hrun as (reason & w6 & Hb & Hrun). apply lift_inr in Hb as [_ ->].
      apply lift_inr in Hrun as [Hcopy ->].
      rewrite json_copy_dict in Hcopy.
      match type of Hcopy with
      | match copy_items _ _ ?kvs with _ => _ end = _ =>
          destruct (copy_items true false kvs) as [e | kvs'] eqn:Hitems; [discriminate |]
      end.
      injection Hcopy as <-.
      pose proof (copy_items_get _ _ _ _ "selected_challenger_sk" Hitems) as Hsel.
      simpl in Hsel. destruct Hsel as (x' & [= <-] & Hsel).
      exists p, (Judge.challenger_sk winner), stored.
      rewrite Ht2 in Hst. rewrite Ht1 in Hst.
      repeat split; try assumption; congruence.
    + apply bind_inr in Hrun as (reason & w6 & Hb & Hrun). apply lift_inr in Hb as [_ ->].
      apply bind_inr in Hrun as (r & w6 & Hfail & Hrun). apply lift_inr in Hrun as [Hcopy ->].
      destruct (judge_failure_not_improved _ _ _ _ _ _ _ _ _ _ Hfail Hcopy) as [Hno _].
      congruence.
  - apply bind_inr in Hrun as (r & w6 & Hfail & Hrun). apply lift_inr in Hrun as [Hcopy ->].
    destruct (judge_failure_not_improved _ _ _ _ _ _ _ _ _ _ Hfail Hcopy) as [Hno _].
    congruence.
Qed.

Lemma judge_selects_an_offered_challenger_witness :
  let w := Sample.judge_world
             (inr ("{" +:+ Lite.quoted "passed" +:+ ": true, " +:+ Lite.quoted "reason"
                       +:+ ": " +:+ Lite.quoted "Defers to the manager" +:+ "}")) in
  let run := Judge.lambda_handler (H := Lite.runtime) (Sample.judge_event 0) w in
  exists result,
    fst run = inr result /\
    dict_get "improved" result = Some (PBool true) /\
    dict_get "selected_challenger_sk" result = Some (PStr Sample.attempt_1) /\
    table (snd run) = table w.
Proof.
  intros w run.
  assert (H0 : fst run = inr (PDict [
            ("improved", PBool true);
            ("selected_challenger_sk", PStr Sample.attempt_1);
            ("improved_response", PStr Sample.simulated_reply);
            ("reason", PStr "Defers to the manager");
            ("retryCount", PInt 0) ])) by (vm_compute; reflexivity).
  eexists. split; [exact H0 |]. split; [reflexivity |]. split; [reflexivity |].
  destruct (judge_selects_an_offered_challenger (H := Lite.runtime) _ _ _ _
              (run_returns _ _ _ H0) eq_refl) as (p & s & stored & _ & _ & _ & _ & Ht & _).
  exact Ht.
Defined.

(** ** Handlers whose only write is a ticket *)

Lemma ticket_only_of_preserves {A} retry_count (m : M A) :
  preserves_store m -> Notions.writes_at_most_a_ticket retry_count m.
Proof.
  intros Hm w r w' Hrun. destruct (Hm _ _ _ Hrun) as [Ht Htr].
  split; [left |]; auto.
Qed.

Lemma ticket_only_after {A B} retry_count (m : M A) (k : A -> M B) :
  preserves_store m -> (forall a, Notions.writes_at_most_a_ticket retry_count (k a)) ->
  Notions.writes_at_most_a_ticket retry_count (bind m k).
Proof.
  intros Hm Hk w r w'. unfold bind.
  destruct (m w) as [[e | a] w1] eqn:Hrun; destruct (Hm _ _ _ Hrun) as [Ht Htr].
  - intros [= <- <-]. split; [left |]; auto.
  - intros Hrun2. destruct (Hk _ _ _ _ Hrun2) as [Hticket Hnone].
    unfold Notions.at_most_a_ticket in *. rewrite Ht, Htr in *. auto.
Qed.

Lemma ticket_only_before {A B} retry_count (m : M A) (k : A -> M B) :
  Notions.writes_at_most_a_ticket retry_count m -> (forall a, preserves_store (k a)) ->
  Notions.writes_at_most_a_ticket retry_count (bind m k).
Proof.
  intros Hm Hk w r w'. unfold bind.
  destruct (m w) as [[e | a] w1] eqn:Hrun; destruct (Hm _ _ _ Hrun) as [Hticket Hnone].
  - intros [= <- <-]. auto.
  - intros Hrun2. destruct (Hk _ _ _ _ Hrun2) as [Ht Htr].
    unfold Notions.at_most_a_ticket in *. rewrite Ht, Htr. auto.
Qed.

Lemma ticket_put_at_most pk ticket_sk ticket w w' :
  dict_get "EntityType" ticket = Some (PStr "Ticket") ->
  Escalation.ticket_put pk ticket_sk ticket w w' ->
  Notions.at_most_a_ticket w w'.
Proof.
  unfold Escalation.ticket_put, Notions.at_most_a_ticket. intros Hty Hput.
  destruct pk as [p |]; [| left; exact Hput].
  destruct (next_db_call_fails w); [left; exact Hput |].
  right. exists (p, ticket_sk), ticket. destruct Hput. auto.
Qed.

Section TicketFacts.
Context `{Runtime}.

Lemma judge_handle_failure_ticket_only pk genome_sk chat_sk retry_count reason fc :
  Notions.writes_at_most_a_ticket retry_count
    (Judge.handle_failure pk genome_sk chat_sk retry_count reason fc).
Proof.
  intros w r w' Hrun. destruct (Z.lt_ge_cases retry_count 1) as [Hlt | Hge].
  - rewrite (judge_retry _ _ _ _ _ _ _ Hlt) in Hrun. injection Hrun as _ <-.
    split; [left |]; auto.
  - destruct (judge_ticket pk genome_sk chat_sk retry_count reason fc w Hge)
      as (ticket_id & now & _ & _ & Hput).
    rewrite Hrun in Hput. simpl in Hput.
    split; [| lia]. eapply ticket_put_at_most; [| exact Hput]. reflexivity.
Qed.

End TicketFacts.

Lemma judge_handler_ticket_only `{Runtime} event :
  Notions.writes_at_most_a_ticket
    match Judge.retryCount event with Some r => r | None => 0 end
    (Judge.lambda_handler event).
Proof.
  unfold Judge.lambda_handler.
  apply ticket_only_after; [apply preserves_judge_get_item | intros g].
  apply ticket_only_after; [apply preserves_judge_get_item | intros c].
  destruct (option_map sanitize_for_json g) as [original_genome |];
    [| apply ticket_only_of_preserves, preserves_raise].
  destruct (option_map sanitize_for_json c) as [original_chat |];
    [| apply ticket_only_of_preserves, preserves_raise].
  destruct (negb (py_truthy original_genome) || negb (py_truthy original_chat));
    [apply ticket_only_of_preserves, preserves_raise |].
  do 8 (apply ticket_only_after; [apply preserves_lift | intros ?]).
  apply ticket_only_after; [apply preserves_simulate_challengers | intros cands].
  apply ticket_only_after; [apply preserves_run_comparator_stage | intros winner].
  destruct winner as [winner |].
  - apply ticket_only_after; [apply preserves_run_compliance_stage | intros cres].
    apply ticket_only_after; [apply preserves_lift | intros passed].
    destruct (py_truthy passed).
    + apply ticket_only_of_preserves. frame.
    + apply ticket_only_after; [apply preserves_lift | intros reason].
      apply ticket_only_before; [apply judge_handle_failure_ticket_only |].
      intros ?. apply preserves_lift.
  - apply ticket_only_before; [apply judge_handle_failure_ticket_only |].
    intros ?. apply preserves_lift.
Qed.


(** X12 The Judge never changes a genome, a pointer or a chat.  However
    the handler ends, it has written nothing, or exactly one item and that
    item is a Ticket; below round 1 it has written nothing at all. *)
Theorem judge_writes_at_most_a_ticket `{Runtime} event :
  Notions.writes_at_most_a_ticket
    match Judge.retryCount event with Some r => r | None => 0 end
    (Judge.lambda_handler event).
Proof. exact (judge_handler_ticket_only event). Qed.

Lemma judge_writes_at_most_a_ticket_witness :
  let w := Sample.judge_world (inl (Sample.throttled "Converse")) in
  let run := Judge.lambda_handler (H := Lite.runtime) (Sample.judge_event 0) w in
  0 < 1 /\ table (snd run) = table w /\ trace (snd run) = trace w.
Proof.
  intros w run. split; [lia |].
  apply (judge_writes_at_most_a_ticket (H := Lite.runtime) (Sample.judge_event 0)
           w (fst run) (snd run) (surjective_pairing run)).
  simpl. lia.
Defined.

(** X13 A chat that cannot be read stops the Judge.  When no item is
    stored at the event's chat key, or the read fails (the Judge's
    [get_item] turns every read error into a missing item), the handler
    raises the [ValueError] "Missing Data. PK: <pk>": no model is called,
    nothing is written, and no ticket is opened in any round. *)
Theorem judge_missing_chat `{Runtime} event c w :
  Judge.chat_sk event = Some c ->
  (forall p, Judge.pk event = Some p -> table w !! (p, c) = None) ->
  let run := Judge.lambda_handler event w in
  fst run = inl (ValueError ("Missing Data. PK: "
                               +:+ py_str (Judge.opt_str (Judge.pk event)))) /\
  table (snd run) = table w /\ trace (snd run) = trace w /\
  same_outside_db w (snd run).
Proof.
  intros Hc Hnone run.
  destruct (Judge.get_item (Judge.pk event) (Judge.genome_sk event) w)
    as [rg w1] eqn:Hg.
  pose proof (judge_get_item_frame _ _ _ _ _ Hg) as (Ht1 & Htr1 & Hs1 & Hrg).
  assert (exists g, rg = inr g) as (g & ->)
    by (destruct Hrg as [-> | (? & ? & _ & _ & ->)]; eauto).
  destruct (Judge.get_item (Judge.pk event) (Some c) w1) as [rc w2] eqn:Hget.
  pose proof (judge_get_item_frame _ _ _ _ _ Hget) as (Ht2 & Htr2 & Hs2 & Hrc).
  assert (rc = inr None) as ->.
  { destruct Hrc as [-> | (p & s & Hp & [= <-] & ->)]; [reflexivity |].
    rewrite Ht1, (Hnone p Hp). reflexivity. }
  assert (Hrun : run = (inl (ValueError ("Missing Data. PK: "
                               +:+ py_str (Judge.opt_str (Judge.pk event)))), w2)).
  { unfold run, Judge.lambda_handler. rewrite Hc. unfold bind at 1. rewrite Hg.
    unfold bind at 1. rewrite Hget.
    destruct (option_map sanitize_for_json g); reflexivity. }
  rewrite Hrun. simpl.
  split; [reflexivity |]. split; [congruence |]. split; [congruence |].
  eapply same_outside_db_trans; eassumption.
Qed.

Lemma judge_missing_chat_witness :
  let w := Sample.world [(Sample.parent_key, Sample.parent)] [inr "unused"] in
  let run := Judge.lambda_handler (H := Lite.runtime) (Sample.judge_event 1) w in
  fst run = inl (ValueError "Missing Data. PK: AGENT#concierge") /\
  trace (snd run) = [] /\
  gateway (snd run) = [inr "unused"].
Proof.
  intros w run.
  assert (Hnone : forall p, Judge.pk (Sample.judge_event 1) = Some p ->
                            table w !! (p, Sample.chat_sk) = None).
  { intros p [= <-]. vm_compute. reflexivity. }
  destruct (judge_missing_chat (H := Lite.runtime) (Sample.judge_event 1)
              Sample.chat_sk w eq_refl Hnone) as (Hmsg & _ & Htr & Hgw & _).
  split; [exact Hmsg |]. split; [exact Htr | exact Hgw].
Defined.

Section JudgeOffline.
Context `{Runtime}.

Lemma bedrock_text_offline w :
  gateway w = [] ->
  bedrock_text w = (inl (unavailable "Converse"), w).
Proof. unfold bedrock_text, bedrock_call. intros ->. reflexivity. Qed.

Lemma invoke_agent_simulation_offline genome transcript w :
  gateway w = [] ->
  exists e, Judge.invoke_agent_simulation genome transcript w = (inl e, w).
Proof.
  intros Hg. unfold Judge.invoke_agent_simulation.
  do 5 (rewrite bind_lift;
        match goal with
        | |- context [match ?r with inl _ => _ | inr _ => _ end] => destruct r; [eauto |]
        end).
  rewrite (bedrock_text_offline _ Hg). eauto.
Qed.

Lemma simulate_challengers_offline pk og tr sks : forall acc w r w',
  gateway w = [] ->
  Judge.simulate_challengers pk og tr sks acc w = (r, w') ->
  gateway w' = [] /\ forall cands, r = inr cands -> cands = acc.
Proof.
  induction sks as [| sk rest IH]; intros acc w r w' Hg Hrun; simpl in Hrun.
  - injection Hrun as <- <-. split; [exact Hg |]. intros cands [= <-]. reflexivity.
  - unfold bind at 1 in Hrun.
    destruct (Judge.get_item pk (Some sk) w) as [rf w1] eqn:Hget.
    pose proof (judge_get_item_frame _ _ _ _ _ Hget) as (_ & _ & (Hg1 & _) & Hrf).
    rewrite Hg in Hg1.
    assert (exists fetched, rf = inr fetched) as (fetched & ->)
      by (destruct Hrf as [-> | (? & ? & _ & _ & ->)]; eauto).
    destruct (option_map sanitize_for_json fetched) as [cg |];
      [| exact (IH _ _ _ _ Hg1 Hrun)].
    destruct (py_truthy cg); [| exact (IH _ _ _ _ Hg1 Hrun)].
    assert (Hstop : forall e, (inl e, w1) = (r, w') ->
              gateway w' = [] /\ forall cands, r = inr cands -> cands = acc).
    { intros e [= <- <-]. split; [exact Hg1 | discriminate]. }
    do 5 (rewrite bind_lift in Hrun;
          match type of Hrun with
          | context [match ?x with inl _ => _ | inr _ => _ end] =>
              destruct x; [exact (Hstop _ Hrun) |]
          end).
    unfold bind at 1, try_except at 1, bind at 1 in Hrun.
    match type of Hrun with
    | context [Judge.invoke_agent_simulation ?g ?t w1] =>
        destruct (invoke_agent_simulation_offline g t w1 Hg1) as (e & Hsim)
    end.
    rewrite Hsim in Hrun. simpl in Hrun. exact (IH _ _ _ _ Hg1 Hrun).
Qed.

End JudgeOffline.

(** X14 Without Bedrock the Judge never reports an improvement.  When
    the gateway is unavailable, every simulation fails and is skipped,
    the comparator is handed no candidate and is not called, and a
    handler that returns reports [improved: false]; below round 1 the
    reason is that no challenger improved, and nothing is written. *)
Theorem judge_offline_never_improves `{Runtime} event w result w' :
  gateway w = [] ->
  Judge.lambda_handler event w = (inr result, w') ->
  let retry_count := match Judge.retryCount event with Some r => r | None => 0 end in
  dict_get "improved" result = Some (PBool false) /\
  (retry_count < 1 ->
   dict_get "reason" result = Some (PStr "No challenger improved on the failure.") /\
   table w' = table w /\ trace w' = trace w).
Proof.
  intros Hgw Hrun retry_count.
  pose proof (judge_handler_ticket_only event w _ _ Hrun) as [_ Hstore].
  fold retry_count in Hstore.
  unfold Judge.lambda_handler in Hrun.
  apply bind_inr in Hrun as (g & w1 & Hg & Hrun).
  apply bind_inr in Hrun as (c & w2 & Hc & Hrun).
  apply judge_get_item_frame in Hg as (_ & _ & (Hg1 & _) & _).
  apply judge_get_item_frame in Hc as (_ & _ & (Hg2 & _) & _).
  destruct (option_map sanitize_for_json g) as [original_genome |]; [| discriminate].
  destruct (option_map sanitize_for_json c) as [original_chat |]; [| discriminate].
  destruct (negb (py_truthy original_genome) || negb (py_truthy original_chat));
    [discriminate |].
  do 8 (apply bind_inr in Hrun as (? & ? & Hb & Hrun); apply lift_inr in Hb as [_ ->]).
  apply bind_inr in Hrun as (cands & w3 & Hsim & Hrun).
  apply simulate_challengers_offline in Hsim as [_ Hcands]; [| congruence].
  rewrite (Hcands _ eq_refl) in Hrun.
  apply bind_inr in Hrun as (winner & w4 & Hcmp & Hrun).
  apply ret_inr in Hcmp as [-> ->].
  apply bind_inr in Hrun as (r & w6 & Hfail & Hrun). apply lift_inr in Hrun as [Hcopy ->].
  destruct (judge_failure_not_improved _ _ _ _ _ _ _ _ _ _ Hfail Hcopy) as [Hno Hreason].
  split; [exact Hno |]. intros Hlt. split; [exact (Hreason Hlt) | exact (Hstore Hlt)].
Qed.

Lemma judge_offline_never_improves_witness :
  let w := Sample.world Sample.judge_table [] in
  let run := Judge.lambda_handler (H := Lite.runtime) (Sample.judge_event 0) w in
  gateway w = [] /\ 0 < 1 /\
  fst run = inr (PDict [
    ("improved", PBool false);
    ("reason", PStr "No challenger improved on the failure.");
    ("retryCount", PInt 0) ]) /\
  trace (snd run) = trace w.
Proof.
  intros w run.
  assert (H0 : fst run = inr (PDict [
            ("improved", PBool false);
            ("reason", PStr "No challenger improved on the failure.");
            ("retryCount", PInt 0) ])) by (vm_compute; reflexivity).
  split; [reflexivity |]. split; [lia |]. split; [exact H0 |].
  destruct (judge_offline_never_improves (H := Lite.runtime) (Sample.judge_event 0) w
              _ _ eq_refl (run_returns _ _ _ H0)) as [_ Hlt].
  apply Hlt. simpl. lia.
Defined.

(** ** The Supervisor: when the pointer moves *)

Lemma version_sk_not_current now_iso : "VERSION#" +:+ now_iso <> "CURRENT".
Proof.
  intros Heq. apply (f_equal (mentions "#")) in Heq.
  rewrite mentions_app in Heq. discriminate.
Qed.

Lemma pointer_after {A} (m : M A) (k : A -> M pyval) :
  preserves_store m -> (forall a, Notions.moves_pointer_only_on_success (k a)) ->
  Notions.moves_pointer_only_on_success (bind m k).
Proof.
  intros Hm Hk w r w'. unfold bind.
  destruct (m w) as [[e | a] w1] eqn:Hrun; destruct (Hm _ _ _ Hrun) as [Ht _].
  - intros [= <- <-]. right. intros q. rewrite Ht. reflexivity.
  - intros Hrun2. destruct (Hk _ _ _ _ Hrun2) as [Hs | Hsame]; [left; exact Hs |].
    right. intros q. rewrite (Hsame q), Ht. reflexivity.
Qed.

Lemma pointer_of_preserves (m : M pyval) :
  preserves_store m -> Notions.moves_pointer_only_on_success m.
Proof.
  intros Hm w r w' Hrun. destruct (Hm _ _ _ Hrun) as [Ht _].
  right. intros q. rewrite Ht. reflexivity.
Qed.

Section PointerFacts.
Context `{Runtime}.

Lemma supervisor_failure_keeps_pointer pk genome_sk chat_sk retry_count reason fc w r w' :
  Supervisor.handle_failure pk genome_sk chat_sk retry_count reason fc w = (r, w') ->
  Notions.same_pointers (table w) (table w').
Proof.
  intros Hrun q. destruct (Z.lt_ge_cases retry_count 1) as [Hlt | Hge].
  - rewrite (supervisor_retry _ _ _ _ _ _ _ Hlt) in Hrun. injection Hrun as _ <-.
    reflexivity.
  - destruct (supervisor_ticket pk genome_sk chat_sk retry_count reason fc w Hge)
      as (ticket_id & now & _ & _ & Hput).
    rewrite Hrun in Hput. simpl in Hput. unfold Escalation.ticket_put in Hput.
    destruct pk as [p |]; [| destruct Hput as [-> _]; reflexivity].
    destruct (next_db_call_fails w); destruct Hput as [-> _]; [reflexivity |].
    apply lookup_insert_ne. intros [= _ Hcur]. exact (ticket_sk_not_current _ _ Hcur).
Qed.

(** the two puts of a promotion: they both go through, or the pointer is
    where it was *)
Lemma promotion_writes_pointer_last new_genome pointer_item now_iso w r w' :
  dict_get "SK" new_genome = Some (PStr ("VERSION#" +:+ now_iso)) ->
  try_except
    (let! genome_item_db :=
       lift (json_copy false true (sanitize_for_json new_genome)) in
     let! pointer_item_db :=
       lift (json_copy false true (sanitize_for_json pointer_item)) in
     run! put_item genome_item_db in
     run! put_item pointer_item_db in
     ret (None : option exn))
    any_exception
    (fun e => ret (Some e)) w = (r, w') ->
  r = inr None \/
  ((exists e, r = inr (Some e)) /\ Notions.same_pointers (table w) (table w')).
Proof.
  intros Hsk. unfold try_except, any_exception.
  assert (Hsame : Notions.same_pointers (table w) (table w)) by (intros q; reflexivity).
  rewrite bind_lift.
  destruct (json_copy false true (sanitize_for_json new_genome)) as [e | gdb] eqn:Hgdb.
  { unfold ret. intros [= <- <-]. right. eauto. }
  rewrite bind_lift.
  destruct (json_copy false true (sanitize_for_json pointer_item)) as [e | pdb].
  { unfold ret. intros [= <- <-]. right. eauto. }
  unfold bind at 1. destruct (put_item gdb w) as [[e | u] w1] eqn:Hput1.
  { apply put_item_inl in Hput1 as (Ht & _). unfold ret. intros [= <- <-].
    right. split; [eauto |]. intros q. rewrite Ht. reflexivity. }
  apply put_item_inr in Hput1 as (p1 & s1 & _ & Hs1 & Ht1 & _).
  assert (Hs : s1 = "VERSION#" +:+ now_iso).
  { destruct new_genome as [| | | | | | | fields]; try discriminate.
    simpl in Hsk. simpl sanitize_for_json in Hgdb. rewrite json_copy_dict in Hgdb.
    destruct (copy_items false true _) as [? | gkvs] eqn:Hcopy; [discriminate |].
    injection Hgdb as <-.
    pose proof (copy_items_get _ _ _ _ "SK" Hcopy) as Hget.
    rewrite sanitize_items_get, Hsk in Hget. simpl in Hget.
    destruct Hget as (x' & [= <-] & Hget). simpl in Hs1. congruence. }
  unfold bind at 1. destruct (put_item pdb w1) as [[e | u2] w2] eqn:Hput2.
  { apply put_item_inl in Hput2 as (Ht2 & _). unfold ret. intros [= <- <-].
    right. split; [eauto |]. intros q. rewrite Ht2, Ht1.
    apply lookup_insert_ne. intros [= _ Hcur]. rewrite Hs in Hcur.
    exact (version_sk_not_current _ Hcur). }
  unfold ret. intros [= <- <-]. left. reflexivity.
Qed.

Lemma promote_moves_pointer_only_on_success pk genome_sk chat_sk retry_count
    winner_item promotion_reason :
  Notions.moves_pointer_only_on_success
    (Supervisor.promote pk genome_sk chat_sk retry_count winner_item promotion_reason).
Proof.
  unfold Supervisor.promote.
  apply pointer_after; [apply preserves_utcnow_isoformat | intros now].
  do 8 (apply pointer_after; [apply preserves_lift | intros ?]).
  apply pointer_after; [apply preserves_uuid4_hex | intros hex].
  do 2 (apply pointer_after; [apply preserves_lift | intros ?]).
  intros w r w'. unfold bind at 1.
  match goal with
  | |- context [try_except ?m ?sel ?h w] =>
      destruct (try_except m sel h w) as [rw w3] eqn:Hw
  end.
  apply promotion_writes_pointer_last with (now_iso := now +:+ "Z") in Hw;
    [| reflexivity].
  destruct Hw as [-> | [(e & ->) Hsame]].
  - unfold lift. intros [= <- _]. left. eexists. split; reflexivity.
  - intros Hfail. apply supervisor_failure_keeps_pointer in Hfail.
    right. intros q. rewrite (Hfail q). apply Hsame.
Qed.

Lemma supervisor_handler_pointer event :
  Notions.moves_pointer_only_on_success (Supervisor.lambda_handler event).
Proof.
  unfold Supervisor.lambda_handler.
  destruct (Supervisor.falsy (Supervisor.pk event)
            || Supervisor.falsy (Supervisor.selected_challenger_sk event));
    [apply pointer_of_preserves, preserves_ret |].
  apply pointer_after; [apply preserves_supervisor_get_item | intros fetched].
  assert (Hfail : forall reason fc,
            Notions.moves_pointer_only_on_success
              (Supervisor.handle_failure (Supervisor.pk event) (Supervisor.genome_sk event)
                 (Supervisor.chat_sk event)
                 match Supervisor.retryCount event with Some r => r | None => 0 end
                 reason fc)).
  { intros reason fc w r w' Hrun. right.
    exact (supervisor_failure_keeps_pointer _ _ _ _ _ _ _ _ _ Hrun). }
  destruct (option_map sanitize_for_json fetched) as [winner_item |]; [| apply Hfail].
  destruct (negb (py_truthy winner_item)); [apply Hfail |].
  apply pointer_after; [apply preserves_validate | intros check].
  destruct (negb (Supervisor.safe check)); [apply Hfail |].
  apply promote_moves_pointer_only_on_success.
Qed.

End PointerFacts.

(** X15 The pointer moves only with a promotion.  However a Supervisor
    run ends (a result, a failure result, an exception), every [CURRENT]
    pointer in the table is as it was, unless the run returned
    [status: SUCCESS]: a rejected, failed or half-written promotion never
    changes which version is served. *)
Theorem pointer_moves_only_on_success `{Runtime} event w r w' :
  Supervisor.lambda_handler event w = (r, w') ->
  (forall result, r = inr result -> dict_get "status" result <> Some (PStr "SUCCESS")) ->
  forall q, table w' !! (q, "CURRENT") = table w !! (q, "CURRENT").
Proof.
  intros Hrun Hnot.
  destruct (supervisor_handler_pointer event w r w' Hrun)
    as [(result & Hr & Hs) | Hsame]; [| exact Hsame].
  destruct (Hnot result Hr Hs).
Qed.

Lemma pointer_moves_only_on_success_witness :
  let w := set_db_faults [None; None; Some (Sample.internal_error "PutItem")]
             (Sample.world [(Sample.winner_key, Sample.winner);
                            (Sample.pointer_key, Sample.pointer)] [inr "SAFE"]) in
  let run := Supervisor.lambda_handler (H := Lite.runtime) (Sample.supervisor_event 0) w in
  fst run = inr (PDict [
    ("compliant", PBool false);
    ("reason", PStr ("DB Write Failed: "
                      +:+ exn_str (Sample.internal_error "PutItem"))) ]) /\
  length (trace (snd run)) = 1%nat /\
  table (snd run) !! Sample.pointer_key = Some Sample.pointer.
Proof.
  intros w run.
  assert (H0 : fst run = inr (PDict [
            ("compliant", PBool false);
            ("reason", PStr ("DB Write Failed: "
                      +:+ exn_str (Sample.internal_error "PutItem"))) ]))
    by (vm_compute; reflexivity).
  split; [exact H0 |]. split; [vm_compute; reflexivity |].
  unfold Sample.pointer_key.
  rewrite (pointer_moves_only_on_success (H := Lite.runtime) _ _ _ _
             (run_returns _ _ _ H0)).
  - vm_compute. reflexivity.
  - intros result [= <-]. discriminate.
Defined.

(** ** The Supervisor: rejections before and by the audit *)

(** X16 A winner without a usable brain is rejected before any audit.
    When the stored winner has no brain, or a brain without [persona] or
    without [operational_guidelines], the structural check answers
    unsafe without calling Bedrock, and the handler ends in
    [handle_failure] with the Structural Corruption reason, in the world
    as the read of the winner left it. *)
Theorem corrupt_winner_rejected_without_audit `{Runtime} event p wsk stored fields w w1 :
  Supervisor.pk event = Some p -> p <> "" ->
  Supervisor.selected_challenger_sk event = Some wsk -> wsk <> "" ->
  Supervisor.get_item (Some p) (Some wsk) w = (inr (Some stored), w1) ->
  sanitize_for_json stored = PDict fields -> fields <> [] ->
  match assoc_get "brain" fields with
  | None => True
  | Some (PDict brain) =>
      assoc_get "persona" brain = None \/ assoc_get "operational_guidelines" brain = None
  | Some _ => False
  end ->
  Supervisor.validate_genome_safety (PDict fields) w1
    = (inr (Supervisor.mkSafety false "Structural Corruption: Missing Brain/Persona"), w1) /\
  Supervisor.lambda_handler event w =
    Supervisor.handle_failure (Some p) (Supervisor.genome_sk event)
      (Supervisor.chat_sk event)
      match Supervisor.retryCount event with Some r => r | None => 0 end
      "Supervisor Safety Protocol Violation: Structural Corruption: Missing Brain/Persona"
      (Some wsk) w1.
Proof.
  intros Hpk Hp Hsel Hwsk Hget Hstored Hfields Hbrain.
  assert (Hv : Supervisor.validate_genome_safety (PDict fields) w1
               = (inr (Supervisor.mkSafety false
                         "Structural Corruption: Missing Brain/Persona"), w1)).
  { unfold Supervisor.validate_genome_safety. simpl py_get.
    rewrite !bind_lift.
    destruct (assoc_get "brain" fields) as [[| | | | | | | brain] |]; try contradiction.
    - destruct (py_truthy (PDict brain)); cbn [negb]; [| reflexivity].
      cbn [py_contains rbind].
      destruct Hbrain as [-> | Hg]; [reflexivity |].
      destruct (assoc_get "persona" brain); cbn [negb]; [rewrite Hg |]; reflexivity.
    - reflexivity. }
  split; [exact Hv |].
  assert (Htruthy : py_truthy (PDict fields) = true)
    by (destruct fields; [contradiction | reflexivity]).
  unfold Supervisor.lambda_handler. rewrite Hpk, Hsel. simpl.
  apply String.eqb_neq in Hp, Hwsk. rewrite Hp, Hwsk. simpl.
  unfold bind at 1. rewrite Hget. simpl. rewrite Hstored, Htruthy. simpl.
  unfold bind at 1. rewrite Hv. reflexivity.
Qed.

Lemma corrupt_winner_rejected_without_audit_witness :
  let hollow := PDict [("PK", PStr "AGENT#concierge"); ("SK", PStr Sample.attempt_1);
                       ("brain", PDict [("persona", PDict [])])] in
  let w := Sample.world [(Sample.winner_key, hollow)] [inr "SAFE"] in
  let run := Supervisor.lambda_handler (H := Lite.runtime) (Sample.supervisor_event 0) w in
  fst run = inr (PDict [
    ("compliant", PBool false);
    ("reason", PStr ("Supervisor Safety Protocol Violation: "
                       +:+ "Structural Corruption: Missing Brain/Persona")) ]) /\
  gateway (snd run) = [inr "SAFE"].
Proof.
  intros hollow w run.
  destruct (corrupt_winner_rejected_without_audit (H := Lite.runtime)
              (Sample.supervisor_event 0) "AGENT#concierge" Sample.attempt_1 hollow
              [("PK", PStr "AGENT#concierge"); ("SK", PStr Sample.attempt_1);
               ("brain", PDict [("persona", PDict [])])] w w
              eq_refl ltac:(discriminate) eq_refl ltac:(discriminate)
              ltac:(vm_compute; reflexivity) eq_refl ltac:(discriminate)
              ltac:(right; reflexivity)) as [_ Hrun].
  unfold run. rewrite Hrun. split; vm_compute; reflexivity.
Defined.

(** X17 What the audit reply decides.  For a winner that passes the
    structural check and a Bedrock reply [text], the winner is rejected
    exactly when the stripped reply does not start with SAFE and
    contains VIOLATION; the stripped reply is then the reason.  Every
    other reply lets the winner through.  Stripping removes what
    [str.strip()] removes, the separators 0x1c to 0x1f included. *)
Theorem audit_rejects_only_on_violation `{Runtime} item w text :
  Supervisor.structurally_sound item ->
  fst (invoke_model_text w) = inr text ->
  exists check,
    Supervisor.validate_genome_safety item w = (inr check, after_bedrock w) /\
    (Supervisor.safe check = false <->
       startswith (strip text) "SAFE" = false /\
       str_contains "VIOLATION" (strip text) = true) /\
    (Supervisor.safe check = false -> Supervisor.safety_reason check = strip text).
Proof.
  intros Hsound Htext. rewrite (validate_sound _ w Hsound), Htext.
  eexists. split; [reflexivity |].
  destruct (startswith (strip text) "SAFE"), (str_contains "VIOLATION" (strip text));
    simpl; repeat split; try discriminate; try tauto; intros []; discriminate.
Qed.

Lemma audit_rejects_only_on_violation_witness :
  let reply := String (ascii_of_nat 28) " VIOLATION: promises refunds "
                 +:+ String (ascii_of_nat 160) "" in
  let w := Sample.world [] [inr reply] in
  exists check,
    fst (Supervisor.validate_genome_safety (H := Lite.runtime)
           (sanitize_for_json (H := Lite.runtime) Sample.winner) w) = inr check /\
    Supervisor.safe check = false /\
    Supervisor.safety_reason check = "VIOLATION: promises refunds".
Proof.
  intros reply w.
  destruct (audit_rejects_only_on_violation (H := Lite.runtime)
              (sanitize_for_json (H := Lite.runtime) Sample.winner) w
              reply sample_winner_sound eq_refl)
    as (check & Hrun & Hiff & Hreason).
  assert (Hunsafe : Supervisor.safe check = false)
    by (apply Hiff; split; vm_compute; reflexivity).
  exists check. rewrite Hrun. split; [reflexivity |]. split; [exact Hunsafe |].
  rewrite (Hreason Hunsafe). vm_compute. reflexivity.
Defined.

(** X18 A winner that cannot be read is a failure, not an exception.
    When no item is stored under the selected challenger's key, the
    Supervisor ends in [handle_failure] with the not-found reason: the
    audit is not called, and below round 1 the result is
    [compliant: false] with nothing written. *)
Theorem missing_winner_is_a_failure `{Runtime} event p wsk w :
  Supervisor.pk event = Some p -> p <> "" ->
  Supervisor.selected_challenger_sk event = Some wsk -> wsk <> "" ->
  table w !! (p, wsk) = None ->
  let retry_count := match Supervisor.retryCount event with Some r => r | None => 0 end in
  let reason := "Winner SK " +:+ wsk +:+ " not found in DB." in
  exists w1,
    table w1 = table w /\ trace w1 = trace w /\ same_outside_db w w1 /\
    Supervisor.lambda_handler event w =
      Supervisor.handle_failure (Some p) (Supervisor.genome_sk event)
        (Supervisor.chat_sk event) retry_count reason None w1 /\
    (retry_count < 1 ->
     Supervisor.lambda_handler event w =
       (inr (PDict [("compliant", PBool false); ("reason", PStr reason)]), w1)).
Proof.
  intros Hpk Hp Hsel Hwsk Hnone retry_count reason.
  destruct (Supervisor.get_item (Some p) (Some wsk) w) as [rf w1] eqn:Hget.
  pose proof (supervisor_get_item_frame _ _ _ _ _ Hget) as (Ht & Htr & Hs & Hrf).
  assert (rf = inr None) as ->.
  { destruct Hrf as [-> | (p' & s' & [= <-] & [= <-] & ->)]; [reflexivity |].
    rewrite Hnone. reflexivity. }
  assert (Hrun : Supervisor.lambda_handler event w =
                 Supervisor.handle_failure (Some p) (Supervisor.genome_sk event)
                   (Supervisor.chat_sk event) retry_count reason None w1).
  { unfold Supervisor.lambda_handler. rewrite Hpk, Hsel. simpl.
    apply String.eqb_neq in Hp, Hwsk. rewrite Hp, Hwsk. simpl.
    unfold bind at 1. rewrite Hget. reflexivity. }
  exists w1. repeat split; try assumption; try apply Hs.
  intros Hlt. rewrite Hrun. apply supervisor_retry. exact Hlt.
Qed.

Lemma missing_winner_is_a_failure_witness :
  let w := Sample.world [] [inr "SAFE"] in
  let run := Supervisor.lambda_handler (H := Lite.runtime) (Sample.supervisor_event 0) w in
  fst run = inr (PDict [
    ("compliant", PBool false);
    ("reason", PStr ("Winner SK " +:+ Sample.attempt_1 +:+ " not found in DB.")) ]) /\
  gateway (snd run) = [inr "SAFE"].
Proof.
  intros w run.
  destruct (missing_winner_is_a_failure (H := Lite.runtime) (Sample.supervisor_event 0)
              "AGENT#concierge" Sample.attempt_1 w
              eq_refl ltac:(discriminate) eq_refl ltac:(discriminate) eq_refl)
    as (w1 & _ & _ & (Hgw & _) & _ & Hlt).
  unfold run. rewrite (Hlt ltac:(simpl; lia)). simpl. split; [reflexivity | exact Hgw].
Defined.

(** ** The Serving Path: retries *)

Lemma throttling_is_client_error e :
  Proxy.is_throttling e = true -> is_ClientError e = true.
Proof. destruct e; simpl; [reflexivity | discriminate..]. Qed.

(** X19 [exponential_backoff_retry] with [n] attempts.  When the first
    [k] calls are throttled and call [k + 1] is within the [n] attempts,
    the outcome of that call is the outcome of the whole, provided it is
    not itself a throttling error or it is the last attempt: a success or
    any other error ends the retries at once, and after [n] throttled
    calls the last throttling error is raised. *)
Theorem retry_ends_at_first_unthrottled_call {A} (func : M A) : forall k n ws es r w',
  (forall i, (i < k)%nat ->
     func (ws i) = (inl (es i), ws (S i)) /\ Proxy.is_throttling (es i) = true) ->
  func (ws k) = (r, w') ->
  (k < n)%nat ->
  (S k = n \/ forall e, r = inl e -> Proxy.is_throttling e = false) ->
  Proxy.exponential_backoff_retry func n (ws 0%nat) = (r, w').
Proof.
  induction k as [| k IH]; intros n ws es r w' Hthrottled Hlast Hlt Hend.
  - destruct n as [| n]; [lia |]. simpl. unfold try_except. rewrite Hlast.
    destruct r as [e | a]; [| reflexivity].
    destruct (is_ClientError e); [| reflexivity].
    destruct (Proxy.is_throttling e) eqn:Hthr; [| reflexivity].
    destruct Hend as [Hn | Hnot]; [| rewrite (Hnot e eq_refl) in Hthr; discriminate].
    injection Hn as <-. reflexivity.
  - destruct n as [| n]; [lia |]. simpl. unfold try_except.
    destruct (Hthrottled 0%nat ltac:(lia)) as [Hfirst Hthr].
    rewrite Hfirst, (throttling_is_client_error _ Hthr), Hthr.
    destruct n as [| n]; [lia |].
    apply (IH (S n) (fun i => ws (S i)) (fun i => es (S i))).
    + intros i Hi. apply Hthrottled. lia.
    + exact Hlast.
    + lia.
    + destruct Hend as [Hn | Hnot]; [left; lia | right; exact Hnot].
Qed.

Lemma retry_ends_at_first_unthrottled_call_witness :
  let throttled := Some (Sample.throttled "GetItem") in
  let w := set_db_faults [throttled; throttled; None]
             (Sample.world Sample.serving_table []) in
  Proxy.exponential_backoff_retry
    (Env.get_item (Some "AGENT#concierge") (Some "CURRENT")) 3 w
  = (inr (Some Sample.pointer), set_db_faults [] w).
Proof.
  intros throttled w.
  apply (retry_ends_at_first_unthrottled_call
           (Env.get_item (Some "AGENT#concierge") (Some "CURRENT")) 2 3
           (fun i => set_db_faults (drop i [throttled; throttled; None]) w)
           (fun _ => Sample.throttled "GetItem")).
  - intros [| [| i]] Hi; [split; reflexivity | split; reflexivity | lia].
  - vm_compute. reflexivity.
  - lia.
  - left. reflexivity.
Defined.

(** ** The Serving Path: resolving the active genome *)

Lemma rmap_inr_all {A B} (f : A -> result B) l ys :
  rmap f l = inr ys -> Forall (fun x => exists y, f x = inr y) l.
Proof.
  revert ys. induction l as [| x l IH]; intros ys Hrun; simpl in Hrun; [constructor |].
  apply rbind_inr in Hrun as (y & Hy & Hrun).
  apply rbind_inr in Hrun as (ys' & Hys & _).
  constructor; [eauto | exact (IH _ Hys)].
Qed.

(** X20 The two-step lookup.  When [resolve_active_genome] returns, the
    partition has a [CURRENT] pointer whose [active_version_sk] is a
    non-empty string, an item is stored under that key, and the genome
    returned is that item sanitized; it is a dict with the sections
    config, brain and resources, and the membership test for model_id,
    temperature and max_tokens on its config succeeded.  The lookup
    writes nothing. *)
Theorem resolved_genome_is_the_pointed_version `{Runtime} pk w genome w' :
  Proxy.resolve_active_genome pk w = (inr genome, w') ->
  exists pointer sk stored config,
    table w !! (pk, "CURRENT") = Some pointer /\
    py_get pointer "active_version_sk" PNone = inr (PStr sk) /\ sk <> "" /\
    table w !! (pk, sk) = Some stored /\
    genome = sanitize_for_json stored /\
    (forall section, section ∈ ["config"; "brain"; "resources"] ->
       exists v, dict_get section genome = Some v) /\
    dict_get "config" genome = Some config /\
    (forall field, field ∈ ["model_id"; "temperature"; "max_tokens"] ->
       py_contains field config = inr true) /\
    table w' = table w /\ trace w' = trace w.
Proof.
  intros Hrun.
  pose proof (reads_resolve_active_genome pk _ _ _ Hrun) as (Ht & Htr & _).
  unfold Proxy.resolve_active_genome in Hrun.
  apply bind_inr in Hrun as (current & w1 & Hcur & Hrun).
  pose proof (preserves_retry _ 3 (preserves_get_item (Some pk) (Some "CURRENT"))
                _ _ _ Hcur) as [Ht1 _].
  apply retry_inr in Hcur as (w0 & Ht0 & _ & Hcur); [| apply preserves_get_item].
  apply get_item_inr in Hcur. rewrite Ht0 in Hcur. subst current.
  destruct (table w !! (pk, "CURRENT")) as [pointer |] eqn:Hpointer; [| discriminate].
  apply bind_inr in Hrun as (avs & w2 & Havs & Hrun). apply lift_inr in Havs as [Havs ->].
  destruct (py_truthy avs) eqn:Htruthy; [| discriminate]. cbn [negb] in Hrun.
  apply bind_inr in Hrun as (found & w3 & Hfound & Hrun).
  apply retry_inr in Hfound as (w4 & Ht4 & _ & Hfound); [| apply preserves_get_item].
  destruct avs as [| | | | | sk | |]; try discriminate Hfound.
  apply get_item_inr in Hfound. rewrite Ht4, Ht1 in Hfound. subst found.
  destruct (table w !! (pk, sk)) as [stored |] eqn:Hstored; [| discriminate].
  apply bind_inr in Hrun as (u1 & w5 & Hsections & Hrun).
  apply lift_inr in Hsections as [Hsections ->].
  apply bind_inr in Hrun as (config & w5 & Hconfig & Hrun).
  apply lift_inr in Hconfig as [Hconfig ->].
  apply bind_inr in Hrun as (u2 & w5 & Hfields & Hrun).
  apply lift_inr in Hfields as [Hfields ->].
  apply bind_inr in Hrun as (model_id & w5 & Hmodel & Hrun).
  apply lift_inr in Hmodel as [_ ->].
  apply ret_inr in Hrun as [-> _].
  apply rmap_inr_all in Hsections. apply rmap_inr_all in Hfields.
  rewrite Forall_forall in Hsections, Hfields.
  destruct (sanitize_for_json stored) as [| | | | | | | fields] eqn:Hgenome;
    try discriminate.
  assert (Hsec : forall section, section ∈ ["config"; "brain"; "resources"] ->
                   exists v, dict_get section (PDict fields) = Some v).
  { intros section Hin. destruct (Hsections _ Hin) as (y & Hy). simpl in Hy. simpl.
    destruct (assoc_get section fields); [eauto | discriminate]. }
  destruct (Hsec "config" ltac:(left)) as (cfg & Hcfg).
  simpl in Hconfig, Hcfg. rewrite Hcfg in Hconfig. injection Hconfig as <-.
  exists pointer, sk, stored, cfg.
  split; [first [reflexivity | assumption] |]. split; [exact Havs |]. split.
  { intros ->. discriminate. }
  split; [exact Hstored |]. split; [symmetry; exact Hgenome |]. split; [exact Hsec |].
  split; [exact Hcfg |]. split; [| auto].
  intros field Hin. destruct (Hfields _ Hin) as (y & Hy).
  destruct (py_contains field cfg) as [e | [|]]; simpl in Hy; try discriminate.
  reflexivity.
Qed.

Lemma resolved_genome_is_the_pointed_version_witness :
  let w := Sample.world Sample.serving_table [] in
  let run := Proxy.resolve_active_genome (H := Lite.runtime) "AGENT#concierge" w in
  fst run = inr Sample.original /\
  exists pointer stored,
    table w !! ("AGENT#concierge", "CURRENT") = Some pointer /\
    Sample.original = sanitize_for_json (H := Lite.runtime) stored.
Proof.
  intros w run.
  assert (H0 : fst run = inr Sample.original) by (vm_compute; reflexivity).
  split; [exact H0 |].
  destruct (resolved_genome_is_the_pointed_version (H := Lite.runtime) _ _ _ _
              (run_returns _ _ _ H0))
    as (pointer & sk & stored & config & Hp & _ & _ & _ & Hg & _).
  exists pointer, stored. split; [exact Hp | exact Hg].
Defined.

(** ** The Serving Path: what the handler answers *)

Section ServingAnswers.
Context `{Runtime}.

Lemma serve_status pk chat_id user_message w response w' :
  Proxy.serve pk chat_id user_message w = (inr response, w') ->
  Proxy.statusCode response = 200 \/ Proxy.statusCode response = 404 \/
  Proxy.statusCode response = 500.
Proof.
  unfold Proxy.serve. intros Hrun.
  apply bind_inr in Hrun as (resolved & w1 & Hres & Hrun).
  destruct resolved as [not_found | genome].
  { apply ret_inr in Hrun as [-> _].
    apply try_except_inr in Hres as [Hok | (e & w2 & _ & _ & Hh)].
    - apply bind_inr in Hok as (g & ? & _ & Hr). apply ret_inr in Hr as [[=] _].
    - apply ret_inr in Hh as [[= ->] _]. right. left. reflexivity. }
  apply bind_inr in Hrun as (version_sk & ? & Hb & Hrun). apply lift_inr in Hb as [_ ->].
  apply bind_inr in Hrun as ([transcript verdict] & w2 & _ & Hrun).
  do 8 (apply bind_inr in Hrun as (? & ? & Hb & Hrun); apply lift_inr in Hb as [_ ->]).
  apply bind_inr in Hrun as (invoked & w3 & Hinv & Hrun).
  destruct invoked as [failed | assistant_response].
  { apply ret_inr in Hrun as [-> _].
    apply try_except_inr in Hinv as [Hok | (e & w4 & _ & _ & Hh)].
    - apply bind_inr in Hok as (g & ? & _ & Hr). apply ret_inr in Hr as [[=] _].
    - apply ret_inr in Hh as [[= ->] _]. right. right. reflexivity. }
  apply bind_inr in Hrun as (? & ? & _ & Hrun).
  apply bind_inr in Hrun as (? & ? & _ & Hrun).
  apply ret_inr in Hrun as [-> _]. left. reflexivity.
Qed.

End ServingAnswers.

(** X21 The Serving Path always answers.  Whatever the request and the
    state of the table, of Bedrock and of the event bus, the Proxy
    handler returns a response and never raises; its status is 200, 400,
    404 or 500.  A request whose pk, chat_id or user_message is missing
    or empty gets 400 before anything is read, called or written. *)
Theorem proxy_always_answers `{Runtime} request w :
  exists response w',
    Proxy.lambda_handler request w = (inr response, w') /\
    (Proxy.statusCode response = 200 \/ Proxy.statusCode response = 400 \/
     Proxy.statusCode response = 404 \/ Proxy.statusCode response = 500) /\
    (Notions.blank (Proxy.pk request) || Notions.blank (Proxy.chat_id request)
       || Notions.blank (Proxy.user_message request) = true ->
     Proxy.statusCode response = 400 /\ w' = w).
Proof.
  unfold Proxy.lambda_handler, Notions.blank.
  assert (Hbad : forall msg,
            exists response w',
              ret (Proxy.error_response 400 msg) w = (inr response, w') /\
              (Proxy.statusCode response = 200 \/ Proxy.statusCode response = 400 \/
               Proxy.statusCode response = 404 \/ Proxy.statusCode response = 500) /\
              Proxy.statusCode response = 400 /\ w' = w).
  { intros msg. eexists _, _. split; [reflexivity |]. simpl. auto. }
  destruct (Proxy.pk request) as [pk |];
    [| destruct (Hbad "Missing required field: pk") as (r & w' & ? & ? & ?); eauto 6].
  destruct (String.eqb pk "");
    [destruct (Hbad "Missing required field: pk") as (r & w' & ? & ? & ?); eauto 6 |].
  destruct (Proxy.chat_id request) as [chat_id |];
    [| destruct (Hbad "Missing required field: chat_id") as (r & w' & ? & ? & ?);
       eauto 6].
  destruct (String.eqb chat_id "");
    [destruct (Hbad "Missing required field: chat_id") as (r & w' & ? & ? & ?);
     eauto 6 |].
  destruct (Proxy.user_message request) as [user_message |];
    [| destruct (Hbad "Missing required field: user_message") as (r & w' & ? & ? & ?);
       eauto 6].
  destruct (String.eqb user_message "");
    [destruct (Hbad "Missing required field: user_message") as (r & w' & ? & ? & ?);
     eauto 6 |].
  unfold try_except, any_exception.
  destruct (Proxy.serve pk chat_id user_message w) as [[e | response] w1] eqn:Hserve.
  - destruct (is_JSONDecodeError e); eexists _, _;
      (split; [reflexivity |]); simpl; (split; [auto | discriminate]).
  - exists response, w1. split; [reflexivity |]. split; [| discriminate].
    destruct (serve_status _ _ _ _ _ _ Hserve) as [-> | [-> | ->]]; auto.
Qed.

(** X22 An agent without a pointer is a 404.  For a well-formed request
    whose partition has no [CURRENT] item, and a read that goes through,
    the handler answers 404 with the pointer-not-found message; Bedrock
    and the event bus are not called and nothing is written. *)
Theorem missing_pointer_is_404 `{Runtime} request pk chat_id user_message w :
  Proxy.pk request = Some pk -> pk <> "" ->
  Proxy.chat_id request = Some chat_id -> chat_id <> "" ->
  Proxy.user_message request = Some user_message -> user_message <> "" ->
  table w !! (pk, "CURRENT") = None ->
  next_db_call_fails w = false ->
  let run := Proxy.lambda_handler request w in
  fst run = inr (Proxy.error_response 404 ("CURRENT pointer not found for pk=" +:+ pk)) /\
  table (snd run) = table w /\ trace (snd run) = trace w /\
  same_outside_db w (snd run).
Proof.
  intros Hpk Hp Hchat Hc Hmsg Hm Hnone Hdb.
  unfold Proxy.lambda_handler. rewrite Hpk, Hchat, Hmsg.
  apply String.eqb_neq in Hp, Hc, Hm. rewrite Hp, Hc, Hm.
  unfold Proxy.serve, Proxy.resolve_active_genome, Proxy.exponential_backoff_retry,
    Env.get_item, next_db_call_fails in *.
  unfold try_except, bind, db_call, same_outside_db.
  destruct (db_faults w) as [| [e |] rest]; [| discriminate |];
    simpl; rewrite Hnone; simpl; repeat split.
Qed.

Lemma missing_pointer_is_404_witness :
  let w := Sample.world [] [inr "unused"] in
  let run := Proxy.lambda_handler (H := Lite.runtime) Sample.request w in
  fst run = inr (Proxy.error_response 404
                   "CURRENT pointer not found for pk=AGENT#concierge") /\
  gateway (snd run) = [inr "unused"] /\ trace (snd run) = [].
Proof.
  intros w run.
  destruct (missing_pointer_is_404 (H := Lite.runtime) Sample.request
              "AGENT#concierge" "c1" "Then I would like to speak to the manager." w
              eq_refl ltac:(discriminate) eq_refl ltac:(discriminate)
              eq_refl ltac:(discriminate) eq_refl eq_refl)
    as (Hrun & _ & Htr & Hgw & _).
  split; [exact Hrun |]. split; [exact Hgw | exact Htr].
Defined.

Lemma proxy_always_answers_witness :
  let request := Proxy.mkRequest None (Some "c1") (Some "Hello") in
  let w := Sample.world Sample.serving_table [inr "unused"] in
  exists response,
    Proxy.lambda_handler (H := Lite.runtime) request w = (inr response, w) /\
    Proxy.statusCode response = 400.
Proof.
  intros request w.
  destruct (proxy_always_answers (H := Lite.runtime) request w)
    as (response & w' & Hrun & _ & Hblank).
  destruct (Hblank eq_refl) as [H400 ->].
  exists response. split; [exact Hrun | exact H400].
Defined.

(** ** The Serving Path without Bedrock *)

Section ServingOffline.
Context `{Runtime}.

Lemma invoke_bedrock_offline messages w :
  gateway w = [] -> exists e, Proxy.invoke_bedrock messages w = (inl e, w).
Proof.
  intros Hg. unfold Proxy.invoke_bedrock. rewrite bind_lift.
  match goal with
  | |- context [match ?r with inl _ => _ | inr _ => _ end] => destruct r; [eauto |]
  end.
  simpl. unfold try_except. rewrite (bedrock_text_offline _ Hg). simpl. eauto.
Qed.

Lemma serve_offline pk chat_id user_message w r w' :
  gateway w = [] ->
  Proxy.serve pk chat_id user_message w = (r, w') ->
  table w' = table w /\ trace w' = trace w /\
  forall response, r = inr response -> Proxy.statusCode response <> 200.
Proof.
  intros Hgw. unfold Proxy.serve, bind at 1.
  match goal with
  | |- context [try_except ?m ?sel ?h w] =>
      destruct (try_except m sel h w) as [rr w1] eqn:Hres;
      assert (Hreads : reads_only (try_except m sel h))
        by (apply reads_try; [apply reads_bind;
              [apply reads_resolve_active_genome | intros ?; apply reads_ret]
            | intros ?; apply reads_ret])
  end.
  destruct (Hreads _ _ _ Hres) as (Ht1 & Htr1 & Hg1 & _). rewrite Hgw in Hg1.
  assert (Hstop : forall (e : exn) w0 r w',
            table w0 = table w -> trace w0 = trace w ->
            (inl e, w0) = (r, w') ->
            table w' = table w /\ trace w' = trace w /\
            forall response : Proxy.Response,
              r = inr response -> Proxy.statusCode response <> 200).
  { intros e w0 r0 w0' Ht Htr [= <- <-]. repeat split; try assumption. discriminate. }
  destruct rr as [e | [not_found | genome]].
  { intros Hrun. eapply Hstop; eauto. }
  { apply try_except_inr in Hres as [Hok | (e & w2 & _ & _ & Hh)].
    - apply bind_inr in Hok as (g & ? & _ & Hr). apply ret_inr in Hr as [[=] _].
    - apply ret_inr in Hh as [[= ->] _]. intros [= <- <-].
      repeat split; try assumption. intros response [= <-]. discriminate. }
  rewrite bind_lift.
  destruct (py_get genome "SK" PNone) as [e | version_sk];
    [intros Hrun; eapply Hstop; eauto |].
  unfold bind at 1.
  destruct (Proxy.get_chat_history pk version_sk chat_id w1) as [rh w2] eqn:Hhist.
  destruct (reads_get_chat_history _ _ _ _ _ _ Hhist) as (Ht2 & Htr2 & Hg2 & _).
  rewrite Hg1 in Hg2.
  assert (Ht2' : table w2 = table w) by congruence.
  assert (Htr2' : trace w2 = trace w) by congruence.
  destruct rh as [e | [transcript verdict]]; [intros Hrun; eapply Hstop; eauto |].
  do 8 (rewrite bind_lift;
        match goal with
        | |- context [match ?x with inl _ => _ | inr _ => _ end] =>
            destruct x; [intros Hrun; eapply Hstop; eauto |]
        end).
  unfold bind at 1, try_except at 1, bind at 1.
  match goal with
  | |- context [Proxy.invoke_bedrock ?messages w2] =>
      destruct (invoke_bedrock_offline messages w2 Hg2) as (e & ->)
  end.
  destruct (Proxy.is_ClientError_or_ValueError e).
  - unfold ret. intros [= <- <-].
    repeat split; try assumption. intros response [= <-]. discriminate.
  - intros Hrun. eapply Hstop; eauto.
Qed.

End ServingOffline.

(** X23 Without Bedrock the Serving Path stores nothing.  When the
    gateway is unavailable, the handler answers with a status other than
    200, the table is as it was (no transcript is written) and no event
    is put. *)
Theorem proxy_offline_stores_nothing `{Runtime} request w :
  gateway w = [] ->
  exists response w',
    Proxy.lambda_handler request w = (inr response, w') /\
    Proxy.statusCode response <> 200 /\
    table w' = table w /\ trace w' = trace w.
Proof.
  intros Hgw. unfold Proxy.lambda_handler.
  assert (Hbad : forall msg,
            exists response w',
              ret (Proxy.error_response 400 msg) w = (inr response, w') /\
              Proxy.statusCode response <> 200 /\
              table w' = table w /\ trace w' = trace w).
  { intros msg. eexists _, _. split; [reflexivity |]. simpl. repeat split. discriminate. }
  destruct (Proxy.pk request) as [pk |]; [| apply Hbad].
  destruct (String.eqb pk ""); [apply Hbad |].
  destruct (Proxy.chat_id request) as [chat_id |]; [| apply Hbad].
  destruct (String.eqb chat_id ""); [apply Hbad |].
  destruct (Proxy.user_message request) as [user_message |]; [| apply Hbad].
  destruct (String.eqb user_message ""); [apply Hbad |].
  unfold try_except, any_exception.
  destruct (Proxy.serve pk chat_id user_message w) as [[e | response] w1] eqn:Hserve;
    destruct (serve_offline _ _ _ _ _ _ Hgw Hserve) as (Ht & Htr & Hstatus).
  - destruct (is_JSONDecodeError e); eexists _, _;
      (split; [reflexivity |]); simpl; repeat split; try assumption; discriminate.
  - exists response, w1. repeat split; try assumption. exact (Hstatus _ eq_refl).
Qed.

Lemma proxy_offline_stores_nothing_witness :
  let w := Sample.world Sample.serving_table [] in
  let run := Proxy.lambda_handler (H := Lite.runtime) Sample.request w in
  fst run = inr (Proxy.error_response 500
    ("Bedrock invocation failed: " +:+ exn_str (unavailable "Converse"))) /\
  table (snd run) = table w /\ trace (snd run) = [].
Proof.
  intros w run.
  destruct (proxy_offline_stores_nothing (H := Lite.runtime) Sample.request w eq_refl)
    as (response & w' & Hrun & _ & Ht & Htr).
  unfold run. rewrite Hrun. simpl. split; [| split; [exact Ht | exact Htr]].
  assert (H0 : fst (Proxy.lambda_handler (H := Lite.runtime) Sample.request w)
               = inr (Proxy.error_response 500
                   ("Bedrock invocation failed: " +:+ exn_str (unavailable "Converse"))))
    by (vm_compute; reflexivity).
  rewrite Hrun in H0. exact H0.
Defined.

(** ** The system prompt *)

(** X24 The prompt opens with the persona.  Whenever
    [construct_system_prompt] returns, the prompt starts with the
    sentence "You are a <role> with a <tone> tone." followed by a line
    break, where role and tone are read from [brain.persona] and default
    to "AI Assistant" and "Professional" when the persona, or the brain,
    does not give them. *)
Theorem system_prompt_opens_with_persona `{Runtime} genome prompt :
  construct_system_prompt genome = inr prompt ->
  exists brain persona role tone rest,
    py_get genome "brain" (PDict []) = inr brain /\
    py_get brain "persona" (PDict []) = inr persona /\
    py_get persona "role" (PStr "AI Assistant") = inr role /\
    py_get persona "tone" (PStr "Professional") = inr tone /\
    prompt = "You are a " +:+ py_str role +:+ " with a " +:+ py_str tone +:+ " tone."
               +:+ newline +:+ rest.
Proof.
  unfold construct_system_prompt. intros Hrun.
  apply rbind_inr in Hrun as (brain & Hbrain & Hrun).
  apply rbind_inr in Hrun as (resources & _ & Hrun).
  apply rbind_inr in Hrun as (capabilities & _ & Hrun).
  apply rbind_inr in Hrun as (persona & Hpersona & Hrun).
  apply rbind_inr in Hrun as (role & Hrole & Hrun).
  apply rbind_inr in Hrun as (tone & Htone & Hrun).
  do 6 (apply rbind_inr in Hrun as (? & _ & Hrun)).
  apply rbind_inr in Hrun as (style_part & _ & Hrun).
  apply rbind_inr in Hrun as (objectives_part & _ & Hrun).
  apply rbind_inr in Hrun as (guidelines_part & _ & Hrun).
  apply rbind_inr in Hrun as (tools_part & _ & Hrun).
  unfold py_join in Hrun. cbn [app map str_parts] in Hrun.
  apply rbind_inr in Hrun as (parts & Hparts & Hrun). injection Hrun as <-.
  apply rbind_inr in Hparts as (parts1 & Hparts & Hp1). injection Hp1 as <-.
  apply rbind_inr in Hparts as (parts2 & _ & Hp2). injection Hp2 as <-.
  exists brain, persona, role, tone. eexists.
  repeat (split; [assumption |]). unfold join. cbn [String.concat].
  rewrite !append_assoc. reflexivity.
Qed.

Lemma system_prompt_opens_with_persona_witness :
  exists role tone rest,
    py_get (PDict []) "role" (PStr "AI Assistant") = inr role /\
    py_get (PDict []) "tone" (PStr "Professional") = inr tone /\
    "You are a AI Assistant with a Professional tone." +:+ newline
    = "You are a " +:+ py_str (H := Lite.runtime) role +:+ " with a "
        +:+ py_str (H := Lite.runtime) tone +:+ " tone." +:+ newline +:+ rest.
Proof.
  assert (H0 : construct_system_prompt (H := Lite.runtime) (PDict [("brain", PDict [])])
               = inr ("You are a AI Assistant with a Professional tone." +:+ newline))
    by (vm_compute; reflexivity).
  destruct (system_prompt_opens_with_persona (H := Lite.runtime) _ _ H0)
    as (brain & persona & role & tone & rest & Hb & Hp & Hr & Ht & Hprompt).
  injection Hb as <-. injection Hp as <-.
  exists role, tone, rest. split; [exact Hr |]. split; [exact Ht | exact Hprompt].
Defined.

(** * The Critic *)

(** ** The chat key, written by the Proxy and read by the Critic *)

Lemma append_String a (s t : string) : String a s +:+ t = String a (s +:+ t).
Proof. reflexivity. Qed.

Lemma append_empty (t : string) : EmptyString +:+ t = t.
Proof. reflexivity. Qed.

Lemma substring_app_length (v x : string) :
  String.substring 0 (String.length v) (v +:+ x) = v.
Proof.
  induction v as [| a v IH]; [destruct x; reflexivity |].
  rewrite append_String. simpl. f_equal. exact IH.
Qed.

Lemma prefix_cons a b (p s : string) :
  String.prefix (String a p) (String b s) = Ascii.eqb a b && String.prefix p s.
Proof.
  change (String.prefix (String a p) (String b s))
    with (if ascii_dec a b then String.prefix p s else false).
  destruct (ascii_dec a b) as [-> | Hne].
  - rewrite Ascii.eqb_refl. reflexivity.
  - apply Ascii.eqb_neq in Hne. rewrite Hne. reflexivity.
Qed.

Lemma prefix_empty (s : string) : String.prefix EmptyString s = true.
Proof. destruct s; reflexivity. Qed.

Lemma prefix_of_empty a (p : string) : String.prefix (String a p) EmptyString = false.
Proof. reflexivity. Qed.

Ltac split_eqb :=
  repeat match goal with
         | H : context [Ascii.eqb ?x ?y] |- _ =>
             destruct (Ascii.eqb_spec x y); subst; cbn [andb] in *;
             try discriminate; try congruence
         | |- context [Ascii.eqb ?x ?y] =>
             destruct (Ascii.eqb_spec x y); subst; cbn [andb] in *;
             try discriminate; try congruence
         end.

(** no chat marker starts inside the version key when the key does not
    hold [#CHAT] *)
Lemma prefix_chat_boundary a (v rest : string) :
  String.prefix "#CHAT" (String a v) = false ->
  String.prefix "#CHAT#" (String a v +:+ "#CHAT#" +:+ rest) = false.
Proof.
  intros Hv.
  destruct v as [| a2 [| a3 [| a4 [| a5 v5]]]];
    rewrite ?append_String, ?append_empty;
    rewrite ?prefix_cons, ?prefix_empty, ?prefix_of_empty in *;
    split_eqb; try reflexivity.
Qed.

Lemma index_chat_marker (v rest : string) :
  str_contains "#CHAT" v = false ->
  String.index 0 "#CHAT#" (v +:+ "#CHAT#" +:+ rest) = Some (String.length v).
Proof.
  unfold str_contains. induction v as [| a v IH]; intros Hv.
  - rewrite append_empty, !append_String. simpl. destruct rest; reflexivity.
  - assert (Hhere : String.prefix "#CHAT" (String a v) = false /\
                    String.index 0 "#CHAT" v = None).
    { cbn [String.index] in Hv.
      destruct (String.prefix "#CHAT" (String a v)); [discriminate |].
      destruct (String.index 0 "#CHAT" v); [discriminate | auto]. }
    destruct Hhere as [Hprefix Hrest].
    pose proof (prefix_chat_boundary a v rest Hprefix) as Hb.
    rewrite append_String in Hb |- *.
    cbn [String.index]. rewrite Hb.
    rewrite IH; [reflexivity |]. rewrite Hrest. reflexivity.
Qed.

(** X25 The Critic recovers the version the Proxy served.  The Proxy
    stores a chat under [<version_sk>#CHAT#<chat_id>]; for a version key
    that does not contain [#CHAT], [derive_genome_sk] applied to that
    chat key returns the version key, whatever the chat id.  A key
    without [#CHAT#] is refused with a [ValueError]. *)
Theorem critic_derives_the_served_version `{Runtime} version_sk chat_id :
  str_contains "#CHAT" version_sk = false ->
  Critic.derive_genome_sk (Proxy.chat_key (PStr version_sk) chat_id) = inr version_sk /\
  (str_contains "#CHAT#" chat_id = false ->
   Critic.derive_genome_sk chat_id
     = inl (ValueError ("Invalid chat_sk format: " +:+ chat_id))).
Proof.
  intros Hv. split.
  - unfold Critic.derive_genome_sk, Proxy.chat_key. simpl py_str.
    rewrite (index_chat_marker _ _ Hv), substring_app_length. reflexivity.
  - unfold str_contains, Critic.derive_genome_sk.
    destruct (String.index 0 "#CHAT#" chat_id); [discriminate | reflexivity].
Qed.

Lemma critic_derives_the_served_version_witness :
  Critic.derive_genome_sk (Proxy.chat_key (H := Lite.runtime)
                             (PStr "VERSION#2025-01-01T00:00:00") "c#CHAT#1")
  = inr "VERSION#2025-01-01T00:00:00".
Proof.
  apply (critic_derives_the_served_version (H := Lite.runtime)
           "VERSION#2025-01-01T00:00:00" "c#CHAT#1" eq_refl).
Defined.

(** ** The verdict the Critic records *)

Section CriticFacts.
Context `{Runtime}.

Lemma critic_update_chat_inr pk chat_sk critic_result w w' :
  Critic.update_chat pk chat_sk critic_result w = (inr tt, w') ->
  exists verdict item,
    py_item critic_result "verdict" = inr verdict /\
    table w' = <[(pk, chat_sk) := item]> (table w) /\
    trace w' = trace w ++ [Wrote (pk, chat_sk) item] /\
    dict_get "critic_verdict" item = Some verdict /\
    (Critic.is_fail verdict = false ->
     dict_get "critic_reason" item = Some PNone /\
     dict_get "failure_turn_index" item = Some PNone) /\
    (forall fields name,
       table w !! (pk, chat_sk) = Some (PDict fields) ->
       name ∉ ["critic_verdict"; "critic_reason"; "failure_turn_index"; "updated_at"] ->
       dict_get name item = assoc_get name fields) /\
    bus_faults w' = bus_faults w.
Proof.
  unfold Critic.update_chat. intros Hrun.
  apply bind_inr in Hrun as (verdict & ? & Hv & Hrun). apply lift_inr in Hv as [Hv ->].
  apply bind_inr in Hrun as (fd & ? & Hb & Hrun). apply lift_inr in Hb as [_ ->].
  apply bind_inr in Hrun as (reason & ? & Hreason & Hrun).
  apply lift_inr in Hreason as [Hreason ->].
  apply bind_inr in Hrun as (turn_idx & ? & Hturn & Hrun).
  apply lift_inr in Hturn as [Hturn ->].
  apply bind_inr in Hrun as (now & w1 & Hnow & Hrun).
  destruct (preserves_utcnow_isoformat _ _ _ Hnow) as [Ht1 Htr1].
  assert (Hbus1 : bus_faults w1 = bus_faults w).
  { unfold utcnow_isoformat in Hnow. destruct (clock w); injection Hnow as _ <-; reflexivity. }
  unfold update_item_set in Hrun.
  match type of Hrun with
  | context [if ?c then _ else _] => destruct c; [| discriminate]
  end.
  apply bind_inr in Hrun as (u & w2 & Hdb & Hrun).
  apply db_call_inr in Hdb as (Ht2 & Htr2 & _ & Hbus2 & _).
  injection Hrun as <-.
  eexists verdict, _. split; [exact Hv |].
  split; [simpl; rewrite Ht2, Ht1; reflexivity |].
  split; [simpl; rewrite Htr2, Htr1, Ht2, Ht1; reflexivity |].
  split; [| split; [| split]].
  - simpl. rewrite !assoc_get_set_ne by discriminate. apply assoc_get_set_eq.
  - intros Hpass. rewrite Hpass in Hreason, Hturn.
    injection Hreason as <-. injection Hturn as <-.
    split; simpl.
    + rewrite !assoc_get_set_ne by discriminate. apply assoc_get_set_eq.
    + rewrite !assoc_get_set_ne by discriminate. apply assoc_get_set_eq.
  - intros fields name Hfields Hname. rewrite Hfields. simpl.
    rewrite !assoc_get_set_ne; [reflexivity | ..]; intros <-; apply Hname;
      repeat first [apply list_elem_of_here | apply list_elem_of_further].
  - simpl. congruence.
Qed.

End CriticFacts.

(** X26 The Critic's update leaves the conversation alone.  When
    [update_chat] goes through, one item is written, at the chat's key:
    it carries the verdict; for a verdict other than FAIL the reason and
    the failing turn are recorded as None; and every other attribute the
    Chat item had, the transcript among them, is kept as it was. *)
Theorem verdict_update_keeps_the_transcript pk chat_sk critic_result w w' :
  Critic.update_chat pk chat_sk critic_result w = (inr tt, w') ->
  exists verdict item,
    py_item critic_result "verdict" = inr verdict /\
    table w' = <[(pk, chat_sk) := item]> (table w) /\
    trace w' = trace w ++ [Wrote (pk, chat_sk) item] /\
    dict_get "critic_verdict" item = Some verdict /\
    (Critic.is_fail verdict = false ->
     dict_get "critic_reason" item = Some PNone /\
     dict_get "failure_turn_index" item = Some PNone) /\
    (forall fields name,
       table w !! (pk, chat_sk) = Some (PDict fields) ->
       name ∉ ["critic_verdict"; "critic_reason"; "failure_turn_index"; "updated_at"] ->
       dict_get name item = assoc_get name fields).
Proof.
  intros Hrun.
  destruct (critic_update_chat_inr _ _ _ _ _ Hrun)
    as (verdict & item & Hv & Ht & Htr & Hcv & Hpass & Hkeep & _).
  exists verdict, item. auto 10.
Qed.

Lemma verdict_update_keeps_the_transcript_witness :
  let w := Sample.world [(Sample.chat_key, Sample.chat)] [] in
  let run := Critic.update_chat "AGENT#concierge" Sample.chat_sk
               (PDict [("verdict", PStr "PASS")]) w in
  fst run = inr tt /\
  attribute (table (snd run)) Sample.chat_key "critic_verdict" = Some (PStr "PASS") /\
  attribute (table (snd run)) Sample.chat_key "critic_reason" = Some PNone /\
  attribute (table (snd run)) Sample.chat_key "transcript"
    = attribute (table w) Sample.chat_key "transcript".
Proof.
  intros w run.
  assert (H0 : fst run = inr tt) by (vm_compute; reflexivity).
  split; [exact H0 |].
  destruct (verdict_update_keeps_the_transcript _ _ _ _ _ (run_returns _ _ _ H0))
    as (verdict & item & Hv & Ht & _ & Hcv & Hpass & Hkeep).
  injection Hv as <-.
  destruct (Hpass eq_refl) as [Hreason _].
  subst run. unfold attribute, Sample.chat_key. rewrite Ht, lookup_insert_eq.
  split; [exact Hcv |]. split; [exact Hreason |].
  apply (Hkeep _ "transcript" eq_refl).
  intros Hin. repeat (apply elem_of_cons in Hin as [[=] | Hin]).
  apply elem_of_nil in Hin. exact Hin.
Defined.

(** ** The Critic's handler *)

Section CriticHandler.
Context `{Runtime}.

Lemma reads_critic_fetch_chat pk chat_sk : reads_only (Critic.fetch_chat pk chat_sk).
Proof. unfold Critic.fetch_chat. reads. Qed.

Lemma reads_critic_fetch_genome pk genome_sk :
  reads_only (Critic.fetch_genome pk genome_sk).
Proof. unfold Critic.fetch_genome. reads. Qed.

Lemma preserves_audit_reply : preserves_store Critic.audit_reply.
Proof. unfold Critic.audit_reply. frame. Qed.

Lemma preserves_call_bedrock chat_item genome_item :
  preserves_store (Critic.call_bedrock chat_item genome_item).
Proof.
  unfold Critic.call_bedrock.
  do 10 (apply preserves_bind; [apply preserves_lift | intros ?]).
  destruct (negb _); [apply preserves_raise |].
  do 3 (apply preserves_bind; [apply preserves_lift | intros ?]).
  apply preserves_bind; [apply preserves_utcnow_isoformat | intros ?].
  apply preserves_bind.
  - apply preserves_try; [apply preserves_audit_reply | intros ?; apply preserves_raise].
  - intros result. frame.
Qed.

(** a result that [call_bedrock] returns carries PASS or FAIL, and the
    event bus was not touched *)
Lemma call_bedrock_inr chat_item genome_item w result w' :
  Critic.call_bedrock chat_item genome_item w = (inr result, w') ->
  (exists verdict,
     py_item result "verdict" = inr verdict /\ Critic.valid_verdict verdict = true) /\
  bus_faults w' = bus_faults w.
Proof.
  unfold Critic.call_bedrock. intros Hrun.
  do 10 (apply bind_inr in Hrun as (? & ? & Hb & Hrun); apply lift_inr in Hb as [_ ->]).
  destruct (negb _); [discriminate |].
  do 3 (apply bind_inr in Hrun as (? & ? & Hb & Hrun); apply lift_inr in Hb as [_ ->]).
  apply bind_inr in Hrun as (now & w1 & Hnow & Hrun).
  assert (Hbus1 : bus_faults w1 = bus_faults w).
  { unfold utcnow_isoformat in Hnow. destruct (clock w); injection Hnow as _ <-; reflexivity. }
  apply bind_inr in Hrun as (res & w2 & Htry & Hrun).
  assert (Hbus2 : bus_faults w2 = bus_faults w1).
  { apply try_except_inr in Htry as [Hok | (e & w3 & _ & _ & Hh)]; [| discriminate].
    unfold Critic.audit_reply in Hok.
    apply bind_inr in Hok as (text & w3 & Hbt & Hok).
    assert (bus_faults w3 = bus_faults w1) as <-.
    { unfold bedrock_text, bedrock_call in Hbt. destruct (gateway w1); [discriminate |].
      injection Hbt as _ <-. reflexivity. }
    apply bind_inr in Hok as (clean & w4 & Hclean & Hok).
    assert (w4 = w3) as ->.
    { destruct (Critic.fenced_json text); [apply ret_inr in Hclean as [_ ->]; reflexivity |].
      destruct (Critic.braced_json text); [| discriminate].
      apply ret_inr in Hclean as [_ ->]. reflexivity. }
    destruct (json_loads clean); [| discriminate].
    apply ret_inr in Hok as [_ ->]. reflexivity. }
  apply bind_inr in Hrun as (has & ? & Hb & Hrun). apply lift_inr in Hb as [_ ->].
  destruct has; [| discriminate]. cbn [negb] in Hrun.
  apply bind_inr in Hrun as (verdict & ? & Hv & Hrun). apply lift_inr in Hv as [Hv ->].
  destruct (Critic.valid_verdict verdict) eqn:Hvalid; [| discriminate].
  apply ret_inr in Hrun as [-> ->].
  split; [eauto | congruence].
Qed.

End CriticHandler.

(** X27 The Critic's event follows the verdict it recorded.  When the
    Critic handler returns, the audit gave PASS or FAIL, that verdict was
    written on the chat named by the event, and exactly when it is FAIL
    one event was put and delivered, for the version key derived from
    the chat key; on PASS no event is put.  Nothing else is written. *)
Theorem critic_event_follows_verdict `{Runtime} event w result w' :
  Critic.lambda_handler event w = (inr result, w') ->
  exists pk chat_sk genome_sk critic_result verdict item reason,
    Critic.pk event = Some pk /\ Critic.chat_sk event = Some chat_sk /\
    Critic.derive_genome_sk chat_sk = inr genome_sk /\
    result = PDict [("statusCode", PInt 200);
                    ("body", sanitize_for_json critic_result)] /\
    py_item critic_result "verdict" = inr verdict /\
    Critic.valid_verdict verdict = true /\
    dict_get "critic_verdict" item = Some verdict /\
    table w' = <[(pk, chat_sk) := item]> (table w) /\
    trace w' = trace w ++ Wrote (pk, chat_sk) item ::
                 if Critic.is_fail verdict
                 then [EventPut (Critic.event_detail pk chat_sk genome_sk reason) true]
                 else [].
Proof.
  unfold Critic.lambda_handler. intros Hrun.
  apply bind_inr in Hrun as (pk & ? & Hpk & Hrun). apply lift_inr in Hpk as [Hpk ->].
  apply bind_inr in Hrun as (chat_sk & ? & Hsk & Hrun). apply lift_inr in Hsk as [Hsk ->].
  destruct (Critic.pk event) as [pk0 |]; [injection Hpk as -> | discriminate].
  destruct (Critic.chat_sk event) as [sk0 |]; [injection Hsk as -> | discriminate].
  apply bind_inr in Hrun as (chat_item & w1 & Hchat & Hrun).
  apply reads_critic_fetch_chat in Hchat as (Ht1 & Htr1 & _).
  apply bind_inr in Hrun as (genome_sk & ? & Hgsk & Hrun).
  apply lift_inr in Hgsk as [Hgsk ->].
  apply bind_inr in Hrun as (genome_item & w2 & Hgen & Hrun).
  apply reads_critic_fetch_genome in Hgen as (Ht2 & Htr2 & _).
  apply bind_inr in Hrun as (critic_result & w3 & Hcall & Hrun).
  destruct (preserves_call_bedrock _ _ _ _ _ Hcall) as [Ht3 Htr3].
  apply call_bedrock_inr in Hcall as ((verdict & Hv & Hvalid) & _).
  apply bind_inr in Hrun as ([] & w4 & Hupd & Hrun).
  apply critic_update_chat_inr in Hupd
    as (verdict' & item & Hv' & Ht4 & Htr4 & Hcv & _ & _ & _).
  rewrite Hv in Hv'. injection Hv' as <-.
  apply bind_inr in Hrun as (verdict' & ? & Hv' & Hrun). apply lift_inr in Hv' as [Hv' ->].
  rewrite Hv in Hv'. injection Hv' as <-.
  apply bind_inr in Hrun as (u & w5 & Hemit & Hrun).
  apply ret_inr in Hrun as [-> ->].
  assert (Hstore : table w4 = <[(pk, chat_sk) := item]> (table w) /\
                   trace w4 = trace w ++ [Wrote (pk, chat_sk) item]).
  { rewrite Ht4, Htr4, Ht3, Htr3, Ht2, Htr2, Ht1, Htr1. auto. }
  destruct Hstore as [Ht Htr].
  destruct (Critic.is_fail verdict) eqn:Hfail.
  - unfold Critic.emit_event in Hemit.
    apply bind_inr in Hemit as (fd & ? & Hb & Hemit). apply lift_inr in Hb as [_ ->].
    apply bind_inr in Hemit as (reason & ? & Hb & Hemit). apply lift_inr in Hb as [_ ->].
    exists pk, chat_sk, genome_sk, critic_result, verdict, item, reason.
    rewrite Hfail. unfold put_events in Hemit.
    destruct (bus_faults w4) as [| [e |] rest]; try discriminate;
      injection Hemit as _ <-; simpl; rewrite Ht, Htr, <- app_assoc;
      repeat split; first [assumption | reflexivity].
  - apply ret_inr in Hemit as [_ ->].
    exists pk, chat_sk, genome_sk, critic_result, verdict, item, PNone.
    rewrite Hfail. repeat split; first [assumption | reflexivity].
Qed.

Lemma critic_event_follows_verdict_witness :
  let reply := "{" +:+ Lite.quoted "verdict" +:+ ": " +:+ Lite.quoted "FAIL" +:+ ", "
                   +:+ Lite.quoted "failure_detail" +:+ ": {"
                   +:+ Lite.quoted "reasoning" +:+ ": " +:+ Lite.quoted "Promised a refund"
                   +:+ ", " +:+ Lite.quoted "turn_index" +:+ ": 1}}" in
  let w := Sample.world [(Sample.parent_key, Sample.parent);
                         (Sample.chat_key, Sample.chat)] [inr reply] in
  let run := Critic.lambda_handler (H := Lite.runtime)
               (Critic.mkEvent (Some "AGENT#concierge") (Some Sample.chat_sk)) w in
  events (trace (snd run))
    = [EventPut (Critic.event_detail "AGENT#concierge" Sample.chat_sk
                   "VERSION#2025-01-01T00:00:00" (PStr "Promised a refund")) true] /\
  exists result genome_sk verdict,
    fst run = inr result /\
    Critic.derive_genome_sk Sample.chat_sk = inr genome_sk /\
    Critic.valid_verdict verdict = true.
Proof.
  intros reply w run. split; [vm_compute; reflexivity |].
  destruct (fst run) as [e | result] eqn:H0; [vm_compute in H0; discriminate |].
  destruct (critic_event_follows_verdict (H := Lite.runtime) _ _ _ _
              (run_returns _ _ _ H0))
    as (pk & csk & gsk & cr & verdict & item & reason
        & _ & Hcsk & Hg & _ & _ & Hvalid & _).
  injection Hcsk as <-. exists result, gsk, verdict. auto.
Defined.

Section CriticRules.
Context `{Runtime}.

Lemma call_bedrock_without_rules chat_item genome_item w r w' :
  (forall evolution_config critic_rules,
     py_get genome_item "evolution_config" (PDict []) = inr evolution_config ->
     py_get evolution_config "critic_rules" (PList []) = inr critic_rules ->
     py_truthy critic_rules = false) ->
  Critic.call_bedrock chat_item genome_item w = (r, w') ->
  (exists e, r = inl e) /\ w' = w.
Proof.
  intros Hrules. unfold Critic.call_bedrock.
  assert (Hstop : forall e : exn, (inl e, w) = (r, w') -> (exists e, r = inl e) /\ w' = w).
  { intros e [= <- <-]. eauto. }
  rewrite bind_lift. destruct (py_get chat_item _ _); [apply Hstop |].
  rewrite bind_lift. destruct (py_get genome_item "brain" _) as [| brain]; [apply Hstop |].
  rewrite bind_lift.
  destruct (py_get genome_item "resources" _) as [| resources]; [apply Hstop |].
  rewrite bind_lift.
  destruct (py_get genome_item "evolution_config" _) as [| ec] eqn:Hec; [apply Hstop |].
  do 5 (rewrite bind_lift;
        match goal with
        | |- context [match ?x with inl _ => _ | inr _ => _ end] =>
            destruct x; [apply Hstop |]
        end).
  rewrite bind_lift.
  destruct (py_get ec "critic_rules" _) as [| rules] eqn:Hr; [apply Hstop |].
  rewrite (Hrules ec rules eq_refl Hr). apply Hstop.
Qed.

End CriticRules.

(** X28 No rules, no audit.  When the genome of the chat's version has
    no [critic_rules] (the entry is missing or empty), the Critic handler
    raises before Bedrock is called: no verdict is recorded on the chat,
    nothing is written and no event is put. *)
Theorem critic_without_rules_never_audits `{Runtime} event w r w' :
  (forall pk chat_sk genome_sk stored evolution_config critic_rules,
     Critic.pk event = Some pk -> Critic.chat_sk event = Some chat_sk ->
     Critic.derive_genome_sk chat_sk = inr genome_sk ->
     table w !! (pk, genome_sk) = Some stored ->
     py_get (sanitize_for_json stored) "evolution_config" (PDict []) = inr evolution_config ->
     py_get evolution_config "critic_rules" (PList []) = inr critic_rules ->
     py_truthy critic_rules = false) ->
  Critic.lambda_handler event w = (r, w') ->
  (exists e, r = inl e) /\
  table w' = table w /\ trace w' = trace w /\ same_outside_db w w'.
Proof.
  intros Hrules. unfold Critic.lambda_handler.
  assert (Hstop : forall (e : exn) w0,
            table w0 = table w -> trace w0 = trace w -> same_outside_db w w0 ->
            (inl e, w0) = (r, w') ->
            (exists e, r = inl e) /\
            table w' = table w /\ trace w' = trace w /\ same_outside_db w w').
  { intros e w0 Ht Htr Hs [= <- <-]. eauto. }
  rewrite bind_lift.
  destruct (Critic.pk event) as [pk |];
    [| apply Hstop; auto using same_outside_db_refl].
  rewrite bind_lift.
  destruct (Critic.chat_sk event) as [chat_sk |];
    [| apply Hstop; auto using same_outside_db_refl].
  unfold bind at 1.
  destruct (Critic.fetch_chat pk chat_sk w) as [[e | chat_item] w1] eqn:Hchat;
    destruct (reads_critic_fetch_chat _ _ _ _ _ Hchat) as (Ht1 & Htr1 & Hs1);
    [apply Hstop; assumption |].
  rewrite bind_lift.
  destruct (Critic.derive_genome_sk chat_sk) as [e | genome_sk] eqn:Hgsk;
    [apply Hstop; assumption |].
  unfold bind at 1.
  destruct (Critic.fetch_genome pk genome_sk w1) as [[e | genome_item] w2] eqn:Hgen;
    destruct (reads_critic_fetch_genome _ _ _ _ _ Hgen) as (Ht2 & Htr2 & Hs2);
    assert (Ht2' : table w2 = table w) by congruence;
    assert (Htr2' : trace w2 = trace w) by congruence;
    assert (Hs2' : same_outside_db w w2)
      by (eapply same_outside_db_trans; eassumption);
    [apply Hstop; assumption |].
  unfold Critic.fetch_genome in Hgen.
  apply bind_inr in Hgen as (got & w3 & Hget & Hgen).
  apply get_item_inr in Hget. rewrite Ht1 in Hget. subst got.
  destruct (table w !! (pk, genome_sk)) as [stored |] eqn:Hstored; [| discriminate].
  apply ret_inr in Hgen as [-> _].
  unfold bind at 1.
  destruct (Critic.call_bedrock chat_item (sanitize_for_json stored) w2)
    as [rc w4] eqn:Hcall.
  apply call_bedrock_without_rules in Hcall as [(e & ->) ->].
  - apply Hstop; assumption.
  - intros ec rules Hec Hr.
    exact (Hrules pk chat_sk genome_sk stored ec rules eq_refl eq_refl Hgsk Hstored Hec Hr).
Qed.

Lemma critic_without_rules_never_audits_witness :
  let bare := PDict [("PK", PStr "AGENT#concierge");
                     ("SK", PStr "VERSION#2025-01-01T00:00:00");
                     ("brain", PDict [])] in
  let w := Sample.world [(Sample.parent_key, bare); (Sample.chat_key, Sample.chat)]
             [inr "unused"] in
  let run := Critic.lambda_handler (H := Lite.runtime)
               (Critic.mkEvent (Some "AGENT#concierge") (Some Sample.chat_sk)) w in
  fst run = inl (ValueError "No critic_rules found in genome evolution_config") /\
  table (snd run) = table w /\ gateway (snd run) = [inr "unused"].
Proof.
  intros bare w run. split; [vm_compute; reflexivity |].
  destruct (critic_without_rules_never_audits (H := Lite.runtime)
              (Critic.mkEvent (Some "AGENT#concierge") (Some Sample.chat_sk))
              w (fst run) (snd run)) as (_ & Ht & _ & Hgw & _).
  - intros pk chat_sk genome_sk stored ec rules [= <-] [= <-] Hg Hstored Hec Hr.
    vm_compute in Hg. injection Hg as <-.
    vm_compute in Hstored. injection Hstored as <-.
    vm_compute in Hec. injection Hec as <-.
    vm_compute in Hr. injection Hr as <-. reflexivity.
  - apply surjective_pairing.
  - split; [exact Ht | exact Hgw].
Defined.

(** ** The Judge's model call *)

(** X29 [invoke_judge_model] never raises.  Whatever Bedrock does, the
    call returns a value and consumes exactly one reply of the gateway:
    the parsed JSON of the reply when there is one, and the empty dict
    when the call fails, when the JSON found does not parse, or when the
    reply holds no brace at all. *)
Theorem judge_model_call_never_raises `{Runtime} w :
  exists v,
    Judge.invoke_judge_model w = (inr v, after_bedrock w) /\
    (forall e, fst (bedrock_text w) = inl e -> v = PDict []) /\
    (forall text m,
       fst (bedrock_text w) = inr text ->
       regex_json_span (strip text) = Some m ->
       v = match json_loads m with Some parsed => parsed | None => PDict [] end) /\
    (forall text,
       fst (bedrock_text w) = inr text ->
       regex_json_span (strip text) = None ->
       String.index 0 "{" (strip text) = None -> v = PDict []).
Proof.
  unfold Judge.invoke_judge_model, try_except, bind, after_bedrock, any_exception.
  destruct (bedrock_text w) as [[e | text] w1]; cbn [fst snd].
  { eexists. split; [reflexivity |]. split; [reflexivity |].
    split; intros; discriminate. }
  destruct (regex_json_span (strip text)) as [m |] eqn:Hspan.
  - exists (match json_loads m with Some parsed => parsed | None => PDict [] end).
    split; [destruct (json_loads m); reflexivity |].
    split; [intros; discriminate |]. split.
    + intros text' m' [= <-] Hm. rewrite Hspan in Hm. injection Hm as <-. reflexivity.
    + intros text' [= <-] Hnone. rewrite Hspan in Hnone. discriminate.
  - destruct (String.index 0 "{" (strip text)) as [start |] eqn:Hstart.
    + match goal with
      | |- context [json_loads ?s] =>
          exists (match json_loads s with Some parsed => parsed | None => PDict [] end);
          split; [destruct (json_loads s); reflexivity |]
      end.
      split; [intros; discriminate |]. split.
      * intros text' m' [= <-] Hm. rewrite Hspan in Hm. discriminate.
      * intros text' [= <-] _ Hnone. rewrite Hstart in Hnone. discriminate.
    + exists (PDict []). split; [reflexivity |]. split; [intros; discriminate |].
      split; [| reflexivity].
      intros text' m' [= <-] Hm. rewrite Hspan in Hm. discriminate.
Qed.

Lemma judge_model_call_never_raises_witness :
  Judge.invoke_judge_model (H := Lite.runtime)
    (Sample.world [] [inl (Sample.throttled "Converse")])
  = (inr (PDict []), Sample.world [] []).
Proof.
  destruct (judge_model_call_never_raises (H := Lite.runtime)
              (Sample.world [] [inl (Sample.throttled "Converse")]))
    as (v & Hrun & Herr & _).
  rewrite Hrun, (Herr _ eq_refl). reflexivity.
Defined.
